(** * Cashbook: window resolution, ledger aggregation, refresh, export

    A shallow embedding of the cash-ledger view of the motel manager
    ([src/pages/Cashbook.tsx]) and of the income insert helper
    ([src/lib/payments.ts]), together with the part of the JavaScript
    platform these two files rely on ([Date], [Number], [try]/[catch]).

    Layout: the platform, then the program, then the reference
    definitions the properties are stated against, then concrete data and
    proof tools, then the lemmas and theorems, and last the scenarios of
    the specification evaluated in the zone UTC+7.

    Modelling conventions.
    - A ledger amount is a JavaScript number, that is an IEEE 754
      binary64 value ([Double]), added and subtracted with the rounding of
      that format; [null] amounts are [None].
    - A [Date] object is its time value: milliseconds since the epoch in
      UTC, or [None] for the invalid date (time value NaN).
    - The host time zone is one fixed offset from UTC, [LocalTZA], in
      milliseconds (the deployment zone, Asia/Ho_Chi_Minh, is UTC+7 without
      daylight saving).
    - The string produced by [toISOString] denotes an instant; it is
      represented by that instant (epoch milliseconds).
    - React state is a record; a handler reads the state of the render it
      was created in and queues updates that are applied in order. *)

From Stdlib Require Import ZArith Lia Bool List String Ascii SpecFloat.
From stdpp Require Import gmap strings.
Import ListNotations.
Local Open Scope Z_scope.

Ltac Zify.zify_post_hook ::= Z.to_euclidean_division_equations.

(* ================================================================== *)
(** ** Platform: ECMAScript time values (ECMA-262, Date objects)       *)
(* ================================================================== *)

Definition msPerSecond : Z := 1000.
Definition msPerMinute : Z := 60000.
Definition msPerHour : Z := 3600000.
Definition msPerDay : Z := 86400000.

Definition Day (t : Z) : Z := t / msPerDay.
Definition TimeWithinDay (t : Z) : Z := t mod msPerDay.

Definition DayFromYear (y : Z) : Z :=
  365 * (y - 1970) + (y - 1969) / 4 - (y - 1901) / 100 + (y - 1601) / 400.

Definition isLeapYear (y : Z) : bool :=
  if negb (y mod 4 =? 0) then false
  else if negb (y mod 100 =? 0) then true
  else if negb (y mod 400 =? 0) then false
  else true.

Definition DaysInYear (y : Z) : Z := if isLeapYear y then 366 else 365.

(** The largest year whose first day is not after day [d]: an estimate
    from the mean length of the Gregorian year, corrected by one. *)
Definition YearFromDay (d : Z) : Z :=
  let y0 := 1970 + (400 * d) / 146097 in
  if d <? DayFromYear y0 then y0 - 1
  else if DayFromYear (y0 + 1) <=? d then y0 + 1
  else y0.

Definition YearFromTime (t : Z) : Z := YearFromDay (Day t).
Definition DayWithinYear (t : Z) : Z := Day t - DayFromYear (YearFromTime t).
Definition InLeapYear (t : Z) : Z := if isLeapYear (YearFromTime t) then 1 else 0.

Definition MonthFromTime (t : Z) : Z :=
  let d := DayWithinYear t in
  let l := InLeapYear t in
  if d <? 31 then 0
  else if d <? 59 + l then 1
  else if d <? 90 + l then 2
  else if d <? 120 + l then 3
  else if d <? 151 + l then 4
  else if d <? 181 + l then 5
  else if d <? 212 + l then 6
  else if d <? 243 + l then 7
  else if d <? 273 + l then 8
  else if d <? 304 + l then 9
  else if d <? 334 + l then 10
  else 11.

Definition DateFromTime (t : Z) : Z :=
  let d := DayWithinYear t in
  let l := InLeapYear t in
  match MonthFromTime t with
  | 0 => d + 1
  | 1 => d - 30
  | 2 => d - 58 - l
  | 3 => d - 89 - l
  | 4 => d - 119 - l
  | 5 => d - 150 - l
  | 6 => d - 180 - l
  | 7 => d - 211 - l
  | 8 => d - 242 - l
  | 9 => d - 272 - l
  | 10 => d - 303 - l
  | _ => d - 333 - l
  end.

(** Day of the year on which month [mn] (0-based) starts. *)
Definition DaysBeforeMonth (mn : Z) (leap : bool) : Z :=
  let l := if leap then 1 else 0 in
  match mn with
  | 0 => 0
  | 1 => 31
  | 2 => 59 + l
  | 3 => 90 + l
  | 4 => 120 + l
  | 5 => 151 + l
  | 6 => 181 + l
  | 7 => 212 + l
  | 8 => 243 + l
  | 9 => 273 + l
  | 10 => 304 + l
  | _ => 334 + l
  end.

(** [month] and [date] may lie outside their calendar ranges: months carry
    into the year, days are counted from the first of the month. *)
Definition MakeDay (year month date : Z) : Z :=
  let ym := year + month / 12 in
  let mn := month mod 12 in
  DayFromYear ym + DaysBeforeMonth mn (isLeapYear ym) + date - 1.

Definition MakeTime (hour min sec ms : Z) : Z :=
  hour * msPerHour + min * msPerMinute + sec * msPerSecond + ms.

Definition MakeDate (day time : Z) : Z := day * msPerDay + time.

Definition TimeClip (t : Z) : option Z :=
  if Z.abs t <=? 8640000000000000 then Some t else None.

(** The full year of a year argument: 0 to 99 stand for 1900 to 1999. *)
Definition MakeFullYear (y : Z) : Z :=
  if (0 <=? y) && (y <=? 99) then 1900 + y else y.

Definition DaysInMonth (y m : Z) : Z :=
  match m with
  | 2 => if isLeapYear y then 29 else 28
  | 4 | 6 | 9 | 11 => 30
  | _ => 31
  end.

(* ================================================================== *)
(** ** Platform: reading a date-time string                            *)
(* ================================================================== *)

Definition digitValue (c : ascii) : option Z :=
  let n := Z.of_N (N_of_ascii c) in
  if (48 <=? n) && (n <=? 57) then Some (n - 48) else None.

Definition number2 (a b : ascii) : option Z :=
  x ← digitValue a; y ← digitValue b; Some (10 * x + y).

Definition number3 (a b c : ascii) : option Z :=
  x ← digitValue a; y ← number2 b c; Some (100 * x + y).

Definition number4 (a b c d : ascii) : option Z :=
  x ← number2 a b; y ← number2 c d; Some (100 * x + y).

Definition isChar (c : ascii) (lit : string) : bool :=
  match lit with
  | String l EmptyString => Ascii.eqb c l
  | _ => false
  end.

(** A calendar date as written in a date input: year, month (1..12) and
    day of the month. *)
Record YMD := { ymd_year : Z; ymd_month : Z; ymd_day : Z }.

Definition validYMD (d : YMD) : bool :=
  (1 <=? ymd_month d) && (ymd_month d <=? 12) &&
  (1 <=? ymd_day d) && (ymd_day d <=? DaysInMonth (ymd_year d) (ymd_month d)).

(** The ten characters [YYYY-MM-DD] of a calendar date that exists. *)
Definition readDate (cs : list ascii) : option YMD :=
  match cs with
  | [y1; y2; y3; y4; c1; m1; m2; c2; d1; d2] =>
      if isChar c1 "-" && isChar c2 "-" then
        y ← number4 y1 y2 y3 y4;
        m ← number2 m1 m2;
        d ← number2 d1 d2;
        let r := {| ymd_year := y; ymd_month := m; ymd_day := d |} in
        if validYMD r then Some r else None
      else None
  | _ => None
  end.

(** The characters [HH:mm:ss] or [HH:mm:ss.sss] of a time of day, as
    milliseconds since midnight; hour 24 is midnight at the end of the day. *)
Definition readTime (cs : list ascii) : option Z :=
  match cs with
  | h1 :: h2 :: c1 :: n1 :: n2 :: c2 :: s1 :: s2 :: rest =>
      if isChar c1 ":" && isChar c2 ":" then
        h ← number2 h1 h2;
        n ← number2 n1 n2;
        s ← number2 s1 s2;
        ms ← match rest with
             | [] => Some 0
             | [c3; f1; f2; f3] => if isChar c3 "." then number3 f1 f2 f3 else None
             | _ => None
             end;
        if ((h <=? 23) && (n <=? 59) && (s <=? 59))
           || ((h =? 24) && (n =? 0) && (s =? 0) && (ms =? 0))
        then Some (MakeTime h n s ms) else None
      else None
  | _ => None
  end.

(** The value of a date input as a calendar date. *)
Definition isoDate (s : string) : option YMD := readDate (list_ascii_of_string s).

(** Day number (days since the epoch) of a calendar date. *)
Definition dayNumber (d : YMD) : Z := MakeDay (ymd_year d) (ymd_month d - 1) (ymd_day d).

(* ================================================================== *)
(** ** Platform: numbers read from strings ([Number(string)])          *)
(* ================================================================== *)

(** A JavaScript number as far as this program looks at it: NaN, an
    infinity, or a finite value [significand * 10 ^ exponent10].  The finite
    value is kept as the decimal that was read; its rounding to binary64 is
    modelled where it changes the class of the number (overflow to an
    infinity, underflow to zero). *)
Inductive JSNumber :=
| JsNaN
| JsInfinity (negative : bool)
| JsFinite (significand exponent10 : Z).

Definition Number_isFinite (x : JSNumber) : bool :=
  match x with JsFinite _ _ => true | _ => false end.

(** [x <= 0] *)
Definition lessEqZero (x : JSNumber) : bool :=
  match x with
  | JsNaN => false
  | JsInfinity negative => negative
  | JsFinite m _ => m <=? 0
  end.

(** Decimals at or above this bound round to an infinity. *)
Definition overflowBound : Z := 2 ^ 1024 - 2 ^ 970.

(** The number denoted by [m * 10 ^ e], where [0 <= m < 10 ^ digits]. *)
Definition roundDecimal (negative : bool) (m digits e : Z) : JSNumber :=
  let v := if negative then - m else m in
  if m =? 0 then JsFinite 0 0
  else if 400 <? e then JsInfinity negative
  else if e + digits <? -400 then JsFinite 0 0
  else if 0 <=? e then
    if overflowBound <=? m * 10 ^ e then JsInfinity negative else JsFinite v e
  else if overflowBound * 10 ^ (- e) <=? m then JsInfinity negative
  else if m * 2 ^ 1075 <=? 10 ^ (- e) then JsFinite 0 0
  else JsFinite v e.

(** Leading white space and line terminators (UTF-8) are dropped. *)
Fixpoint skipWhite (cs : list ascii) : list ascii :=
  match cs with
  | c :: r1 =>
      let b := Z.of_N (N_of_ascii c) in
      if (b =? 9) || (b =? 10) || (b =? 11) || (b =? 12) || (b =? 13) || (b =? 32)
      then skipWhite r1
      else
        match r1 with
        | c2 :: r2 =>
            let b2 := Z.of_N (N_of_ascii c2) in
            if (b =? 194) && (b2 =? 160) then skipWhite r2
            else
              match r2 with
              | c3 :: r3 =>
                  let b3 := Z.of_N (N_of_ascii c3) in
                  if ((b =? 225) && (b2 =? 154) && (b3 =? 128))
                     || ((b =? 226) && (b2 =? 128)
                         && (((128 <=? b3) && (b3 <=? 138)) || (b3 =? 168)
                             || (b3 =? 169) || (b3 =? 175)))
                     || ((b =? 226) && (b2 =? 129) && (b3 =? 159))
                     || ((b =? 227) && (b2 =? 128) && (b3 =? 128))
                     || ((b =? 239) && (b2 =? 187) && (b3 =? 191))
                  then skipWhite r3
                  else cs
              | [] => cs
              end
        | [] => cs
        end
  | [] => []
  end.

Fixpoint spanDigits (value : ascii -> option Z) (cs : list ascii) : list Z * list ascii :=
  match cs with
  | c :: r =>
      match value c with
      | Some d => let (ds, r') := spanDigits value r in (d :: ds, r')
      | None => ([], cs)
      end
  | [] => ([], [])
  end.

Definition digitsValue (base : Z) (ds : list Z) : Z :=
  fold_left (fun acc d => base * acc + d) ds 0.

Definition hexValue (c : ascii) : option Z :=
  let n := Z.of_N (N_of_ascii c) in
  if (48 <=? n) && (n <=? 57) then Some (n - 48)
  else if (65 <=? n) && (n <=? 70) then Some (n - 55)
  else if (97 <=? n) && (n <=? 102) then Some (n - 87)
  else None.

Definition octalValue (c : ascii) : option Z :=
  let n := Z.of_N (N_of_ascii c) in
  if (48 <=? n) && (n <=? 55) then Some (n - 48) else None.

Definition binaryValue (c : ascii) : option Z :=
  let n := Z.of_N (N_of_ascii c) in
  if (48 <=? n) && (n <=? 49) then Some (n - 48) else None.

Fixpoint stripPrefix (p cs : list ascii) : option (list ascii) :=
  match p, cs with
  | [], _ => Some cs
  | a :: p', c :: cs' => if Ascii.eqb a c then stripPrefix p' cs' else None
  | _ :: _, [] => None
  end.

(** Digits in [base] up to the end of the literal. *)
Definition readRadix (base : Z) (value : ascii -> option Z) (cs : list ascii) : JSNumber :=
  let (ds, rest) := spanDigits value cs in
  match ds, skipWhite rest with
  | _ :: _, [] => roundDecimal false (digitsValue base ds) 0 0
  | _, _ => JsNaN
  end.

(** An optional exponent part; when the characters after [e] are not an
    exponent nothing is consumed. *)
Definition readExponent (cs : list ascii) : Z * list ascii :=
  match cs with
  | c :: r =>
      if isChar c "e" || isChar c "E" then
        let '(negative, r1) :=
          match r with
          | s :: r' => if isChar s "+" then (false, r')
                       else if isChar s "-" then (true, r')
                       else (false, r)
          | [] => (false, r)
          end in
        let (ds, rest) := spanDigits digitValue r1 in
        match ds with
        | _ :: _ => ((if negative then - digitsValue 10 ds else digitsValue 10 ds), rest)
        | [] => (0, cs)
        end
      else (0, cs)
  | [] => (0, cs)
  end.

(** A decimal literal after its sign. *)
Definition readUnsignedDecimal (negative : bool) (cs : list ascii) : JSNumber :=
  match stripPrefix (list_ascii_of_string "Infinity") cs with
  | Some rest => match skipWhite rest with [] => JsInfinity negative | _ => JsNaN end
  | None =>
      let (ip, r1) := spanDigits digitValue cs in
      let (fp, r2) :=
        match r1 with
        | c :: r => if isChar c "." then spanDigits digitValue r else ([], r1)
        | [] => ([], r1)
        end in
      match ip ++ fp with
      | [] => JsNaN
      | ds =>
          let (e, r3) := readExponent r2 in
          match skipWhite r3 with
          | [] => roundDecimal negative (digitsValue 10 ds) (Z.of_nat (length ds))
                               (e - Z.of_nat (length fp))
          | _ => JsNaN
          end
      end
  end.

(** [Number(s)] for a string [s]. *)
Definition StringToNumber (s : string) : JSNumber :=
  match skipWhite (list_ascii_of_string s) with
  | [] => JsFinite 0 0
  | (c :: r) as cs =>
      if isChar c "+" then readUnsignedDecimal false r
      else if isChar c "-" then readUnsignedDecimal true r
      else
        match r with
        | x :: r' =>
            if isChar c "0" && (isChar x "x" || isChar x "X") then readRadix 16 hexValue r'
            else if isChar c "0" && (isChar x "o" || isChar x "O") then readRadix 8 octalValue r'
            else if isChar c "0" && (isChar x "b" || isChar x "B") then readRadix 2 binaryValue r'
            else readUnsignedDecimal false cs
        | [] => readUnsignedDecimal false cs
        end
  end.

(* ================================================================== *)
(** ** Platform: numbers written as strings                            *)
(* ================================================================== *)

(** The decimal digits of [n >= 0], most significant first, in front of
    [acc]; [fuel] bounds the number of digits. *)
Fixpoint decimalDigits (fuel : nat) (n : Z) (acc : string) : string :=
  match fuel with
  | O => acc
  | S fuel' =>
      let acc' := String (ascii_of_N (Z.to_N (48 + n mod 10))) acc in
      if n <? 10 then acc' else decimalDigits fuel' (n / 10) acc'
  end.

(** [String(x)] for a number that is an integer (below 10^21 in absolute
    value, where the decimal form is used) or NaN ([None]). *)
Definition NumberToString (x : option Z) : string :=
  match x with
  | None => "NaN"
  | Some n =>
      if n <? 0
      then String "-" (decimalDigits (S (Z.to_nat (Z.log2 (- n)))) (- n) "")
      else decimalDigits (S (Z.to_nat (Z.log2 n))) n ""
  end.

(** [fillString] repeated and cut to [n] characters; [rest] is what is
    left of the copy in progress. *)
Fixpoint fillTo (n : nat) (fillString rest : string) : string :=
  match n with
  | O => EmptyString
  | S n' =>
      match rest with
      | String c r => String c (fillTo n' fillString r)
      | EmptyString =>
          match fillString with
          | String c r => String c (fillTo n' fillString r)
          | EmptyString => EmptyString
          end
      end
  end.

(** [s.padStart(maxLength, fillString)] *)
Definition padStart (maxLength : nat) (fillString s : string) : string :=
  if (maxLength <=? String.length s)%nat then s
  else fillTo (maxLength - String.length s) fillString fillString +:+ s.

(* ================================================================== *)
(** ** Platform: numbers (ECMA-262, the Number type)                   *)
(* ================================================================== *)

(** A Number is an IEEE 754 binary64 value: 53 bits of precision, the
    exponent of the infinities 1024.  [+] and [-] round to nearest, ties
    to even. *)
Definition Double : Type := spec_float.

(** The literal [0]. *)
Definition Double_zero : Double := S754_zero false.

(** [x + y] *)
Definition Double_add : Double -> Double -> Double := SFadd 53 1024.

(** [x - y] *)
Definition Double_sub : Double -> Double -> Double := SFsub 53 1024.

(** The Number nearest to the whole number [n]; it is [n] itself while
    [|n| <= 2^53]. *)
Definition Double_of_Z (n : Z) : Double := binary_normalize 53 1024 n 0 false.

(** The Number [m * 2^e], rounded. *)
Definition Double_of_binary (m e : Z) : Double := binary_normalize 53 1024 m e false.

Section Cashbook.

(** Offset of local time from UTC, in milliseconds. *)
Variable LocalTZA : Z.

Definition LocalTime (t : Z) : Z := t + LocalTZA.
Definition UTC (t : Z) : Z := t - LocalTZA.

(** A [Date] object: its time value, [None] when it is NaN. *)
Definition Date : Type := option Z.

(** [Date.parse] on the single form this program builds: a date-input value
    followed by ["T"] and a time of day, without a zone, which is read as
    local time.  The other forms of the date-time format (date only, zone
    suffix, signed six-digit years) cannot arise from that construction and
    are not modelled; on strings outside the format, and on a day that does
    not exist in its month, engines differ, and the model gives the invalid
    date.  The properties below are stated for anchors that are calendar
    dates, on which all engines agree. *)
Definition Date_parse (s : string) : Date :=
  let cs := list_ascii_of_string s in
  match drop 10 cs with
  | sep :: time =>
      if isChar sep "T" then
        d ← readDate (take 10 cs);
        tod ← readTime time;
        TimeClip (UTC (MakeDate (dayNumber d) tod))
      else None
  | [] => None
  end.

(** [new Date(string)] *)
Definition Date_of_string (s : string) : Date := Date_parse s.

(** [new Date(date)] *)
Definition Date_of_Date (d : Date) : Date := t ← d; TimeClip t.

(** [new Date(year, month, date, hours, minutes, seconds, ms)]: a year
    from 0 to 99 stands for 1900 + year; a NaN argument gives the invalid
    date. *)
Definition Date_of_fields (year month : option Z) (date hours minutes seconds ms : Z) : Date :=
  y ← year;
  m ← month;
  let yr := MakeFullYear y in
  TimeClip (UTC (MakeDate (MakeDay yr m date) (MakeTime hours minutes seconds ms))).

Definition getFullYear (d : Date) : option Z := t ← d; Some (YearFromTime (LocalTime t)).
Definition getMonth (d : Date) : option Z := t ← d; Some (MonthFromTime (LocalTime t)).
Definition getDate (d : Date) : option Z := t ← d; Some (DateFromTime (LocalTime t)).

(** [d.setDate(date)]: the new time value of [d]. *)
Definition setDate (d : Date) (date : option Z) : Date :=
  t ← d;
  dt ← date;
  let t := LocalTime t in
  TimeClip (UTC (MakeDate (MakeDay (YearFromTime t) (MonthFromTime t) dt) (TimeWithinDay t))).

(** [d.setHours(hour, min, sec, ms)]: the new time value of [d]. *)
Definition setHours (d : Date) (hour min sec ms : Z) : Date :=
  t ← d;
  let t := LocalTime t in
  TimeClip (UTC (MakeDate (Day t) (MakeTime hour min sec ms))).

(** [d.toISOString()]: the instant written out, or [None] when the call
    throws a [RangeError] because [d] is the invalid date. *)
Definition toISOString (d : Date) : option Z := d.

Definition RangeError_message : string := "Invalid time value".

(* ================================================================== *)
(** ** The program: data ([src/pages/Cashbook.tsx], [src/lib/payments.ts]) *)
(* ================================================================== *)

Inductive PaymentType := INCOME | EXPENSE.
Inductive PaymentMethod := CASH | TRANSFER | CARD.
Inductive FilterMode := TODAY | D7 | D30 | RANGE.
Inductive MsgType := error | success | info.

Definition PaymentType_eqb (a b : PaymentType) : bool :=
  match a, b with
  | INCOME, INCOME | EXPENSE, EXPENSE => true
  | _, _ => false
  end.

Definition FilterMode_eqb (a b : FilterMode) : bool :=
  match a, b with
  | TODAY, TODAY | D7, D7 | D30, D30 | RANGE, RANGE => true
  | _, _ => false
  end.

(** A row of the [payments] table as the list query selects it.  The
    amount is declared a number; the code guards it with [?? 0]. *)
Record PaymentRow := {
  r_id : string;
  r_type : PaymentType;
  r_amount : option Double;
  r_method : PaymentMethod;
  r_note : option string;
  r_paid_at : string;
  r_stay_id : option string;
  r_room_id : option string
}.

(** A row of the [type,amount] projection used for the day and month cards. *)
Record TotalsRow := { t_type : PaymentType; t_amount : option Double }.

Record RoomLite := { room_id : string; room_name : string }.

(** A row of the [rooms] table as selected ([id,name]). *)
Record RoomRecord := { rec_id : string; rec_name : option string }.

Record State := {
  loading : bool;
  msg : string;
  msgType : MsgType;
  propertyId : option string;
  selectedDate : string;
  filterMode : FilterMode;
  rangeFrom : string;
  rangeTo : string;
  rooms : list RoomLite;
  roomNameById : gmap string string;
  rows : list PaymentRow;
  dayIncome : Double;
  dayExpense : Double;
  monthIncome : Double;
  monthExpense : Double;
  expAmount : string;
  expMethod : PaymentMethod;
  expNote : string;
  expDate : string;
  expRoomId : string;
  submittingExpense : bool
}.

Definition setLoading (v : bool) (st : State) : State :=
  {| loading := v; msg := msg st; msgType := msgType st;
     propertyId := propertyId st; selectedDate := selectedDate st;
     filterMode := filterMode st; rangeFrom := rangeFrom st;
     rangeTo := rangeTo st; rooms := rooms st;
     roomNameById := roomNameById st; rows := rows st;
     dayIncome := dayIncome st; dayExpense := dayExpense st;
     monthIncome := monthIncome st; monthExpense := monthExpense st;
     expAmount := expAmount st; expMethod := expMethod st;
     expNote := expNote st; expDate := expDate st; expRoomId := expRoomId st;
     submittingExpense := submittingExpense st |}.

Definition setMsg (v : string) (st : State) : State :=
  {| loading := loading st; msg := v; msgType := msgType st;
     propertyId := propertyId st; selectedDate := selectedDate st;
     filterMode := filterMode st; rangeFrom := rangeFrom st;
     rangeTo := rangeTo st; rooms := rooms st;
     roomNameById := roomNameById st; rows := rows st;
     dayIncome := dayIncome st; dayExpense := dayExpense st;
     monthIncome := monthIncome st; monthExpense := monthExpense st;
     expAmount := expAmount st; expMethod := expMethod st;
     expNote := expNote st; expDate := expDate st; expRoomId := expRoomId st;
     submittingExpense := submittingExpense st |}.

Definition setMsgType (v : MsgType) (st : State) : State :=
  {| loading := loading st; msg := msg st; msgType := v;
     propertyId := propertyId st; selectedDate := selectedDate st;
     filterMode := filterMode st; rangeFrom := rangeFrom st;
     rangeTo := rangeTo st; rooms := rooms st;
     roomNameById := roomNameById st; rows := rows st;
     dayIncome := dayIncome st; dayExpense := dayExpense st;
     monthIncome := monthIncome st; monthExpense := monthExpense st;
     expAmount := expAmount st; expMethod := expMethod st;
     expNote := expNote st; expDate := expDate st; expRoomId := expRoomId st;
     submittingExpense := submittingExpense st |}.

Definition setSelectedDate (v : string) (st : State) : State :=
  {| loading := loading st; msg := msg st; msgType := msgType st;
     propertyId := propertyId st; selectedDate := v;
     filterMode := filterMode st; rangeFrom := rangeFrom st;
     rangeTo := rangeTo st; rooms := rooms st;
     roomNameById := roomNameById st; rows := rows st;
     dayIncome := dayIncome st; dayExpense := dayExpense st;
     monthIncome := monthIncome st; monthExpense := monthExpense st;
     expAmount := expAmount st; expMethod := expMethod st;
     expNote := expNote st; expDate := expDate st; expRoomId := expRoomId st;
     submittingExpense := submittingExpense st |}.

Definition setFilterMode (v : FilterMode) (st : State) : State :=
  {| loading := loading st; msg := msg st; msgType := msgType st;
     propertyId := propertyId st; selectedDate := selectedDate st;
     filterMode := v; rangeFrom := rangeFrom st; rangeTo := rangeTo st;
     rooms := rooms st; roomNameById := roomNameById st; rows := rows st;
     dayIncome := dayIncome st; dayExpense := dayExpense st;
     monthIncome := monthIncome st; monthExpense := monthExpense st;
     expAmount := expAmount st; expMethod := expMethod st;
     expNote := expNote st; expDate := expDate st; expRoomId := expRoomId st;
     submittingExpense := submittingExpense st |}.

Definition setRangeFrom (v : string) (st : State) : State :=
  {| loading := loading st; msg := msg st; msgType := msgType st;
     propertyId := propertyId st; selectedDate := selectedDate st;
     filterMode := filterMode st; rangeFrom := v; rangeTo := rangeTo st;
     rooms := rooms st; roomNameById := roomNameById st; rows := rows st;
     dayIncome := dayIncome st; dayExpense := dayExpense st;
     monthIncome := monthIncome st; monthExpense := monthExpense st;
     expAmount := expAmount st; expMethod := expMethod st;
     expNote := expNote st; expDate := expDate st; expRoomId := expRoomId st;
     submittingExpense := submittingExpense st |}.

Definition setRangeTo (v : string) (st : State) : State :=
  {| loading := loading st; msg := msg st; msgType := msgType st;
     propertyId := propertyId st; selectedDate := selectedDate st;
     filterMode := filterMode st; rangeFrom := rangeFrom st; rangeTo := v;
     rooms := rooms st; roomNameById := roomNameById st; rows := rows st;
     dayIncome := dayIncome st; dayExpense := dayExpense st;
     monthIncome := monthIncome st; monthExpense := monthExpense st;
     expAmount := expAmount st; expMethod := expMethod st;
     expNote := expNote st; expDate := expDate st; expRoomId := expRoomId st;
     submittingExpense := submittingExpense st |}.

Definition setRooms (v : list RoomLite) (st : State) : State :=
  {| loading := loading st; msg := msg st; msgType := msgType st;
     propertyId := propertyId st; selectedDate := selectedDate st;
     filterMode := filterMode st; rangeFrom := rangeFrom st;
     rangeTo := rangeTo st; rooms := v; roomNameById := roomNameById st;
     rows := rows st; dayIncome := dayIncome st; dayExpense := dayExpense st;
     monthIncome := monthIncome st; monthExpense := monthExpense st;
     expAmount := expAmount st; expMethod := expMethod st;
     expNote := expNote st; expDate := expDate st; expRoomId := expRoomId st;
     submittingExpense := submittingExpense st |}.

Definition setRoomNameById (v : gmap string string) (st : State) : State :=
  {| loading := loading st; msg := msg st; msgType := msgType st;
     propertyId := propertyId st; selectedDate := selectedDate st;
     filterMode := filterMode st; rangeFrom := rangeFrom st;
     rangeTo := rangeTo st; rooms := rooms st; roomNameById := v;
     rows := rows st; dayIncome := dayIncome st; dayExpense := dayExpense st;
     monthIncome := monthIncome st; monthExpense := monthExpense st;
     expAmount := expAmount st; expMethod := expMethod st;
     expNote := expNote st; expDate := expDate st; expRoomId := expRoomId st;
     submittingExpense := submittingExpense st |}.

Definition setRows (v : list PaymentRow) (st : State) : State :=
  {| loading := loading st; msg := msg st; msgType := msgType st;
     propertyId := propertyId st; selectedDate := selectedDate st;
     filterMode := filterMode st; rangeFrom := rangeFrom st;
     rangeTo := rangeTo st; rooms := rooms st;
     roomNameById := roomNameById st; rows := v; dayIncome := dayIncome st;
     dayExpense := dayExpense st; monthIncome := monthIncome st;
     monthExpense := monthExpense st; expAmount := expAmount st;
     expMethod := expMethod st; expNote := expNote st; expDate := expDate st;
     expRoomId := expRoomId st; submittingExpense := submittingExpense st |}.

Definition setDayIncome (v : Double) (st : State) : State :=
  {| loading := loading st; msg := msg st; msgType := msgType st;
     propertyId := propertyId st; selectedDate := selectedDate st;
     filterMode := filterMode st; rangeFrom := rangeFrom st;
     rangeTo := rangeTo st; rooms := rooms st;
     roomNameById := roomNameById st; rows := rows st; dayIncome := v;
     dayExpense := dayExpense st; monthIncome := monthIncome st;
     monthExpense := monthExpense st; expAmount := expAmount st;
     expMethod := expMethod st; expNote := expNote st; expDate := expDate st;
     expRoomId := expRoomId st; submittingExpense := submittingExpense st |}.

Definition setDayExpense (v : Double) (st : State) : State :=
  {| loading := loading st; msg := msg st; msgType := msgType st;
     propertyId := propertyId st; selectedDate := selectedDate st;
     filterMode := filterMode st; rangeFrom := rangeFrom st;
     rangeTo := rangeTo st; rooms := rooms st;
     roomNameById := roomNameById st; rows := rows st;
     dayIncome := dayIncome st; dayExpense := v;
     monthIncome := monthIncome st; monthExpense := monthExpense st;
     expAmount := expAmount st; expMethod := expMethod st;
     expNote := expNote st; expDate := expDate st; expRoomId := expRoomId st;
     submittingExpense := submittingExpense st |}.

Definition setMonthIncome (v : Double) (st : State) : State :=
  {| loading := loading st; msg := msg st; msgType := msgType st;
     propertyId := propertyId st; selectedDate := selectedDate st;
     filterMode := filterMode st; rangeFrom := rangeFrom st;
     rangeTo := rangeTo st; rooms := rooms st;
     roomNameById := roomNameById st; rows := rows st;
     dayIncome := dayIncome st; dayExpense := dayExpense st;
     monthIncome := v; monthExpense := monthExpense st;
     expAmount := expAmount st; expMethod := expMethod st;
     expNote := expNote st; expDate := expDate st; expRoomId := expRoomId st;
     submittingExpense := submittingExpense st |}.

Definition setMonthExpense (v : Double) (st : State) : State :=
  {| loading := loading st; msg := msg st; msgType := msgType st;
     propertyId := propertyId st; selectedDate := selectedDate st;
     filterMode := filterMode st; rangeFrom := rangeFrom st;
     rangeTo := rangeTo st; rooms := rooms st;
     roomNameById := roomNameById st; rows := rows st;
     dayIncome := dayIncome st; dayExpense := dayExpense st;
     monthIncome := monthIncome st; monthExpense := v;
     expAmount := expAmount st; expMethod := expMethod st;
     expNote := expNote st; expDate := expDate st; expRoomId := expRoomId st;
     submittingExpense := submittingExpense st |}.

Definition setExpAmount (v : string) (st : State) : State :=
  {| loading := loading st; msg := msg st; msgType := msgType st;
     propertyId := propertyId st; selectedDate := selectedDate st;
     filterMode := filterMode st; rangeFrom := rangeFrom st;
     rangeTo := rangeTo st; rooms := rooms st;
     roomNameById := roomNameById st; rows := rows st;
     dayIncome := dayIncome st; dayExpense := dayExpense st;
     monthIncome := monthIncome st; monthExpense := monthExpense st;
     expAmount := v; expMethod := expMethod st; expNote := expNote st;
     expDate := expDate st; expRoomId := expRoomId st;
     submittingExpense := submittingExpense st |}.

Definition setExpMethod (v : PaymentMethod) (st : State) : State :=
  {| loading := loading st; msg := msg st; msgType := msgType st;
     propertyId := propertyId st; selectedDate := selectedDate st;
     filterMode := filterMode st; rangeFrom := rangeFrom st;
     rangeTo := rangeTo st; rooms := rooms st;
     roomNameById := roomNameById st; rows := rows st;
     dayIncome := dayIncome st; dayExpense := dayExpense st;
     monthIncome := monthIncome st; monthExpense := monthExpense st;
     expAmount := expAmount st; expMethod := v; expNote := expNote st;
     expDate := expDate st; expRoomId := expRoomId st;
     submittingExpense := submittingExpense st |}.

Definition setExpNote (v : string) (st : State) : State :=
  {| loading := loading st; msg := msg st; msgType := msgType st;
     propertyId := propertyId st; selectedDate := selectedDate st;
     filterMode := filterMode st; rangeFrom := rangeFrom st;
     rangeTo := rangeTo st; rooms := rooms st;
     roomNameById := roomNameById st; rows := rows st;
     dayIncome := dayIncome st; dayExpense := dayExpense st;
     monthIncome := monthIncome st; monthExpense := monthExpense st;
     expAmount := expAmount st; expMethod := expMethod st; expNote := v;
     expDate := expDate st; expRoomId := expRoomId st;
     submittingExpense := submittingExpense st |}.

Definition setExpRoomId (v : string) (st : State) : State :=
  {| loading := loading st; msg := msg st; msgType := msgType st;
     propertyId := propertyId st; selectedDate := selectedDate st;
     filterMode := filterMode st; rangeFrom := rangeFrom st;
     rangeTo := rangeTo st; rooms := rooms st;
     roomNameById := roomNameById st; rows := rows st;
     dayIncome := dayIncome st; dayExpense := dayExpense st;
     monthIncome := monthIncome st; monthExpense := monthExpense st;
     expAmount := expAmount st; expMethod := expMethod st;
     expNote := expNote st; expDate := expDate st; expRoomId := v;
     submittingExpense := submittingExpense st |}.

Definition setSubmittingExpense (v : bool) (st : State) : State :=
  {| loading := loading st; msg := msg st; msgType := msgType st;
     propertyId := propertyId st; selectedDate := selectedDate st;
     filterMode := filterMode st; rangeFrom := rangeFrom st;
     rangeTo := rangeTo st; rooms := rooms st;
     roomNameById := roomNameById st; rows := rows st;
     dayIncome := dayIncome st; dayExpense := dayExpense st;
     monthIncome := monthIncome st; monthExpense := monthExpense st;
     expAmount := expAmount st; expMethod := expMethod st;
     expNote := expNote st; expDate := expDate st; expRoomId := expRoomId st;
     submittingExpense := v |}.

(** [a ?? b] *)
Definition nullish {A : Type} (a : option A) (b : A) : A :=
  match a with Some v => v | None => b end.

(** Truthiness of a string that may be [null]. *)
Definition truthy (s : option string) : bool :=
  match s with
  | Some EmptyString | None => false
  | Some _ => true
  end.


Definition setPropertyId (v : option string) (st : State) : State :=
  {| loading := loading st; msg := msg st; msgType := msgType st;
     propertyId := v; selectedDate := selectedDate st;
     filterMode := filterMode st; rangeFrom := rangeFrom st;
     rangeTo := rangeTo st; rooms := rooms st;
     roomNameById := roomNameById st; rows := rows st;
     dayIncome := dayIncome st; dayExpense := dayExpense st;
     monthIncome := monthIncome st; monthExpense := monthExpense st;
     expAmount := expAmount st; expMethod := expMethod st;
     expNote := expNote st; expDate := expDate st; expRoomId := expRoomId st;
     submittingExpense := submittingExpense st |}.

Definition setExpDate (v : string) (st : State) : State :=
  {| loading := loading st; msg := msg st; msgType := msgType st;
     propertyId := propertyId st; selectedDate := selectedDate st;
     filterMode := filterMode st; rangeFrom := rangeFrom st;
     rangeTo := rangeTo st; rooms := rooms st;
     roomNameById := roomNameById st; rows := rows st;
     dayIncome := dayIncome st; dayExpense := dayExpense st;
     monthIncome := monthIncome st; monthExpense := monthExpense st;
     expAmount := expAmount st; expMethod := expMethod st;
     expNote := expNote st; expDate := v; expRoomId := expRoomId st;
     submittingExpense := submittingExpense st |}.

(** The local calendar date of [d] as [YYYY-MM-DD]; the year is written
    without padding. *)
Definition toYYYYMMDD (d : Date) : string :=
  let yyyy := getFullYear d in
  let mm := padStart 2 "0" (NumberToString (m ← getMonth d; Some (m + 1))) in
  let dd := padStart 2 "0" (NumberToString (getDate d)) in
  NumberToString yyyy +:+ "-" +:+ mm +:+ "-" +:+ dd.

(** The state of a view that has just been mounted.  The four date fields
    are initialised by four calls of [new Date()], at the instants
    [nowSelected], [nowFrom], [nowTo] and [nowExp]. *)
Definition initialState (nowSelected nowFrom nowTo nowExp : Z) : State :=
  {| loading := true; msg := ""; msgType := info; propertyId := None;
     selectedDate := toYYYYMMDD (Some nowSelected);
     filterMode := TODAY;
     rangeFrom := toYYYYMMDD (Some nowFrom);
     rangeTo := toYYYYMMDD (Some nowTo);
     rooms := []; roomNameById := ∅; rows := [];
     dayIncome := Double_zero; dayExpense := Double_zero;
     monthIncome := Double_zero; monthExpense := Double_zero;
     expAmount := ""; expMethod := CASH; expNote := "";
     expDate := toYYYYMMDD (Some nowExp);
     expRoomId := ""; submittingExpense := false |}.

(* ================================================================== *)
(** ** The program: asynchronous handlers as state-passing computations *)
(* ================================================================== *)

(** A thrown value, as far as the handlers inspect it:
    [e instanceof Error ? e.message : fallback]. *)
Record Thrown := { instanceofError : bool; message : string }.

Definition RangeError : Thrown :=
  {| instanceofError := true; message := RangeError_message |}.

(** What a remote call resolves to: [{ data, error }]. *)
Record Response (A : Type) := { resp_data : option A; resp_error : option Thrown }.
Arguments resp_data {A} _.
Arguments resp_error {A} _.

(** The row a [select("id")] after an insert yields. *)
Record Inserted := { ins_id : option string }.

Record PaymentInsert := {
  ins_property_id : string;
  ins_stay_id : option string;
  ins_room_id : option string;
  ins_type : PaymentType;
  ins_amount : JSNumber;
  ins_method : PaymentMethod;
  ins_note : option string;
  ins_created_by : string;
  ins_paid_at : Z
}.

Inductive Cell :=
| CellText (s : string)
| CellNumber (n : Double)
| CellLocaleTime (paid_at : string)   (* [new Date(paid_at).toLocaleString("vi-VN")] *)
| CellLocaleNow.                      (* [new Date().toLocaleString("vi-VN")] *)

Record Sheet := {
  sheet_name : string;
  sheet_rows : list (list (string * Cell));
  sheet_colWidths : list Z
}.

Inductive UpperBound := Lte (v : Z) | Lt (v : Z).

(** What a handler does to the outside world, in order. *)
Inductive Effect :=
| SelectRooms (property_id : string)
| SelectPayments (columns property_id : string) (gte : Z) (upper : UpperBound)
| GetUser
| InsertPayment (p : PaymentInsert)
| Navigate (to : string)
| Download (filename : string) (sheets : list Sheet).

(** A running handler: the state with the queued updates applied, the
    effects so far, and the number of [await]s passed. *)
Record Run := { view : State; trace : list Effect; awaits : nat }.

Inductive Completion (A : Type) :=
| Normal (a : A)
| Return
| Throw (e : Thrown).
Arguments Normal {A} _.
Arguments Return {A}.
Arguments Throw {A} _.

Definition Async (A : Type) : Type := Run -> Run * Completion A.

Definition Async_ret {A : Type} (a : A) : Async A := fun r => (r, Normal a).

Definition Async_bind {A B : Type} (f : A -> Async B) (m : Async A) : Async B :=
  fun r =>
    match m r with
    | (r', Normal a) => f a r'
    | (r', Return) => (r', Return)
    | (r', Throw e) => (r', Throw e)
    end.

#[local] Instance Async_MRet : MRet Async := @Async_ret.
#[local] Instance Async_MBind : MBind Async := @Async_bind.

Definition skip : Async unit := Async_ret tt.

(** [return;] *)
Definition return_ {A : Type} : Async A := fun r => (r, Return).

(** [throw e;] *)
Definition throw {A : Type} (e : Thrown) : Async A := fun r => (r, Throw e).

(** A state setter call. *)
Definition update (f : State -> State) : Async unit :=
  fun r => ({| view := f (view r); trace := trace r; awaits := awaits r |}, Normal tt).

(** A synchronous effect. *)
Definition perform (e : Effect) : Async unit :=
  fun r => ({| view := view r; trace := trace r ++ [e]; awaits := awaits r |}, Normal tt).

(** [await] of a remote call that resolves to [result]. *)
Definition await {A : Type} (e : Effect) (result : A) : Async A :=
  fun r => ({| view := view r; trace := trace r ++ [e]; awaits := S (awaits r) |},
            Normal result).

(** [mountedRef.current], which the environment may clear while the
    handler is suspended: [mounted n] is its value after [n] awaits. *)
Definition isMounted (mounted : nat -> bool) : Async bool :=
  fun r => (r, Normal (mounted (awaits r))).

(** [if (error) throw error;] *)
Definition throwIf (e : option Thrown) : Async unit :=
  match e with Some e => throw e | None => skip end.

(** [if (b) return;] *)
Definition returnIf (b : bool) : Async unit := if b then return_ else skip.

(** A value whose computation may throw a [RangeError]. *)
Definition orRangeError {A : Type} (v : option A) : Async A :=
  match v with Some a => Async_ret a | None => throw RangeError end.

(** [try { body } catch (e) { handler e } finally { finalizer }] *)
Definition tryCatchFinally (body : Async unit) (handler : Thrown -> Async unit)
    (finalizer : Async unit) : Async unit :=
  fun r =>
    let '(r1, c1) := body r in
    let '(r2, c2) := match c1 with
                     | Throw e => handler e r1
                     | _ => (r1, c1)
                     end in
    let '(r3, c3) := finalizer r2 in
    match c3 with
    | Normal _ => (r3, c2)
    | _ => (r3, c3)
    end.

(** [await f()] for an asynchronous function [f] of this file: its
    [return] ends [f], not the caller. *)
Definition call (f : Async unit) : Async unit :=
  fun r =>
    match f r with
    | (r', Return) => (r', Normal tt)
    | other => other
    end.

(** A handler invoked on state [st]: the state it leaves and its effects. *)
Definition run {A : Type} (h : Async A) (st : State) : State * list Effect :=
  let '(r, _) := h {| view := st; trace := []; awaits := 0 |} in (view r, trace r).

(** How the handler ended. *)
Definition completion {A : Type} (h : Async A) (st : State) : Completion A :=
  snd (h {| view := st; trace := []; awaits := 0 |}).


(* ================================================================== *)
(** ** The program: the view ([src/pages/Cashbook.tsx])                *)
(* ================================================================== *)

Definition mapMethodVN (m : PaymentMethod) : string :=
  match m with
  | CASH => "Tiền mặt"
  | TRANSFER => "Chuyển khoản"
  | CARD => "Thẻ"
  end.

Definition mapTypeVN (t : PaymentType) : string :=
  if PaymentType_eqb t INCOME then "Thu" else "Chi".

Definition startOfDayISO (dateStrYYYYMMDD : string) : option Z :=
  toISOString (Date_of_string (dateStrYYYYMMDD +:+ "T00:00:00")).

Definition endOfDayISO (dateStrYYYYMMDD : string) : option Z :=
  toISOString (Date_of_string (dateStrYYYYMMDD +:+ "T23:59:59.999")).

Record Window := { startISO : Z; endISO : Z }.

Definition setToast (type : MsgType) (text : string) (st : State) : State :=
  setMsg text (setMsgType type st).

(** The range of the list, from the filter mode.  [None]: computing it
    throws, and the view does not render. *)
Definition listRange (st : State) : option Window :=
  if FilterMode_eqb (filterMode st) TODAY then
    s ← startOfDayISO (selectedDate st);
    e ← endOfDayISO (selectedDate st);
    Some {| startISO := s; endISO := e |}
  else if FilterMode_eqb (filterMode st) D7 || FilterMode_eqb (filterMode st) D30 then
    let days := if FilterMode_eqb (filterMode st) D7 then 7 else 30 in
    let end_ := Date_of_string (selectedDate st +:+ "T23:59:59.999") in
    let start := Date_of_Date end_ in
    let start := setDate start (d ← getDate start; Some (d - (days - 1))) in
    let start := setHours start 0 0 0 0 in
    s ← toISOString start;
    e ← toISOString end_;
    Some {| startISO := s; endISO := e |}
  else
    let start := Date_of_string (rangeFrom st +:+ "T00:00:00") in
    let end_ := Date_of_string (rangeTo st +:+ "T23:59:59.999") in
    s ← toISOString start;
    e ← toISOString end_;
    Some {| startISO := s; endISO := e |}.

(** The month of the selected date, for the month cards. *)
Definition monthRange (st : State) : option Window :=
  let d := Date_of_string (selectedDate st +:+ "T00:00:00") in
  let start := Date_of_fields (getFullYear d) (getMonth d) 1 0 0 0 0 in
  let next := Date_of_fields (getFullYear d) (m ← getMonth d; Some (m + 1)) 1 0 0 0 0 in
  s ← toISOString start;
  e ← toISOString next;
  Some {| startISO := s; endISO := e |}.

(** [l.filter((r) => r.type === t).reduce((s, r) => s + Number(r.amount ?? 0), 0)] *)
Definition sumOfType {A : Type} (type : A -> PaymentType) (amount : A -> option Double)
    (t : PaymentType) (l : list A) : Double :=
  fold_left (fun s r => Double_add s (nullish (amount r) Double_zero))
            (List.filter (fun r => PaymentType_eqb (type r) t) l) Double_zero.

Record Totals := { income : Double; expense : Double; profit : Double }.

(** Range totals from the list rows. *)
Definition rangeTotals (st : State) : Totals :=
  let income := sumOfType r_type r_amount INCOME (rows st) in
  let expense := sumOfType r_type r_amount EXPENSE (rows st) in
  {| income := income; expense := expense; profit := Double_sub income expense |}.

Definition dayProfit (st : State) : Double := Double_sub (dayIncome st) (dayExpense st).
Definition monthProfit (st : State) : Double :=
  Double_sub (monthIncome st) (monthExpense st).

Definition rangeLabel (st : State) : string :=
  if FilterMode_eqb (filterMode st) TODAY then "Ngày " +:+ selectedDate st
  else if FilterMode_eqb (filterMode st) D7
  then "7 ngày gần nhất (tính đến " +:+ selectedDate st +:+ ")"
  else if FilterMode_eqb (filterMode st) D30
  then "30 ngày gần nhất (tính đến " +:+ selectedDate st +:+ ")"
  else "Từ " +:+ rangeFrom st +:+ " đến " +:+ rangeTo st.

(** One render of the view: the state and the memoised ranges its
    handlers close over. *)
Record Closure := { c_state : State; c_listRange : Window; c_monthRange : Window }.

Definition render (st : State) : option Closure :=
  lr ← listRange st;
  mr ← monthRange st;
  Some {| c_state := st; c_listRange := lr; c_monthRange := mr |}.

(** What the remote store and the host answer during one refresh. *)
Record RefreshEnv := {
  roomsResp : Response (list RoomRecord);
  payListResp : Response (list PaymentRow);
  payMonthResp : Response (list TotalsRow);
  payDayResp : Response (list TotalsRow);
  mounted : nat -> bool
}.

Definition refreshAll (cl : Closure) (env : RefreshEnv) : Async unit :=
  let st := c_state cl in
  if negb (truthy (propertyId st)) then return_ else
  let propertyId := nullish (propertyId st) "" in
  update (setLoading true);;
  update (setMsg "");;
  tryCatchFinally
    (r ← await (SelectRooms propertyId) (roomsResp env);
     throwIf (resp_error r);;
     let rs := nullish (resp_data r) [] in
     let map := fold_left (fun m r => <[rec_id r := nullish (rec_name r) ""]> m) rs ∅ in
     let list := List.map (fun r => {| room_id := rec_id r;
                                       room_name := nullish (rec_name r) "" |}) rs in
     alive ← isMounted (mounted env);
     returnIf (negb alive);;
     update (setRooms list);;
     update (setRoomNameById map);;
     payList ← await (SelectPayments "id,type,amount,method,note,paid_at,stay_id,room_id"
                        propertyId (startISO (c_listRange cl))
                        (Lte (endISO (c_listRange cl))))
                     (payListResp env);
     throwIf (resp_error payList);;
     payMonth ← await (SelectPayments "type,amount" propertyId
                         (startISO (c_monthRange cl)) (Lt (endISO (c_monthRange cl))))
                      (payMonthResp env);
     throwIf (resp_error payMonth);;
     dayStart ← orRangeError (startOfDayISO (selectedDate st));
     dayEnd ← orRangeError (endOfDayISO (selectedDate st));
     payDay ← await (SelectPayments "type,amount" propertyId dayStart (Lte dayEnd))
                    (payDayResp env);
     throwIf (resp_error payDay);;
     alive ← isMounted (mounted env);
     returnIf (negb alive);;
     update (setRows (nullish (resp_data payList) []));;
     let payMonthRows := nullish (resp_data payMonth) [] in
     let payDayRows := nullish (resp_data payDay) [] in
     let mIncome := sumOfType t_type t_amount INCOME payMonthRows in
     let mExpense := sumOfType t_type t_amount EXPENSE payMonthRows in
     update (setMonthIncome mIncome);;
     update (setMonthExpense mExpense);;
     let dIncome := sumOfType t_type t_amount INCOME payDayRows in
     let dExpense := sumOfType t_type t_amount EXPENSE payDayRows in
     update (setDayIncome dIncome);;
     update (setDayExpense dExpense))
    (fun e =>
       let message := if instanceofError e then message e else "Lỗi tải sổ thu/chi." in
       alive ← isMounted (mounted env);
       returnIf (negb alive);;
       update (setToast error message);;
       update (setRows []);;
       update (setMonthIncome Double_zero);;
       update (setMonthExpense Double_zero);;
       update (setDayIncome Double_zero);;
       update (setDayExpense Double_zero))
    (alive ← isMounted (mounted env);
     if (alive : bool) then update (setLoading false) else skip).

(** The values the refreshing effect depends on: it runs [refreshAll]
    again after a render in which one of them has changed. *)
Definition refreshDeps (st : State)
    : option string * string * FilterMode * string * string :=
  (propertyId st, selectedDate st, filterMode st, rangeFrom st, rangeTo st).


(** [exportWorkbookXLSX({ filename, sheets })]: the workbook is built from
    the sheets and handed to the browser as a download. *)
Definition exportWorkbookXLSX (filename : string) (sheets : list Sheet) : Async unit :=
  perform (Download filename sheets).

Definition cashbookRows (st : State) : list (list (string * Cell)) :=
  List.map
    (fun r =>
       let roomName := if truthy (r_room_id r)
                       then roomNameById st !! nullish (r_room_id r) ""
                       else Some "" in
       let room := if truthy roomName then "Phòng " +:+ nullish roomName "" else "" in
       [ ("Thời gian", CellLocaleTime (r_paid_at r));
         ("Loại", CellText (if PaymentType_eqb (r_type r) INCOME then "THU" else "CHI"));
         ("Số tiền", CellNumber (nullish (r_amount r) Double_zero));
         ("Phương thức", CellText (mapMethodVN (r_method r)));
         ("Phòng", CellText room);
         ("Ghi chú", CellText (nullish (r_note r) ""));
         ("Mã phiếu", CellText (r_id r));
         ("Stay ID", CellText (nullish (r_stay_id r) "")) ])
    (rows st).

Definition summaryRows (st : State) : list (list (string * Cell)) :=
  [ [ ("Mục", CellText "Tổng hợp NGÀY (theo ngày mốc)");
      ("Khoảng", CellText (selectedDate st));
      ("Thu", CellNumber (dayIncome st));
      ("Chi", CellNumber (dayExpense st));
      ("Lợi nhuận", CellNumber (dayProfit st));
      ("Ghi chú", CellText "Tính từ bảng payments theo ngày mốc") ];
    [ ("Mục", CellText "Tổng hợp THÁNG (theo ngày mốc)");
      ("Khoảng", CellText ("Tháng của " +:+ selectedDate st));
      ("Thu", CellNumber (monthIncome st));
      ("Chi", CellNumber (monthExpense st));
      ("Lợi nhuận", CellNumber (monthProfit st));
      ("Ghi chú", CellText "Tính từ bảng payments theo tháng của ngày mốc") ];
    [ ("Mục", CellText "Tổng hợp thời gian chọn (danh sách đang xem)");
      ("Khoảng", CellText (rangeLabel st));
      ("Thu", CellNumber (income (rangeTotals st)));
      ("Chi", CellNumber (expense (rangeTotals st)));
      ("Lợi nhuận", CellNumber (profit (rangeTotals st)));
      ("Ghi chú", CellText "Tính từ danh sách phiếu đang hiển thị") ];
    [ ("Mục", CellText "Thông tin xuất file");
      ("Khoảng", CellLocaleNow);
      ("Thu", CellText "");
      ("Chi", CellText "");
      ("Lợi nhuận", CellText "");
      ("Ghi chú", CellText (if truthy (propertyId st)
                            then "property_id: " +:+ nullish (propertyId st) ""
                            else "")) ] ].

Definition exportFilename (st : State) : string :=
  if FilterMode_eqb (filterMode st) TODAY
  then "cashbook_" +:+ selectedDate st +:+ ".xlsx"
  else if FilterMode_eqb (filterMode st) D7
  then "cashbook_" +:+ selectedDate st +:+ "_7days.xlsx"
  else if FilterMode_eqb (filterMode st) D30
  then "cashbook_" +:+ selectedDate st +:+ "_30days.xlsx"
  else "cashbook_" +:+ rangeFrom st +:+ "_to_" +:+ rangeTo st +:+ ".xlsx".

Definition onExportXLSX (st : State) : Async unit :=
  exportWorkbookXLSX (exportFilename st)
    [ {| sheet_name := "Cashbook"; sheet_rows := cashbookRows st;
         sheet_colWidths := [20; 8; 12; 14; 12; 40; 18; 18] |};
      {| sheet_name := "Summary"; sheet_rows := summaryRows st;
         sheet_colWidths := [30; 22; 12; 12; 12; 40] |} ].

(** What the host and the remote store answer during one submission. *)
Record SubmitEnv := {
  authUser : option string;
  insertResp : Response Inserted;
  refreshEnv : RefreshEnv
}.

Definition submitExpense (cl : Closure) (env : SubmitEnv) : Async unit :=
  let st := c_state cl in
  if negb (truthy (propertyId st)) then return_ else
  let propertyId := nullish (propertyId st) "" in
  let amount := StringToNumber (expAmount st) in
  if negb (Number_isFinite amount) || lessEqZero amount then
    update (setToast error "Số tiền chi không hợp lệ.");;
    return_
  else
  tryCatchFinally
    (update (setSubmittingExpense true);;
     update (setMsg "");;
     user ← await GetUser (authUser env);
     match user with
     | None => perform (Navigate "/");; return_
     | Some userId =>
         paid_at ← orRangeError (toISOString (Date_of_string (expDate st +:+ "T12:00:00")));
         r ← await (InsertPayment
                      {| ins_property_id := propertyId;
                         ins_stay_id := None;
                         ins_room_id := if truthy (Some (expRoomId st))
                                        then Some (expRoomId st) else None;
                         ins_type := EXPENSE;
                         ins_amount := amount;
                         ins_method := expMethod st;
                         ins_note := if truthy (Some (expNote st))
                                     then Some (expNote st) else None;
                         ins_created_by := userId;
                         ins_paid_at := paid_at |})
                   (insertResp env);
         throwIf (resp_error r);;
         update (setToast success "Đã tạo phiếu chi.");;
         update (setExpAmount "");;
         update (setExpNote "");;
         update (setExpMethod CASH);;
         update (setExpRoomId "");;
         update (setSelectedDate (expDate st));;
         call (refreshAll cl (refreshEnv env));;
         let created_id := c ← resp_data r; ins_id c in
         if truthy created_id
         then perform (Navigate ("/reports/cashbook?propertyId=" +:+ propertyId
                                 +:+ "&focus=" +:+ nullish created_id ""))
         else skip
     end)
    (fun e =>
       let message := if instanceofError e then message e else "Đã xảy ra lỗi." in
       alive ← isMounted (mounted (refreshEnv env));
       if (alive : bool) then update (setToast error message) else skip)
    (update (setSubmittingExpense false)).

(** The anchor date input: [onChange]. *)
Definition onSelectedDateChange (st : State) (value : string) : Async unit :=
  update (setSelectedDate value);;
  returnIf (FilterMode_eqb (filterMode st) RANGE);;
  update (setRangeFrom value);;
  update (setRangeTo value).

(** The four filter buttons: [onClick]. *)
Definition onFilterModeClick (m : FilterMode) : Async unit := update (setFilterMode m).

(** The two inputs of the custom range, rendered in [RANGE] mode only. *)
Definition onRangeFromChange (value : string) : Async unit := update (setRangeFrom value).
Definition onRangeToChange (value : string) : Async unit := update (setRangeTo value).

(** [disabled] of the export and submit buttons. *)
Definition exportDisabled (st : State) : bool :=
  loading st || (length (rows st) =? 0)%nat.

Definition submitDisabled (st : State) : bool :=
  negb (truthy (propertyId st)) || submittingExpense st.

(** A click on the export button. *)
Definition clickExport (st : State) : Async unit :=
  if exportDisabled st then skip else onExportXLSX st.

(* ================================================================== *)
(** ** The program: the income insert ([src/lib/payments.ts])          *)
(* ================================================================== *)

Record IncomeParams := {
  p_propertyId : string;
  p_stayId : string;
  p_roomId : option string;
  p_amount : JSNumber;
  p_method : PaymentMethod;
  p_note : option string;
  p_userId : string
}.

(** [now] is the time value of [new Date()]. *)
Definition createIncomePaymentFromStay (params : IncomeParams) (now : Z)
    (resp : Response Inserted) : Async Inserted :=
  r ← await (InsertPayment
               {| ins_property_id := p_propertyId params;
                  ins_stay_id := Some (p_stayId params);
                  ins_room_id := p_roomId params;
                  ins_type := INCOME;
                  ins_amount := p_amount params;
                  ins_method := p_method params;
                  ins_note := p_note params;
                  ins_created_by := p_userId params;
                  ins_paid_at := now |})
            resp;
  throwIf (resp_error r);;
  if negb (truthy (c ← resp_data r; ins_id c))
  then throw {| instanceofError := true; message := "Không tạo được phiếu thu" |}
  else Async_ret (nullish (resp_data r) {| ins_id := None |}).


(* ================================================================== *)
(** ** The program: handlers outside the ledger calls                  *)
(* ================================================================== *)

(** The calls of the handlers below: those of the ledger handlers, the
    lookup of the user's first property, the update that marks a stay as
    paid, and the browser's [alert]. *)
Inductive Call :=
| Known (e : Effect)
| SelectUserProperty (user_id : string)
| UpdateStayPaid (stay_id : string) (paid_amount : JSNumber)
| Alert (text : string).

Section Procedures.

(** A running handler over a view state [S]. *)
Context {S : Type}.

Record PRun := { p_view : S; p_trace : list Call; p_awaits : nat }.

Definition Proc (A : Type) : Type := PRun -> PRun * Completion A.

Definition Proc_ret {A : Type} (a : A) : Proc A := fun r => (r, Normal a).

Definition Proc_bind {A B : Type} (f : A -> Proc B) (m : Proc A) : Proc B :=
  fun r =>
    match m r with
    | (r', Normal a) => f a r'
    | (r', Return) => (r', Return)
    | (r', Throw e) => (r', Throw e)
    end.

Definition p_skip : Proc unit := Proc_ret tt.
Definition p_return {A : Type} : Proc A := fun r => (r, Return).
Definition p_throw {A : Type} (e : Thrown) : Proc A := fun r => (r, Throw e).

Definition p_update (f : S -> S) : Proc unit :=
  fun r => ({| p_view := f (p_view r); p_trace := p_trace r; p_awaits := p_awaits r |},
            Normal tt).

Definition p_perform (c : Call) : Proc unit :=
  fun r => ({| p_view := p_view r; p_trace := p_trace r ++ [c]; p_awaits := p_awaits r |},
            Normal tt).

Definition p_await {A : Type} (c : Call) (result : A) : Proc A :=
  fun r => ({| p_view := p_view r; p_trace := p_trace r ++ [c];
               p_awaits := Datatypes.S (p_awaits r) |},
            Normal result).

Definition p_isMounted (mounted : nat -> bool) : Proc bool :=
  fun r => (r, Normal (mounted (p_awaits r))).

Definition p_tryCatchFinally (body : Proc unit) (handler : Thrown -> Proc unit)
    (finalizer : Proc unit) : Proc unit :=
  fun r =>
    let '(r1, c1) := body r in
    let '(r2, c2) := match c1 with
                     | Throw e => handler e r1
                     | _ => (r1, c1)
                     end in
    let '(r3, c3) := finalizer r2 in
    match c3 with
    | Normal _ => (r3, c2)
    | _ => (r3, c3)
    end.

(** [await f(...)] for an asynchronous function [f] of [lib/payments.ts]:
    a module-level function, it runs apart from any view; its calls join
    the trace, its result or exception comes back. *)
Definition p_callModule {A : Type} (detached : State) (f : Async A) : Proc A :=
  fun r =>
    let '(r', c) := f {| view := detached; trace := []; awaits := p_awaits r |} in
    ({| p_view := p_view r; p_trace := p_trace r ++ List.map Known (trace r');
        p_awaits := awaits r' |}, c).

Definition p_run {A : Type} (h : Proc A) (st : S) : S * list Call :=
  let '(r, _) := h {| p_view := st; p_trace := []; p_awaits := 0 |} in
  (p_view r, p_trace r).

Definition p_completion {A : Type} (h : Proc A) (st : S) : Completion A :=
  snd (h {| p_view := st; p_trace := []; p_awaits := 0 |}).

End Procedures.

Arguments PRun S : clear implicits.
Arguments Proc S A : clear implicits.

#[local] Instance Proc_MRet {S : Type} : MRet (Proc S) := @Proc_ret S.
#[local] Instance Proc_MBind {S : Type} : MBind (Proc S) := @Proc_bind S.

(** The row of [user_properties] the lookup selects. *)
Record PropertyRow := { row_property_id : option string }.

(** What the host and the store answer while the property is resolved. *)
Record ResolveEnv := {
  res_user : option string;
  res_assignment : Response PropertyRow;
  res_mounted : nat -> bool
}.

(** The effect that resolves the property of the view when it mounts and
    when the [propertyId] of the URL changes (the URL one is preferred). *)
Definition resolveProperty (propertyIdFromUrl : option string) (env : ResolveEnv)
    : Proc State unit :=
  p_update (setLoading true);;
  p_update (setMsg "");;
  user ← p_await (Known GetUser) (res_user env);
  match user with
  | None =>
      alive ← p_isMounted (res_mounted env);
      if (alive : bool) then
        p_update (setLoading false);;
        p_perform (Known (Navigate "/"));;
        p_return
      else p_return
  | Some userId =>
      if truthy propertyIdFromUrl then
        p_update (setPropertyId propertyIdFromUrl);;
        p_update (setLoading false);;
        p_return
      else
        r ← p_await (SelectUserProperty userId) (res_assignment env);
        alive ← p_isMounted (res_mounted env);
        if (alive : bool) then
          let property_id := d ← resp_data r; row_property_id d in
          match resp_error r with
          | Some _ =>
              p_update (setToast info "Bạn chưa được gán cơ sở.");;
              p_update (setPropertyId None);;
              p_update (setLoading false);;
              p_return
          | None =>
              if negb (truthy property_id) then
                p_update (setToast info "Bạn chưa được gán cơ sở.");;
                p_update (setPropertyId None);;
                p_update (setLoading false);;
                p_return
              else
                p_update (setPropertyId property_id);;
                p_update (setLoading false)
          end
        else p_return
  end.

(** The view state of the rooms page that the payment collection reads
    and writes ([src/pages/Rooms.tsx]). *)
Record Collect := {
  col_open : bool;
  col_stayId : string;
  col_roomId : string;
  col_propertyId : string;
  col_amount : JSNumber
}.

Record RoomsView := {
  collect : option Collect;
  payMethod : PaymentMethod;
  payNote : string;
  submittingCollect : bool
}.

Definition setCollect (v : option Collect) (st : RoomsView) : RoomsView :=
  {| collect := v; payMethod := payMethod st; payNote := payNote st;
     submittingCollect := submittingCollect st |}.

Definition setPayMethod (v : PaymentMethod) (st : RoomsView) : RoomsView :=
  {| collect := collect st; payMethod := v; payNote := payNote st;
     submittingCollect := submittingCollect st |}.

Definition setPayNote (v : string) (st : RoomsView) : RoomsView :=
  {| collect := collect st; payMethod := payMethod st; payNote := v;
     submittingCollect := submittingCollect st |}.

Definition setSubmittingCollect (v : bool) (st : RoomsView) : RoomsView :=
  {| collect := collect st; payMethod := payMethod st; payNote := payNote st;
     submittingCollect := v |}.

(** A view of the ledger page that is not on screen. *)
Definition detached : State :=
  {| loading := false; msg := ""; msgType := info; propertyId := None;
     selectedDate := ""; filterMode := TODAY; rangeFrom := ""; rangeTo := "";
     rooms := []; roomNameById := ∅; rows := [];
     dayIncome := Double_zero; dayExpense := Double_zero;
     monthIncome := Double_zero; monthExpense := Double_zero;
     expAmount := ""; expMethod := CASH; expNote := ""; expDate := "";
     expRoomId := ""; submittingExpense := false |}.

(** What the host and the store answer while a payment is collected;
    [col_now] is the time value of the [new Date()] of the insert, and
    [col_update] the answer to the update of the stay. *)
Record CollectEnv := {
  col_user : option string;
  col_now : Z;
  col_insert : Response Inserted;
  col_update : Response unit
}.

(** The amount button of the collection dialog: [onClick].  The dialog is
    rendered for the open collection [c] of the view [st].  The answer to
    the update of the stay is awaited and not read. *)
Definition onCollectClick (c : Collect) (st : RoomsView) (env : CollectEnv)
    : Proc RoomsView unit :=
  p_tryCatchFinally
    (p_update (setSubmittingCollect true);;
     user ← p_await (Known GetUser) (col_user env);
     match user with
     | None => p_throw {| instanceofError := true; message := "Chưa đăng nhập" |}
     | Some userId =>
         created ← p_callModule detached
                     (createIncomePaymentFromStay
                        {| p_propertyId := col_propertyId c;
                           p_stayId := col_stayId c;
                           p_roomId := Some (col_roomId c);
                           p_amount := col_amount c;
                           p_method := payMethod st;
                           p_note := Some (payNote st);
                           p_userId := userId |}
                        (col_now env) (col_insert env));
         p_await (UpdateStayPaid (col_stayId c) (col_amount c)) (col_update env);;
         p_update (setCollect None);;
         p_update (setPayMethod CASH);;
         p_update (setPayNote "");;
         p_perform (Known (Navigate ("/reports/cashbook?propertyId=" +:+ col_propertyId c
                                     +:+ "&focus=" +:+ nullish (ins_id created) "")))
     end)
    (fun e =>
       let message := if instanceofError e then message e else "Lỗi thu tiền" in
       p_perform (Alert message))
    (p_update (setSubmittingCollect false)).

(** [disabled] of the amount button. *)
Definition collectDisabled (st : RoomsView) : bool := submittingCollect st.

(* ================================================================== *)
(** ** Reference definitions the properties are stated against         *)
(* ================================================================== *)

(** A ledger entry as the aggregator sees it: kind and amount. *)
Definition Entry : Type := PaymentType * Double.

(** The sum of the amounts of the entries of kind [k]: going through the
    entries in their order, each amount of that kind is added to the sum
    so far, which starts at 0. *)
Fixpoint spec_sum_from (k : PaymentType) (sum : Double) (entries : list Entry) : Double :=
  match entries with
  | [] => sum
  | (k', a) :: rest =>
      spec_sum_from k (if PaymentType_eqb k' k then Double_add sum a else sum) rest
  end.

Definition spec_sum (k : PaymentType) (entries : list Entry) : Double :=
  spec_sum_from k Double_zero entries.

(** [aggregate(entries)] in the words of the specification. *)
Definition spec_aggregate (entries : list Entry) : Totals :=
  {| income := spec_sum INCOME entries;
     expense := spec_sum EXPENSE entries;
     profit := Double_sub (spec_sum INCOME entries) (spec_sum EXPENSE entries) |}.

Definition entryOfRow (r : PaymentRow) : Entry :=
  (r_type r, nullish (r_amount r) Double_zero).
Definition entryOfTotalsRow (r : TotalsRow) : Entry :=
  (t_type r, nullish (t_amount r) Double_zero).

(** A ledger in whole amounts, as the currency has them, and its sums in
    exact arithmetic. *)
Definition WholeEntry : Type := PaymentType * Z.

Fixpoint whole_sum (k : PaymentType) (entries : list WholeEntry) : Z :=
  match entries with
  | [] => 0
  | (k', a) :: rest => (if PaymentType_eqb k' k then a else 0) + whole_sum k rest
  end.

Definition entryOfWhole (e : WholeEntry) : Entry := (fst e, Double_of_Z (snd e)).

(** No amount is negative and all amounts together stay below 2^53. *)
Definition safeWhole (entries : list WholeEntry) : bool :=
  forallb (fun e => 0 <=? snd e) entries
  && (whole_sum INCOME entries + whole_sum EXPENSE entries <? 2 ^ 53).

(** The aggregate of a ledger in whole amounts, in exact arithmetic. *)
Definition whole_aggregate (entries : list WholeEntry) : Totals :=
  {| income := Double_of_Z (whole_sum INCOME entries);
     expense := Double_of_Z (whole_sum EXPENSE entries);
     profit := Double_of_Z (whole_sum INCOME entries - whole_sum EXPENSE entries) |}.

(** The same rows with every missing amount replaced by 0. *)
Definition zeroNullRow (r : PaymentRow) : PaymentRow :=
  {| r_id := r_id r; r_type := r_type r; r_amount := Some (nullish (r_amount r) Double_zero);
     r_method := r_method r; r_note := r_note r; r_paid_at := r_paid_at r;
     r_stay_id := r_stay_id r; r_room_id := r_room_id r |}.

Definition zeroNullTotalsRow (r : TotalsRow) : TotalsRow :=
  {| t_type := t_type r; t_amount := Some (nullish (t_amount r) Double_zero) |}.

Definition mapResponse {A : Type} (f : A -> A) (r : Response (list A)) : Response (list A) :=
  {| resp_data := l ← resp_data r; Some (List.map f l); resp_error := resp_error r |}.

Definition zeroNullEnv (env : RefreshEnv) : RefreshEnv :=
  {| roomsResp := roomsResp env;
     payListResp := mapResponse zeroNullRow (payListResp env);
     payMonthResp := mapResponse zeroNullTotalsRow (payMonthResp env);
     payDayResp := mapResponse zeroNullTotalsRow (payDayResp env);
     mounted := mounted env |}.

(** The day totals and month totals a state shows. *)
Definition dayTotals (st : State) : Totals :=
  {| income := dayIncome st; expense := dayExpense st; profit := dayProfit st |}.

Definition monthTotals (st : State) : Totals :=
  {| income := monthIncome st; expense := monthExpense st; profit := monthProfit st |}.

(** The local calendar day (as a day number) an instant falls on. *)
Definition localDay (t : Z) : Z := Day (LocalTime t).

(** The local calendar year and month (1..12) an instant falls in. *)
Definition localMonth (t : Z) : Z * Z :=
  (YearFromTime (LocalTime t), MonthFromTime (LocalTime t) + 1).

(** First and last instant of the local day with day number [n]. *)
Definition startOfLocalDay (n : Z) : Z := UTC (n * msPerDay).
Definition endOfLocalDay (n : Z) : Z := UTC (n * msPerDay + (msPerDay - 1)).

(** Length in days of the two rolling windows. *)
Definition windowDays (m : FilterMode) : option Z :=
  match m with
  | D7 => Some 7
  | D30 => Some 30
  | _ => None
  end.

(** A refresh in which no query fails and the view stays mounted. *)
Definition refreshSucceeds (env : RefreshEnv) : Prop :=
  resp_error (roomsResp env) = None /\ resp_error (payListResp env) = None /\
  resp_error (payMonthResp env) = None /\ resp_error (payDayResp env) = None /\
  mounted env 1%nat = true /\ mounted env 4%nat = true.

(** The first failure of a refresh, in the order the queries are issued. *)
Definition firstFailure (env : RefreshEnv) : option Thrown :=
  match resp_error (roomsResp env) with
  | Some e => Some e
  | None =>
      match resp_error (payListResp env) with
      | Some e => Some e
      | None =>
          match resp_error (payMonthResp env) with
          | Some e => Some e
          | None => resp_error (payDayResp env)
          end
      end
  end.

(** Isolation of the slots, in the words of the specification: a slot
    whose query succeeds shows the result of that query, whatever happens
    to the other queries, and the list is empty when its query fails. *)
Definition slots_isolated (cl : Closure) (env : RefreshEnv) : Prop :=
  let st' := fst (run (refreshAll cl env) (c_state cl)) in
  (resp_error (payListResp env) = None ->
     rows st' = nullish (resp_data (payListResp env)) [])
  /\ (resp_error (payListResp env) <> None -> rows st' = [])
  /\ (resp_error (payMonthResp env) = None ->
        monthTotals st'
        = spec_aggregate (List.map entryOfTotalsRow
                            (nullish (resp_data (payMonthResp env)) [])))
  /\ (resp_error (payDayResp env) = None ->
        dayTotals st'
        = spec_aggregate (List.map entryOfTotalsRow
                            (nullish (resp_data (payDayResp env)) []))).

(** The re-check of the export assembler, in the words of the
    specification: invoked on an empty list it fails and produces no file. *)
Definition export_refuses_empty (st : State) : Prop :=
  rows st = [] ->
  (exists e, completion (onExportXLSX st) st = Throw e)
  /\ snd (run (onExportXLSX st) st) = [].

(** The message a refresh reports for a thrown value. *)
Definition refreshMessage (e : Thrown) : string :=
  if instanceofError e then message e else "Lỗi tải sổ thu/chi.".

Definition zeroTotals : Totals :=
  {| income := Double_zero; expense := Double_zero; profit := Double_zero |}.

(** A finite number strictly greater than 0. *)
Definition positiveFinite (x : JSNumber) : bool :=
  match x with
  | JsFinite m _ => 0 <? m
  | _ => false
  end.

(** What can happen to the anchor and the mode while the view is away
    from the custom range: a mode button is clicked, the anchor date input
    is changed, or the expense form is submitted (a submission that goes
    through moves the anchor to the date of the expense). *)
Inductive AwayEvent :=
| PickMode (m : FilterMode)
| ChangeAnchor (value : string)
| SubmitExpense (env : SubmitEnv).

Definition leavesRange (ev : AwayEvent) : bool :=
  match ev with
  | PickMode m => negb (FilterMode_eqb m RANGE)
  | ChangeAnchor _ => true
  | SubmitExpense _ => true
  end.

Definition isChangeAnchor (ev : AwayEvent) : bool :=
  match ev with ChangeAnchor _ => true | _ => false end.

(** The state after one event: the handler runs in the render of the
    current state (a view that does not render has no handlers). *)
Definition dispatch (st : State) (ev : AwayEvent) : State :=
  match ev with
  | PickMode m => fst (run (onFilterModeClick m) st)
  | ChangeAnchor v => fst (run (onSelectedDateChange st v) st)
  | SubmitExpense env =>
      match render st with
      | Some cl => fst (run (submitExpense cl env) st)
      | None => st
      end
  end.

(** The state after a list of events. *)
Definition dispatchAll (st : State) (evs : list AwayEvent) : State :=
  fold_left dispatch evs st.

(** The value of the last change of the anchor date input, if any. *)
Fixpoint lastAnchorInput (evs : list AwayEvent) : option string :=
  match evs with
  | [] => None
  | ev :: rest =>
      match lastAnchorInput rest, ev with
      | Some v, _ => Some v
      | None, ChangeAnchor v => Some v
      | None, _ => None
      end
  end.


(** Calendar order of two dates: year, then month, then day. *)
Definition ymd_leb (a b : YMD) : bool :=
  (ymd_year a <? ymd_year b)
  || ((ymd_year a =? ymd_year b)
      && ((ymd_month a <? ymd_month b)
          || ((ymd_month a =? ymd_month b) && (ymd_day a <=? ymd_day b)))).

(** The local calendar date an instant falls on. *)
Definition localDate (t : Z) : YMD :=
  {| ymd_year := YearFromTime (LocalTime t);
     ymd_month := MonthFromTime (LocalTime t) + 1;
     ymd_day := DateFromTime (LocalTime t) |}.

(** Checks used to settle the formatting of years, months and days by
    enumeration. *)
Definition fourDigitYear (y : Z) : bool :=
  match NumberToString (Some y) with
  | String a (String b (String c (String d EmptyString))) =>
      match number4 a b c d with
      | Some v => v =? y
      | None => false
      end
  | _ => false
  end.

Definition twoDigitField (n : Z) : bool :=
  match padStart 2 "0" (NumberToString (Some n)) with
  | String a (String b EmptyString) =>
      match number2 a b with
      | Some v => v =? n
      | None => false
      end
  | _ => false
  end.

Definition shortYear (y : Z) : bool :=
  (String.length (NumberToString (Some y)) <=? 3)%nat.

Definition Zrange (lo n : Z) : list Z :=
  List.map (fun i => lo + Z.of_nat i) (seq 0 (Z.to_nat n)).

(** What a file name has to tell apart: the mode and the dates the mode
    uses. *)
Definition exportKey (st : State) : FilterMode * string * string :=
  match filterMode st with
  | RANGE => (RANGE, rangeFrom st, rangeTo st)
  | m => (m, selectedDate st, selectedDate st)
  end.

(** The three date fields of the view hold calendar dates. *)
Definition datesOK (st : State) : bool :=
  match isoDate (selectedDate st), isoDate (rangeFrom st), isoDate (rangeTo st) with
  | Some _, Some _, Some _ => true
  | _, _, _ => false
  end.

(** The cell of a sheet row under a header. *)
Fixpoint cellAt (header : string) (row : list (string * Cell)) : option Cell :=
  match row with
  | [] => None
  | (h, c) :: rest => if String.eqb h header then Some c else cellAt header rest
  end.

(** The amount cell of a detail row whose kind cell is [label]. *)
Definition detailAmount (label : string) (row : list (string * Cell)) : option Double :=
  match cellAt "Loại" row, cellAt "Số tiền" row with
  | Some (CellText l), Some (CellNumber n) => if String.eqb l label then Some n else None
  | _, _ => None
  end.

(** The sum of the amount column over the rows of one kind label: the
    cells are added from the top row down, starting at 0. *)
Definition sheetSum (label : string) (sheet : list (list (string * Cell))) : Double :=
  fold_left (fun s row => match detailAmount label row with
                          | Some n => Double_add s n
                          | None => s
                          end)
            sheet Double_zero.

Definition detailHeaders : list string :=
  ["Thời gian"; "Loại"; "Số tiền"; "Phương thức"; "Phòng"; "Ghi chú"; "Mã phiếu";
   "Stay ID"].

(** The name under which the last room row with identifier [id] is
    stored, if there is one. *)
Definition lastRoomName (id : string) (rs : list RoomRecord) : option string :=
  fold_left (fun acc r => if String.eqb (rec_id r) id
                          then Some (nullish (rec_name r) "") else acc)
            rs None.

(** The names every JavaScript object answers to without holding them
    itself.  [roomNameById] is a plain object read by [roomNameById[id]];
    for the identifiers outside this list that read is a lookup in the map
    of the rooms that were stored. *)
Definition inheritedKeys : list string :=
  ["constructor"; "__proto__"; "hasOwnProperty"; "isPrototypeOf";
   "propertyIsEnumerable"; "toLocaleString"; "toString"; "valueOf";
   "__defineGetter__"; "__defineSetter__"; "__lookupGetter__"; "__lookupSetter__"].

(** The room cell of the detail row exported for entry [e]. *)
Definition exportedRoom (st : State) (e : PaymentRow) : option Cell :=
  row ← head (cashbookRows (setRows [e] st)); cellAt "Phòng" row.

(** The queries a refresh has to issue, in order: rooms, list, month and,
    when the day bounds of the anchor can be computed, day. *)
Definition refreshPlan (cl : Closure) : list Effect :=
  let st := c_state cl in
  let pid := nullish (propertyId st) "" in
  [ SelectRooms pid;
    SelectPayments "id,type,amount,method,note,paid_at,stay_id,room_id" pid
      (startISO (c_listRange cl)) (Lte (endISO (c_listRange cl)));
    SelectPayments "type,amount" pid
      (startISO (c_monthRange cl)) (Lt (endISO (c_monthRange cl))) ]
  ++ match startOfDayISO (selectedDate st), endOfDayISO (selectedDate st) with
     | Some dayStart, Some dayEnd =>
         [ SelectPayments "type,amount" pid dayStart (Lte dayEnd) ]
     | _, _ => []
     end.

(** The number of queries a refresh has sent when the first failure
    arrives: the failing query is the last one sent. *)
Definition queriesUntilFailure (env : RefreshEnv) : nat :=
  match resp_error (roomsResp env) with
  | Some _ => 1
  | None =>
      match resp_error (payListResp env) with
      | Some _ => 2
      | None =>
          match resp_error (payMonthResp env) with
          | Some _ => 3
          | None => 4
          end
      end
  end.

(** The host as a handler sees it that is started after [n] awaits of
    its caller: the answers are the same, the view is unmounted when it
    is. *)
Definition delayed (n : nat) (env : RefreshEnv) : RefreshEnv :=
  {| roomsResp := roomsResp env;
     payListResp := payListResp env;
     payMonthResp := payMonthResp env;
     payDayResp := payDayResp env;
     mounted := fun k => mounted env (k + n)%nat |}.

(** The state in which a submission that went through starts its
    refresh: notice set, form emptied, anchor moved to the expense date. *)
Definition submitted (cl : Closure) (st : State) : State :=
  setSelectedDate (expDate (c_state cl))
    (setExpRoomId ""
       (setExpMethod CASH
          (setExpNote ""
             (setExpAmount ""
                (setToast success "Đã tạo phiếu chi."
                   (setMsg "" (setSubmittingExpense true st))))))).

(** The fields of the expense form. *)
Definition expenseForm (st : State)
    : string * PaymentMethod * string * string * string * bool :=
  (expAmount st, expMethod st, expNote st, expDate st, expRoomId st,
   submittingExpense st).

Definition isInsert (e : Effect) : bool :=
  match e with InsertPayment _ => true | _ => false end.

(** The row a manual expense is stored as, for the user and the instant
    the handler has obtained. *)
Definition expenseRecord (st : State) (userId : string) (paid_at : Z) : PaymentInsert :=
  {| ins_property_id := nullish (propertyId st) "";
     ins_stay_id := None;
     ins_room_id := if truthy (Some (expRoomId st)) then Some (expRoomId st) else None;
     ins_type := EXPENSE;
     ins_amount := StringToNumber (expAmount st);
     ins_method := expMethod st;
     ins_note := if truthy (Some (expNote st)) then Some (expNote st) else None;
     ins_created_by := userId;
     ins_paid_at := paid_at |}.

(** The address of the ledger with one entry in focus. *)
Definition focusURL (propertyId id : string) : string :=
  "/reports/cashbook?propertyId=" +:+ propertyId +:+ "&focus=" +:+ id.

(** The text of the notice for a failure caught by [submitExpense]. *)
Definition submitMessage (e : Thrown) : string :=
  if instanceofError e then message e else "Đã xảy ra lỗi.".

Definition isQuery (e : Effect) : bool :=
  match e with SelectRooms _ | SelectPayments _ _ _ _ => true | _ => false end.

(** What the user has typed into the expense form. *)
Definition typedExpense (st : State) : string * PaymentMethod * string * string * string :=
  (expAmount st, expMethod st, expNote st, expDate st, expRoomId st).

(** What a submission cannot complete with: no signed-in user, an expense
    date that is no date, or an insert the store rejects. *)
Definition submitFails (cl : Closure) (env : SubmitEnv) : bool :=
  match authUser env,
        toISOString (Date_of_string (expDate (c_state cl) +:+ "T12:00:00")),
        resp_error (insertResp env) with
  | Some _, Some _, None => false
  | _, _, _ => true
  end.

(** The row an income of a stay is stored as. *)
Definition incomeRecord (params : IncomeParams) (now : Z) : PaymentInsert :=
  {| ins_property_id := p_propertyId params;
     ins_stay_id := Some (p_stayId params);
     ins_room_id := p_roomId params;
     ins_type := INCOME;
     ins_amount := p_amount params;
     ins_method := p_method params;
     ins_note := p_note params;
     ins_created_by := p_userId params;
     ins_paid_at := now |}.

(** What the collection dialog passes to the income insert. *)
Definition collectParams (c : Collect) (st : RoomsView) (userId : string) : IncomeParams :=
  {| p_propertyId := col_propertyId c;
     p_stayId := col_stayId c;
     p_roomId := Some (col_roomId c);
     p_amount := col_amount c;
     p_method := payMethod st;
     p_note := Some (payNote st);
     p_userId := userId |}.

(** A collection goes through: a user is signed in, the store accepts the
    insert and returns the identifier of the new row. *)
Definition collectSucceeds (env : CollectEnv) : bool :=
  match col_user env, resp_error (col_insert env) with
  | Some _, None => truthy (c ← resp_data (col_insert env); ins_id c)
  | _, _ => false
  end.

Definition isAlert (q : Call) : bool :=
  match q with Alert _ => true | _ => false end.

(** The calls that change nothing about a stay and leave the page alone. *)
Definition isUserOrInsert (q : Call) : bool :=
  match q with
  | Known GetUser | Known (InsertPayment _) => true
  | _ => false
  end.

(** The property the store assigns to the user, if the lookup gives one. *)
Definition assignedProperty (env : ResolveEnv) : option string :=
  match resp_error (res_assignment env) with
  | Some _ => None
  | None => d ← resp_data (res_assignment env); row_property_id d
  end.

(* ================================================================== *)
(** ** Concrete data                                                   *)
(* ================================================================== *)

Definition mkRow (id : string) (t : PaymentType) (a : option Z) (paid_at : string)
    : PaymentRow :=
  {| r_id := id; r_type := t; r_amount := option_map Double_of_Z a;
     r_method := CASH; r_note := None;
     r_paid_at := paid_at; r_stay_id := None; r_room_id := None |}.

(** The ledger of scenario A: two entries on 10 January 2024 and one on
    the 11th. *)
Definition row_a1 : PaymentRow := mkRow "p1" INCOME (Some 100000) "2024-01-10T05:00:00+00:00".
Definition row_a2 : PaymentRow := mkRow "p2" EXPENSE (Some 30000) "2024-01-10T06:00:00+00:00".
Definition row_a3 : PaymentRow := mkRow "p3" INCOME (Some 50000) "2024-01-11T05:00:00+00:00".

Definition projection (r : PaymentRow) : TotalsRow :=
  {| t_type := r_type r; t_amount := r_amount r |}.

Definition ok {A : Type} (l : A) : Response A := {| resp_data := Some l; resp_error := None |}.

Definition failed {A : Type} (text : string) : Response A :=
  {| resp_data := None;
     resp_error := Some {| instanceofError := true; message := text |} |}.

(** A freshly mounted view anchored on [date], in mode [m]. *)
Definition viewOn (date : string) (m : FilterMode) : State :=
  {| loading := false; msg := ""; msgType := info; propertyId := Some "prop-1";
     selectedDate := date; filterMode := m; rangeFrom := date; rangeTo := date;
     rooms := []; roomNameById := ∅; rows := [];
     dayIncome := Double_zero; dayExpense := Double_zero;
     monthIncome := Double_zero; monthExpense := Double_zero;
     expAmount := ""; expMethod := CASH; expNote := ""; expDate := date;
     expRoomId := ""; submittingExpense := false |}.

Definition state_A : State := viewOn "2024-01-10" TODAY.

(** The store answers every query of scenario A. *)
Definition env_A : RefreshEnv :=
  {| roomsResp := ok [];
     payListResp := ok [row_a2; row_a1];
     payMonthResp := ok (List.map projection [row_a1; row_a2; row_a3]);
     payDayResp := ok (List.map projection [row_a1; row_a2]);
     mounted := fun _ => true |}.

(** Scenario D: the list query fails, the month and day queries would
    succeed. *)
Definition env_D : RefreshEnv :=
  {| roomsResp := ok [];
     payListResp := failed "connection lost";
     payMonthResp := ok (List.map projection [row_a1; row_a2; row_a3]);
     payDayResp := ok (List.map projection [row_a1; row_a2]);
     mounted := fun _ => true |}.

(** Scenario B: the amount field holds ["abc"]. *)
Definition state_B : State := setExpAmount "abc" state_A.

(** A form with a valid expense, and a store that accepts the insert
    without returning the new row. *)
Definition state_expense : State := setExpAmount "200000" state_A.

Definition env_no_id : SubmitEnv :=
  {| authUser := Some "user-1";
     insertResp := {| resp_data := None; resp_error := None |};
     refreshEnv := env_A |}.

Definition params_income : IncomeParams :=
  {| p_propertyId := "prop-1"; p_stayId := "stay-1"; p_roomId := None;
     p_amount := JsFinite 100000 0; p_method := CASH; p_note := None;
     p_userId := "user-1" |}.

(** A list holding an entry without an amount. *)
Definition row_null : PaymentRow := mkRow "p4" INCOME None "2024-01-10T07:00:00+00:00".

(** A view whose custom range is 1 to 5 January while the anchor is the 10th. *)
Definition state_range : State :=
  setRangeTo "2024-01-05" (setRangeFrom "2024-01-01" (viewOn "2024-01-10" RANGE)).

(** That view with an expense of 200000 dated 20 February 2024 in the
    form, and its render once the mode "today" has been picked. *)
Definition state_range_expense : State :=
  setExpDate "2024-02-20" (setExpAmount "200000" state_range).

Definition closure_away : Closure :=
  {| c_state := setFilterMode TODAY state_range_expense;
     c_listRange := {| startISO := 1704819600000; endISO := 1704905999999 |};
     c_monthRange := {| startISO := 1704042000000; endISO := 1706720400000 |} |}.

(** The deployment zone: UTC+7. *)
Definition tza_ICT : Z := 7 * msPerHour.

(** The same view with a valid expense in the form. *)
Definition closure_expense : Closure :=
  {| c_state := state_expense;
     c_listRange := {| startISO := 1704819600000; endISO := 1704905999999 |};
     c_monthRange := {| startISO := 1704042000000; endISO := 1706720400000 |} |}.

(** The view of scenario B, rendered. *)
Definition closure_B : Closure :=
  {| c_state := state_B;
     c_listRange := {| startISO := 1704819600000; endISO := 1704905999999 |};
     c_monthRange := {| startISO := 1704042000000; endISO := 1706720400000 |} |}.

(** The render of [state_A] in that zone: 10 January 2024 from 00:00 to
    23:59:59.999, and January 2024, local time. *)
Definition closure_A : Closure :=
  {| c_state := state_A;
     c_listRange := {| startISO := 1704819600000; endISO := 1704905999999 |};
     c_monthRange := {| startISO := 1704042000000; endISO := 1706720400000 |} |}.


(** A store that accepts the expense and returns the new row. *)
Definition env_accept : SubmitEnv :=
  {| authUser := Some "user-1";
     insertResp := ok {| ins_id := Some "pay-9" |};
     refreshEnv := env_A |}.

(** A store that rejects the expense. *)
Definition env_reject : SubmitEnv :=
  {| authUser := Some "user-1";
     insertResp := failed "permission denied";
     refreshEnv := env_A |}.

(** Scenario A with the view unmounted before the first answer. *)
Definition env_unmounted : RefreshEnv :=
  {| roomsResp := ok [];
     payListResp := ok [row_a2; row_a1];
     payMonthResp := ok (List.map projection [row_a1; row_a2; row_a3]);
     payDayResp := ok (List.map projection [row_a1; row_a2]);
     mounted := fun _ => false |}.

(** Scenario A with one room, and an entry of that room. *)
Definition env_rooms : RefreshEnv :=
  {| roomsResp := ok [ {| rec_id := "room-1"; rec_name := Some "101" |} ];
     payListResp := ok [row_a2; row_a1];
     payMonthResp := ok (List.map projection [row_a1; row_a2; row_a3]);
     payDayResp := ok (List.map projection [row_a1; row_a2]);
     mounted := fun _ => true |}.

Definition row_room : PaymentRow :=
  {| r_id := "p5"; r_type := INCOME; r_amount := Some (Double_of_Z 250000);
     r_method := CASH; r_note := None; r_paid_at := "2024-01-10T08:00:00+00:00";
     r_stay_id := None; r_room_id := Some "room-1" |}.

(** A signed-in user with a property assigned, and one with none. *)
Definition env_assigned : ResolveEnv :=
  {| res_user := Some "user-1";
     res_assignment := ok {| row_property_id := Some "prop-1" |};
     res_mounted := fun _ => true |}.

Definition env_unassigned : ResolveEnv :=
  {| res_user := Some "user-1";
     res_assignment := {| resp_data := None; resp_error := None |};
     res_mounted := fun _ => true |}.

(** The view of the user without a property, once resolved and rendered. *)
Definition closure_unassigned : Closure :=
  {| c_state := fst (p_run (resolveProperty None env_unassigned) state_A);
     c_listRange := {| startISO := 1704819600000; endISO := 1704905999999 |};
     c_monthRange := {| startISO := 1704042000000; endISO := 1706720400000 |} |}.

(** A collection whose insert is accepted and whose update of the stay
    is rejected. *)
Definition collect_A : Collect :=
  {| col_open := true; col_stayId := "stay-1"; col_roomId := "room-1";
     col_propertyId := "prop-1"; col_amount := JsFinite 250000 0 |}.

Definition roomsView_A : RoomsView :=
  {| collect := Some collect_A; payMethod := TRANSFER; payNote := "late checkout";
     submittingCollect := false |}.

Definition env_update_rejected : CollectEnv :=
  {| col_user := Some "user-1";
     col_now := 1704850000000;
     col_insert := ok {| ins_id := Some "pay-9" |};
     col_update := failed "permission denied" |}.

(** A ledger whose amounts reach 2^53, and the amounts 0.1 and 0.2. *)
Definition rows_beyond_2_53 : list PaymentRow :=
  [ mkRow "b1" INCOME (Some (2 ^ 53)) "2024-01-10T05:00:00+00:00";
    mkRow "b2" INCOME (Some 1) "2024-01-10T06:00:00+00:00";
    mkRow "b3" INCOME (Some 1) "2024-01-10T07:00:00+00:00" ].

Definition tenth : Double := Double_of_binary 3602879701896397 (-55).
Definition fifth : Double := Double_of_binary 3602879701896397 (-54).

(** 10 January 2024, 08:26:40 in the deployment zone. *)
Definition instant_A : Z := 1704850000000.


(* ================================================================== *)
(** ** Proof tools                                                     *)
(* ================================================================== *)

(** Case analysis on the comparisons of the month tables. *)
Ltac split_ltb :=
  repeat match goal with
  | |- context [ if ?a <? ?b then _ else _ ] => destruct (Z.ltb_spec a b); try lia
  end.

(** Evaluates the month tables at the literal months of a case split. *)
Ltac eval_months :=
  repeat match goal with
  | |- context [ DaysBeforeMonth ?a true ] =>
      let v := eval vm_compute in (DaysBeforeMonth a true) in
      change (DaysBeforeMonth a true) with v
  | |- context [ DaysBeforeMonth ?a false ] =>
      let v := eval vm_compute in (DaysBeforeMonth a false) in
      change (DaysBeforeMonth a false) with v
  | H : context [ DaysBeforeMonth ?a true ] |- _ =>
      let v := eval vm_compute in (DaysBeforeMonth a true) in
      change (DaysBeforeMonth a true) with v in H
  | H : context [ DaysBeforeMonth ?a false ] |- _ =>
      let v := eval vm_compute in (DaysBeforeMonth a false) in
      change (DaysBeforeMonth a false) with v in H
  | |- context [ DaysInMonth ?y (Zpos ?p) ] =>
      let v := eval cbv [DaysInMonth] in (DaysInMonth y (Zpos p)) in
      change (DaysInMonth y (Zpos p)) with v
  | H : context [ DaysInMonth ?y (Zpos ?p) ] |- _ =>
      let v := eval cbv [DaysInMonth] in (DaysInMonth y (Zpos p)) in
      change (DaysInMonth y (Zpos p)) with v in H
  end.

(** A case per month, with the month tables evaluated. *)
Ltac each_month C := decompose [or] C; clear C; subst; eval_months.

(** Unfolds the combinators of a handler; the setters, the sums and the
    date functions stay folded. *)
Ltac step_handler :=
  cbv beta iota zeta delta
    [run completion tryCatchFinally call mbind mret Async_MBind Async_MRet Async_bind
     Async_ret skip return_ throw update perform await isMounted throwIf returnIf
     orRangeError view trace awaits negb fst snd app].

(** Case analysis on the next decision a handler takes. *)
Ltac next_decision :=
  step_handler; cbn [resp_error resp_data mapResponse];
  match goal with
  | |- context [ if truthy ?x then _ else _ ] => destruct (truthy x) eqn:?
  | |- context [ match resp_error ?x with _ => _ end ] => destruct (resp_error x) eqn:?
  | |- context [ if mounted ?e ?n then _ else _ ] => destruct (mounted e n) eqn:?
  | |- context [ match startOfDayISO ?x with _ => _ end ] =>
      destruct (startOfDayISO x) eqn:?
  | |- context [ match endOfDayISO ?x with _ => _ end ] =>
      destruct (endOfDayISO x) eqn:?
  | |- context [ match ?x with Some _ => _ | None => _ end ] => is_var x; destruct x
  | |- context [ if ?m ?n then _ else _ ] => is_var m; destruct (m n) eqn:?
  end.

(** [step_handler] for a handler that resumes another one: the effects so
    far stay a list. *)
Ltac step_run :=
  cbv beta iota zeta delta
    [run completion tryCatchFinally call mbind mret Async_MBind Async_MRet Async_bind
     Async_ret skip return_ throw update perform await isMounted throwIf returnIf
     orRangeError view trace awaits negb fst snd].

(** [next_decision] with [step_run]. *)
Ltac next_choice :=
  step_run; cbn [resp_error resp_data];
  match goal with
  | |- context [ if truthy ?x then _ else _ ] => destruct (truthy x) eqn:?
  | |- context [ match resp_error ?x with _ => _ end ] => destruct (resp_error x) eqn:?
  | |- context [ if mounted ?e ?n then _ else _ ] => destruct (mounted e n) eqn:?
  | |- context [ match startOfDayISO ?x with _ => _ end ] =>
      destruct (startOfDayISO x) eqn:?
  | |- context [ match endOfDayISO ?x with _ => _ end ] =>
      destruct (endOfDayISO x) eqn:?
  end.

(** Rewrites with the day bounds a case analysis has fixed. *)
Ltac use_day_bounds :=
  repeat match goal with
  | H : startOfDayISO _ = _ |- _ => rewrite H; clear H
  | H : endOfDayISO _ = _ |- _ => rewrite H; clear H
  end.

(** [step_handler] for the handlers outside the ledger calls. *)
Ltac step_proc :=
  cbv beta iota zeta delta
    [p_run p_completion p_tryCatchFinally p_callModule mbind mret Proc_MBind Proc_MRet
     Proc_bind Proc_ret p_skip p_return p_throw p_update p_perform p_await p_isMounted
     p_view p_trace p_awaits
     Async_MBind Async_MRet Async_bind Async_ret skip throw await throwIf
     view trace awaits negb fst snd app List.map].

(* ================================================================== *)
(** ** Numbers: whole amounts are added exactly                        *)
(* ================================================================== *)

(** The number of binary digits of [p]. *)
Lemma digits2_pos_spec p :
  2 ^ (Zpos (digits2_pos p) - 1) <= Zpos p < 2 ^ Zpos (digits2_pos p).
Proof.
  induction p as [p IH|p IH|]; cbn [digits2_pos].
  - rewrite Pos2Z.inj_succ. replace (Z.succ (Zpos (digits2_pos p)) - 1) with (Z.succ (Zpos (digits2_pos p) - 1)) by lia.
    rewrite !Z.pow_succ_r by lia. lia.
  - rewrite Pos2Z.inj_succ. replace (Z.succ (Zpos (digits2_pos p)) - 1) with (Z.succ (Zpos (digits2_pos p) - 1)) by lia.
    rewrite !Z.pow_succ_r by lia. lia.
  - cbn. lia.
Qed.

Lemma digits2_pos_unique p j :
  2 ^ (j - 1) <= Zpos p < 2 ^ j -> Zpos (digits2_pos p) = j.
Proof.
  intros H. pose proof (digits2_pos_spec p) as S.
  assert (0 < j).
  { destruct (Z.ltb_spec 0 j); [assumption|].
    assert (2 ^ j <= 2 ^ 0) by (destruct (Z.eqb_spec j 0); [subst; lia|rewrite Z.pow_neg_r by lia; cbn; lia]).
    cbn in *. lia. }
  set (d := Zpos (digits2_pos p)) in *.
  destruct (Z.lt_trichotomy d j) as [L|[E|G]]; [|assumption|].
  - assert (2 ^ d <= 2 ^ (j - 1)) by (apply Z.pow_le_mono_r; lia). lia.
  - assert (2 ^ j <= 2 ^ (d - 1)) by (apply Z.pow_le_mono_r; lia). lia.
Qed.

Lemma digits2_pos_shift p k :
  0 <= k -> Zpos (digits2_pos (Z.to_pos (Zpos p * 2 ^ k))) = Zpos (digits2_pos p) + k.
Proof.
  intros Hk. apply digits2_pos_unique.
  pose proof (digits2_pos_spec p) as S.
  assert (0 < 2 ^ k) by (apply Z.pow_pos_nonneg; lia).
  rewrite Z2Pos.id by nia.
  replace (Zpos (digits2_pos p) + k - 1) with (Zpos (digits2_pos p) - 1 + k) by lia.
  rewrite !Z.pow_add_r by lia. nia.
Qed.

Lemma Pos_iter_xO p k : Zpos (Pos.iter xO p k) = Zpos p * 2 ^ Zpos k.
Proof.
  induction k as [|k IH] using Pos.peano_ind.
  - cbn. lia.
  - rewrite Pos.iter_succ, Pos2Z.inj_xO, IH, Pos2Z.inj_succ, Z.pow_succ_r by lia. lia.
Qed.

Lemma iter_pos_iter {A} (f : A -> A) n x : SpecFloat.iter_pos f n x = Pos.iter f x n.
Proof.
  revert x. induction n as [n IH|n IH|]; intros x; cbn [SpecFloat.iter_pos Pos.iter].
  - rewrite !IH. rewrite <- !Pos.iter_swap. reflexivity.
  - rewrite !IH. reflexivity.
  - reflexivity.
Qed.

Lemma shr_exact q k :
  SpecFloat.iter_pos shr_1 k {| shr_m := Zpos q * 2 ^ Zpos k; shr_r := false; shr_s := false |}
  = {| shr_m := Zpos q; shr_r := false; shr_s := false |}.
Proof.
  rewrite iter_pos_iter.
  induction k as [|k IH] using Pos.peano_ind.
  - cbn [Pos.iter]. change (2 ^ 1) with 2. replace (Zpos q * 2) with (Zpos (xO q)) by lia.
    reflexivity.
  - rewrite Pos.iter_succ_r.
    rewrite Pos2Z.inj_succ, Z.pow_succ_r by lia.
    assert (E : Zpos q * (2 * 2 ^ Zpos k) = Zpos (xO (Z.to_pos (Zpos q * 2 ^ Zpos k)))).
    { rewrite (Pos2Z.inj_xO (Z.to_pos _)), Z2Pos.id; [lia|]. assert (0 < 2 ^ Zpos k) by (apply Z.pow_pos_nonneg; lia). nia. }
    rewrite E. cbn [shr_1 orb].
    rewrite Z2Pos.id; [exact IH|]. assert (0 < 2 ^ Zpos k) by (apply Z.pow_pos_nonneg; lia). nia.
Qed.

(** Rounding a mantissa that is already in place changes nothing. *)
Lemma binary_round_aux_canonical s mc ec :
  fexp 53 1024 (Zpos (digits2_pos mc) + ec) = ec -> ec <= 971 ->
  binary_round_aux 53 1024 s (Zpos mc) ec loc_Exact = S754_finite s mc ec.
Proof.
  intros H L. unfold binary_round_aux, shr_fexp.
  cbn [Zdigits2 shr_record_of_loc]. rewrite H, Z.sub_diag.
  cbn [shr shr_m loc_of_shr_record round_nearest_even Zdigits2 shr_record_of_loc].
  rewrite H, Z.sub_diag. cbn [shr shr_m].
  change (1024 - 53) with 971.
  destruct (Z.leb_spec ec 971); [reflexivity|lia].
Qed.

(** The double of a whole number [p] below 2^53, from any way of writing
    it as [p * 2^k] with exponent [-k]. *)
Lemma binary_round_whole s p k :
  Zpos p < 2 ^ 53 -> 0 <= k ->
  let d := Zpos (digits2_pos p) in
  binary_round 53 1024 s (Z.to_pos (Zpos p * 2 ^ k)) (- k)
  = S754_finite s (Z.to_pos (Zpos p * 2 ^ (53 - d))) (d - 53).
Proof.
  intros Hp Hk d.
  pose proof (digits2_pos_spec p) as S. fold d in S.
  assert (Hd : 1 <= d <= 53).
  { split; [unfold d; lia|].
    destruct (Z.leb_spec d 53); [assumption|].
    assert (2 ^ 53 <= 2 ^ (d - 1)) by (apply Z.pow_le_mono_r; lia). lia. }
  assert (Hc : fexp 53 1024
                 (Zpos (digits2_pos (Z.to_pos (Zpos p * 2 ^ (53 - d)))) + (d - 53))
               = d - 53).
  { rewrite digits2_pos_shift by lia. fold d. unfold fexp, emin. lia. }
  unfold binary_round.
  rewrite digits2_pos_shift by lia. fold d.
  replace (fexp 53 1024 (d + k + - k)) with (d - 53) by (unfold fexp, emin; lia).
  unfold shl_align.
  assert (P2 : forall j, 0 <= j -> 0 < Zpos p * 2 ^ j).
  { intros j Hj. assert (0 < 2 ^ j) by (apply Z.pow_pos_nonneg; lia). nia. }
  destruct (d - 53 - - k) as [|j|j] eqn:E.
  - assert (k = 53 - d) by lia. subst k.
    replace (- (53 - d)) with (d - 53) by lia.
    apply binary_round_aux_canonical; [exact Hc|lia].
  - (* shift right *)
    unfold binary_round_aux, shr_fexp. cbn [Zdigits2 shr_record_of_loc].
    rewrite digits2_pos_shift by lia. fold d.
    replace (fexp 53 1024 (d + k + - k) - - k) with (Zpos j) by (unfold fexp, emin; lia).
    cbn [shr].
    assert (EM : Zpos (Z.to_pos (Zpos p * 2 ^ k))
                 = Zpos (Z.to_pos (Zpos p * 2 ^ (53 - d))) * 2 ^ Zpos j).
    { rewrite !Z2Pos.id by (apply P2; lia).
      replace k with (53 - d + Zpos j) by lia.
      rewrite Z.pow_add_r by lia. lia. }
    rewrite EM, shr_exact.
    cbn [shr_m loc_of_shr_record round_nearest_even Zdigits2 shr_record_of_loc].
    replace (- k + Zpos j) with (d - 53) by lia.
    rewrite Hc, Z.sub_diag. cbn [shr shr_m].
    change (1024 - 53) with 971.
    destruct (Z.leb_spec (d - 53) 971); [reflexivity|lia].
  - (* shift left *)
    assert (EM : Pos.iter xO (Z.to_pos (Zpos p * 2 ^ k)) j
                 = Z.to_pos (Zpos p * 2 ^ (53 - d))).
    { apply Pos2Z.inj. rewrite Pos_iter_xO, !Z2Pos.id by (apply P2; lia).
      replace (53 - d) with (k + Zpos j) by lia.
      rewrite Z.pow_add_r by lia. lia. }
    rewrite EM. apply binary_round_aux_canonical; [exact Hc|lia].
Qed.

Lemma Double_of_Z_pos p :
  Zpos p < 2 ^ 53 ->
  let d := Zpos (digits2_pos p) in
  Double_of_Z (Zpos p) = S754_finite false (Z.to_pos (Zpos p * 2 ^ (53 - d))) (d - 53).
Proof.
  intros Hp d. unfold Double_of_Z, binary_normalize.
  pose proof (binary_round_whole false p 0 Hp (Z.le_refl 0)) as H.
  cbv zeta in H. change (2 ^ 0) with 1 in H. rewrite Z.mul_1_r in H.
  change (Z.to_pos (Zpos p)) with p in H. exact H.
Qed.

Lemma Double_of_Z_neg p :
  Zpos p < 2 ^ 53 ->
  let d := Zpos (digits2_pos p) in
  Double_of_Z (Zneg p) = S754_finite true (Z.to_pos (Zpos p * 2 ^ (53 - d))) (d - 53).
Proof.
  intros Hp d. unfold Double_of_Z, binary_normalize.
  pose proof (binary_round_whole true p 0 Hp (Z.le_refl 0)) as H.
  cbv zeta in H. change (2 ^ 0) with 1 in H. rewrite Z.mul_1_r in H.
  change (Z.to_pos (Zpos p)) with p in H. exact H.
Qed.

Lemma shl_align_whole p e ez :
  ez <= e -> Zpos (fst (shl_align p e ez)) = Zpos p * 2 ^ (e - ez).
Proof.
  intros H. unfold shl_align.
  destruct (ez - e) as [|j|j] eqn:E; cbn [fst].
  - replace (e - ez) with 0 by lia. change (2 ^ 0) with 1. lia.
  - lia.
  - rewrite Pos_iter_xO. f_equal. f_equal. lia.
Qed.

(** Whole numbers from 0 to 2^53 (exclusive) add exactly. *)
Lemma Double_add_whole a b :
  0 <= a -> 0 <= b -> a + b < 2 ^ 53 ->
  Double_add (Double_of_Z a) (Double_of_Z b) = Double_of_Z (a + b).
Proof.
  intros Ha Hb Hs.
  destruct a as [|p|p]; [|clear Ha|lia].
  { destruct b as [|q|q]; [reflexivity| |lia].
    rewrite Z.add_0_l. rewrite Double_of_Z_pos by lia. reflexivity. }
  destruct b as [|q|q]; [|clear Hb|lia].
  { rewrite Z.add_0_r. rewrite Double_of_Z_pos by lia. reflexivity. }
  rewrite (Double_of_Z_pos p), (Double_of_Z_pos q) by lia.
  set (dp := Zpos (digits2_pos p)). set (dq := Zpos (digits2_pos q)).
  pose proof (digits2_pos_spec p) as Sp. pose proof (digits2_pos_spec q) as Sq.
  fold dp in Sp. fold dq in Sq.
  assert (Hdp : 1 <= dp <= 53).
  { split; [unfold dp; lia|]. destruct (Z.leb_spec dp 53); [assumption|].
    assert (2 ^ 53 <= 2 ^ (dp - 1)) by (apply Z.pow_le_mono_r; lia). lia. }
  assert (Hdq : 1 <= dq <= 53).
  { split; [unfold dq; lia|]. destruct (Z.leb_spec dq 53); [assumption|].
    assert (2 ^ 53 <= 2 ^ (dq - 1)) by (apply Z.pow_le_mono_r; lia). lia. }
  unfold Double_add, SFadd. cbn [cond_Zopp].
  set (ez := Z.min (dp - 53) (dq - 53)).
  assert (P2 : forall (r : positive) j, 0 <= j -> 0 < Zpos r * 2 ^ j).
  { intros r j Hj. assert (0 < 2 ^ j) by (apply Z.pow_pos_nonneg; lia). nia. }
  rewrite !shl_align_whole by (unfold ez; lia).
  rewrite !Z2Pos.id by (apply P2; lia).
  rewrite <- !Z.mul_assoc, <- !Z.pow_add_r by (unfold ez; lia).
  replace (53 - dp + (dp - 53 - ez)) with (- ez) by lia.
  replace (53 - dq + (dq - 53 - ez)) with (- ez) by lia.
  rewrite <- Z.mul_add_distr_r.
  change (Zpos p + Zpos q) with (Zpos (p + q)).
  assert (En : Zpos (p + q) * 2 ^ (- ez) = Zpos (Z.to_pos (Zpos (p + q) * 2 ^ (- ez)))).
  { rewrite Z2Pos.id; [reflexivity|]. apply P2. unfold ez. lia. }
  rewrite En. unfold binary_normalize.
  replace ez with (- (- ez)) at 2 by lia.
  rewrite binary_round_whole by (unfold ez; lia).
  symmetry. apply Double_of_Z_pos. lia.
Qed.

(** Whole numbers from 0 to 2^53 (exclusive) subtract exactly. *)
Lemma Double_sub_whole a b :
  0 <= a < 2 ^ 53 -> 0 <= b < 2 ^ 53 ->
  Double_sub (Double_of_Z a) (Double_of_Z b) = Double_of_Z (a - b).
Proof.
  intros Ha Hb.
  destruct a as [|p|p]; [| |lia].
  { destruct b as [|q|q]; [reflexivity| |lia].
    rewrite Z.sub_0_l. change (- Zpos q) with (Zneg q).
    rewrite Double_of_Z_pos, Double_of_Z_neg by lia. reflexivity. }
  destruct b as [|q|q]; [| |lia].
  { rewrite Z.sub_0_r. rewrite Double_of_Z_pos by lia. reflexivity. }
  rewrite (Double_of_Z_pos p), (Double_of_Z_pos q) by lia.
  set (dp := Zpos (digits2_pos p)). set (dq := Zpos (digits2_pos q)).
  pose proof (digits2_pos_spec p) as Sp. pose proof (digits2_pos_spec q) as Sq.
  fold dp in Sp. fold dq in Sq.
  assert (Hdp : 1 <= dp <= 53).
  { split; [unfold dp; lia|]. destruct (Z.leb_spec dp 53); [assumption|].
    assert (2 ^ 53 <= 2 ^ (dp - 1)) by (apply Z.pow_le_mono_r; lia). lia. }
  assert (Hdq : 1 <= dq <= 53).
  { split; [unfold dq; lia|]. destruct (Z.leb_spec dq 53); [assumption|].
    assert (2 ^ 53 <= 2 ^ (dq - 1)) by (apply Z.pow_le_mono_r; lia). lia. }
  unfold Double_sub, SFsub. cbn [cond_Zopp].
  set (ez := Z.min (dp - 53) (dq - 53)).
  assert (P2 : forall (r : positive) j, 0 <= j -> 0 < Zpos r * 2 ^ j).
  { intros r j Hj. assert (0 < 2 ^ j) by (apply Z.pow_pos_nonneg; lia). nia. }
  rewrite !shl_align_whole by (unfold ez; lia).
  rewrite !Z2Pos.id by (apply P2; lia).
  rewrite <- !Z.mul_assoc, <- !Z.pow_add_r by (unfold ez; lia).
  replace (53 - dp + (dp - 53 - ez)) with (- ez) by lia.
  replace (53 - dq + (dq - 53 - ez)) with (- ez) by lia.
  rewrite <- Z.mul_sub_distr_r.
  assert (H2 : 0 < 2 ^ (- ez)) by (apply Z.pow_pos_nonneg; unfold ez; lia).
  destruct (Zpos p - Zpos q) as [|r|r] eqn:E.
  - reflexivity.
  - assert (En : Zpos r * 2 ^ (- ez) = Zpos (Z.to_pos (Zpos r * 2 ^ (- ez)))).
    { rewrite Z2Pos.id; [reflexivity|]. apply P2. unfold ez. lia. }
    rewrite En. unfold binary_normalize.
    replace ez with (- (- ez)) at 2 by lia.
    rewrite binary_round_whole by (unfold ez; lia).
    symmetry. apply Double_of_Z_pos. lia.
  - assert (En : Zneg r * 2 ^ (- ez) = Zneg (Z.to_pos (Zpos r * 2 ^ (- ez)))).
    { assert (0 < Zpos r * 2 ^ (- ez)) by (apply P2; unfold ez; lia).
      replace (Zneg r * 2 ^ (- ez)) with (- (Zpos r * 2 ^ (- ez))) by lia.
      destruct (Zpos r * 2 ^ (- ez)) as [|x|x]; [lia|reflexivity|lia]. }
    rewrite En. unfold binary_normalize.
    replace ez with (- (- ez)) at 2 by lia.
    rewrite binary_round_whole by (unfold ez; lia).
    symmetry. apply Double_of_Z_neg. lia.
Qed.

(* ================================================================== *)
(** ** The calendar                                                    *)
(* ================================================================== *)

Lemma DayFromYear_succ y : DayFromYear (y + 1) = DayFromYear y + DaysInYear y.
Proof.
  unfold DayFromYear, DaysInYear, isLeapYear.
  assert (E4 : (y + 1 - 1969) / 4 = (y - 1969) / 4 + (if y mod 4 =? 0 then 1 else 0))
    by (destruct (Z.eqb_spec (y mod 4) 0); lia).
  assert (E100 : (y + 1 - 1901) / 100
                 = (y - 1901) / 100 + (if y mod 100 =? 0 then 1 else 0))
    by (destruct (Z.eqb_spec (y mod 100) 0); lia).
  assert (E400 : (y + 1 - 1601) / 400
                 = (y - 1601) / 400 + (if y mod 400 =? 0 then 1 else 0))
    by (destruct (Z.eqb_spec (y mod 400) 0); lia).
  rewrite E4, E100, E400.
  assert (y mod 400 = 0 -> y mod 100 = 0) by lia.
  assert (y mod 100 = 0 -> y mod 4 = 0) by lia.
  destruct (Z.eqb_spec (y mod 4) 0), (Z.eqb_spec (y mod 100) 0),
    (Z.eqb_spec (y mod 400) 0); cbn [negb]; lia.
Qed.

(** [YearFromDay d] is the year day [d] falls in. *)
Lemma YearFromDay_spec d :
  DayFromYear (YearFromDay d) <= d < DayFromYear (YearFromDay d + 1).
Proof.
  unfold YearFromDay.
  set (y0 := 1970 + (400 * d) / 146097).
  assert (H1 : DayFromYear (y0 - 1) <= d) by (unfold DayFromYear, y0; lia).
  assert (H2 : d < DayFromYear (y0 + 2)) by (unfold DayFromYear, y0; lia).
  destruct (Z.ltb_spec d (DayFromYear y0)).
  - replace (y0 - 1 + 1) with y0 by lia. lia.
  - destruct (Z.leb_spec (DayFromYear (y0 + 1)) d).
    + replace (y0 + 1 + 1) with (y0 + 2) by lia. lia.
    + lia.
Qed.

Lemma DayFromYear_mono a b : a <= b -> DayFromYear a <= DayFromYear b.
Proof. unfold DayFromYear. lia. Qed.

Lemma YearFromDay_unique y d :
  DayFromYear y <= d < DayFromYear (y + 1) -> YearFromDay d = y.
Proof.
  intros H. pose proof (YearFromDay_spec d) as S.
  destruct (Z.lt_trichotomy (YearFromDay d) y) as [L|[E|G]]; [|exact E|].
  - pose proof (DayFromYear_mono (YearFromDay d + 1) y ltac:(lia)). lia.
  - pose proof (DayFromYear_mono (y + 1) (YearFromDay d) ltac:(lia)). lia.
Qed.

Lemma DayWithinYear_range t : 0 <= DayWithinYear t < DaysInYear (YearFromTime t).
Proof.
  unfold DayWithinYear, YearFromTime.
  pose proof (YearFromDay_spec (Day t)) as S.
  rewrite DayFromYear_succ in S. lia.
Qed.

Lemma MakeDay_small y mn dt :
  0 <= mn < 12 ->
  MakeDay y mn dt = DayFromYear y + DaysBeforeMonth mn (isLeapYear y) + dt - 1.
Proof.
  intros H. unfold MakeDay.
  rewrite Z.div_small, Z.mod_small, Z.add_0_r by lia. reflexivity.
Qed.

Lemma MonthFromTime_range t : 0 <= MonthFromTime t < 12.
Proof. unfold MonthFromTime. split_ltb. Qed.

(** Year, month and day of a time value give back its day number. *)
Lemma MakeDay_of_time t :
  MakeDay (YearFromTime t) (MonthFromTime t) (DateFromTime t) = Day t.
Proof.
  rewrite MakeDay_small by apply MonthFromTime_range.
  pose proof (DayWithinYear_range t) as R.
  unfold DateFromTime, MonthFromTime, InLeapYear, DaysInYear in *.
  set (d := DayWithinYear t) in *.
  assert (Ed : Day t = DayFromYear (YearFromTime t) + d)
    by (unfold d, DayWithinYear; lia).
  destruct (isLeapYear (YearFromTime t)) eqn:L; split_ltb;
    cbv [DaysBeforeMonth]; lia.
Qed.

Lemma month_cases m :
  1 <= m <= 12 ->
  m = 1 \/ m = 2 \/ m = 3 \/ m = 4 \/ m = 5 \/ m = 6 \/ m = 7 \/ m = 8 \/
  m = 9 \/ m = 10 \/ m = 11 \/ m = 12.
Proof. lia. Qed.

(** A time value on an existing calendar date has that year, month and day. *)
Lemma civil_of_MakeDay y m d t :
  1 <= m <= 12 -> 1 <= d <= DaysInMonth y m -> Day t = MakeDay y (m - 1) d ->
  YearFromTime t = y /\ MonthFromTime t = m - 1 /\ DateFromTime t = d.
Proof.
  intros Hm Hd ED.
  rewrite MakeDay_small in ED by lia.
  pose proof (month_cases m Hm) as C.
  assert (EY : YearFromTime t = y).
  { unfold YearFromTime. apply YearFromDay_unique. rewrite DayFromYear_succ, ED.
    unfold DaysInYear.
    destruct (isLeapYear y) eqn:L; each_month C; rewrite ?L in *; lia. }
  split; [exact EY|].
  unfold DateFromTime, MonthFromTime, InLeapYear, DayWithinYear. rewrite EY, ED.
  destruct (isLeapYear y) eqn:L; each_month C; rewrite ?L in *; split_ltb; split; lia.
Qed.

(** The first of the month after month [m] of year [y] comes
    [DaysInMonth y m] days after the first of month [m]. *)
Lemma MakeDay_next_month y m :
  1 <= m <= 12 -> MakeDay y m 1 = MakeDay y (m - 1) 1 + DaysInMonth y m.
Proof.
  intros Hm. destruct (Z.eq_dec m 12) as [->|N].
  - unfold MakeDay. change (12 / 12) with 1. change (12 mod 12) with 0.
    change ((12 - 1) / 12) with 0. change ((12 - 1) mod 12) with 11.
    rewrite !Z.add_0_r, DayFromYear_succ. unfold DaysInYear.
    destruct (isLeapYear y), (isLeapYear (y + 1)); eval_months; lia.
  - rewrite !MakeDay_small by lia.
    pose proof (month_cases m Hm) as C.
    destruct (isLeapYear y) eqn:L; each_month C; rewrite ?L in *; lia.
Qed.

Lemma Day_MakeDate n tod : 0 <= tod < msPerDay -> Day (MakeDate n tod) = n.
Proof. unfold Day, MakeDate, msPerDay. intros H. lia. Qed.

Lemma TimeWithinDay_MakeDate n tod :
  0 <= tod < msPerDay -> TimeWithinDay (MakeDate n tod) = tod.
Proof. unfold TimeWithinDay, MakeDate, msPerDay. intros H. lia. Qed.

Lemma TimeClip_in_range t :
  - 8640000000000000 <= t <= 8640000000000000 -> TimeClip t = Some t.
Proof.
  intros H. unfold TimeClip. destruct (Z.leb_spec (Z.abs t) 8640000000000000); [reflexivity|lia].
Qed.


(* ================================================================== *)
(** ** Reading dates                                                   *)
(* ================================================================== *)

Lemma digitValue_range c x : digitValue c = Some x -> 0 <= x <= 9.
Proof.
  unfold digitValue. set (n := Z.of_N (N_of_ascii c)).
  destruct ((48 <=? n) && (n <=? 57)) eqn:E; [|discriminate].
  intros [= <-]. apply andb_true_iff in E. lia.
Qed.

Lemma number2_range a b x : number2 a b = Some x -> 0 <= x <= 99.
Proof.
  unfold number2. destruct (digitValue a) as [u|] eqn:Ea; [|discriminate].
  destruct (digitValue b) as [v|] eqn:Eb; [|discriminate].
  intros [= <-]. apply digitValue_range in Ea, Eb. lia.
Qed.

Lemma number4_range a b c d x : number4 a b c d = Some x -> 0 <= x <= 9999.
Proof.
  unfold number4. destruct (number2 a b) as [u|] eqn:Ea; [|discriminate].
  destruct (number2 c d) as [v|] eqn:Eb; [|discriminate].
  intros [= <-]. apply number2_range in Ea, Eb. lia.
Qed.

Lemma validYMD_spec D :
  validYMD D = true ->
  1 <= ymd_month D <= 12 /\ 1 <= ymd_day D <= DaysInMonth (ymd_year D) (ymd_month D).
Proof. unfold validYMD. rewrite !andb_true_iff. lia. Qed.

(** A date that is read has ten characters, a year of four digits, and
    exists in the calendar. *)
Lemma readDate_Some cs D :
  readDate cs = Some D ->
  length cs = 10%nat /\ 0 <= ymd_year D <= 9999 /\ validYMD D = true.
Proof.
  unfold readDate.
  do 10 (destruct cs as [|? cs]; [discriminate|]).
  destruct cs; [|discriminate].
  destruct (isChar _ _ && isChar _ _); [|discriminate].
  destruct (number4 _ _ _ _) as [y|] eqn:Ey; [|discriminate].
  destruct (number2 a4 a5) as [m|] eqn:Em; [|discriminate].
  destruct (number2 a7 a8) as [d|] eqn:Ed; [|discriminate].
  cbn [mbind option_bind].
  destruct (validYMD _) eqn:V; [|discriminate].
  intros [= <-]. apply number4_range in Ey. auto.
Qed.

Lemma list_ascii_of_string_app a b :
  list_ascii_of_string (a +:+ b) = list_ascii_of_string a ++ list_ascii_of_string b.
Proof.
  induction a as [|c a IH]; [reflexivity|].
  change (c :: list_ascii_of_string (a +:+ b)
          = c :: (list_ascii_of_string a ++ list_ascii_of_string b)).
  now f_equal.
Qed.

(** The day number of a date of a four-digit year. *)
Lemma dayNumber_range D :
  0 <= ymd_year D <= 9999 -> validYMD D = true ->
  -719528 <= dayNumber D <= 2932897.
Proof.
  intros Hy V. apply validYMD_spec in V as [Hm Hd].
  unfold dayNumber. rewrite MakeDay_small by lia.
  pose proof (DayFromYear_mono 0 (ymd_year D) ltac:(lia)) as L0.
  pose proof (DayFromYear_mono (ymd_year D) 9999 ltac:(lia)) as L1.
  change (DayFromYear 0) with (-719528) in L0.
  change (DayFromYear 9999) with 2932532 in L1.
  pose proof (month_cases _ Hm) as C.
  destruct D as [y m d]; cbn [ymd_year ymd_month ymd_day] in *.
  destruct (isLeapYear y) eqn:L; each_month C; rewrite ?L in *; lia.
Qed.

Section Zone.

(** The offset of a time zone stays within a day. *)
Hypothesis LocalTZA_range : - msPerDay < LocalTZA < msPerDay.

(** A date-input value followed by a time of day is read as that local
    time on that date. *)
Lemma Date_parse_local sel D ts tod :
  isoDate sel = Some D ->
  readTime (list_ascii_of_string ts) = Some tod ->
  0 <= tod < msPerDay ->
  Date_parse (sel +:+ String "T" ts) = Some (UTC (MakeDate (dayNumber D) tod)).
Proof.
  intros HD HT Htod. unfold Date_parse, isoDate in *.
  pose proof (readDate_Some _ _ HD) as (Hlen & Hy & V).
  rewrite list_ascii_of_string_app. cbn [list_ascii_of_string].
  rewrite drop_app_length', take_app_length' by (symmetry; exact Hlen).
  change (isChar "T" "T") with true. cbv iota.
  rewrite HD, HT. cbn [mbind option_bind].
  apply TimeClip_in_range.
  pose proof (dayNumber_range D Hy V).
  unfold UTC, MakeDate, msPerDay in *. lia.
Qed.

Lemma startOfDayISO_local sel D :
  isoDate sel = Some D -> startOfDayISO sel = Some (startOfLocalDay (dayNumber D)).
Proof.
  intros HD. unfold startOfDayISO, toISOString, Date_of_string, startOfLocalDay.
  rewrite (Date_parse_local sel D "00:00:00" 0 HD); [|reflexivity|unfold msPerDay; lia].
  unfold MakeDate. now rewrite Z.add_0_r.
Qed.

Lemma endOfDayISO_local sel D :
  isoDate sel = Some D -> endOfDayISO sel = Some (endOfLocalDay (dayNumber D)).
Proof.
  intros HD. unfold endOfDayISO, toISOString, Date_of_string, endOfLocalDay.
  now rewrite (Date_parse_local sel D "23:59:59.999" 86399999 HD);
    [|reflexivity|unfold msPerDay; lia].
Qed.

Lemma LocalTime_UTC t : LocalTime (UTC t) = t.
Proof. unfold LocalTime, UTC. lia. Qed.

Lemma MakeDay_shift y m d k : MakeDay y m (d - k) = MakeDay y m d - k.
Proof. unfold MakeDay. lia. Qed.

(** The rolling computation of [listRange]: from the last instant of day
    [n], [k] days back and to midnight. *)
Lemma roll_back n k :
  -719528 <= n <= 2932897 -> 0 <= k <= 30 ->
  let end_ : Date := Some (UTC (MakeDate n 86399999)) in
  let start := Date_of_Date end_ in
  let start := setDate start (d ← getDate start; Some (d - k)) in
  setHours start 0 0 0 0 = Some (startOfLocalDay (n - k)).
Proof.
  intros Hn Hk. cbv zeta.
  unfold Date_of_Date. cbn [mbind option_bind].
  rewrite TimeClip_in_range by (unfold UTC, MakeDate, msPerDay in *; lia).
  unfold getDate, setDate. cbn [mbind option_bind].
  rewrite LocalTime_UTC, MakeDay_shift, MakeDay_of_time.
  rewrite Day_MakeDate, TimeWithinDay_MakeDate by (unfold msPerDay; lia).
  rewrite TimeClip_in_range by (unfold UTC, MakeDate, msPerDay in *; lia).
  unfold setHours. cbn [mbind option_bind].
  rewrite LocalTime_UTC, Day_MakeDate by (unfold msPerDay; lia).
  change (MakeTime 0 0 0 0) with 0.
  rewrite TimeClip_in_range by (unfold UTC, MakeDate, msPerDay in *; lia).
  unfold startOfLocalDay, MakeDate. now rewrite Z.add_0_r.
Qed.

(** The instants between the first instant of local day [a] and the last
    instant of local day [b] are those that fall on the days [a] to [b]. *)
Lemma between_local_days a b t :
  startOfLocalDay a <= t <= endOfLocalDay b <-> a <= localDay t <= b.
Proof.
  unfold startOfLocalDay, endOfLocalDay, localDay, Day, LocalTime, UTC, msPerDay. lia.
Qed.

(* ================================================================== *)
(** ** Window resolution                                               *)
(* ================================================================== *)

(** C4. For every anchor date [D], the window of the modes "last 7 days"
    and "last 30 days" ([N] = 7, 30) is resolved; it starts at the first
    instant of the day [N - 1] days before [D] (which is what
    [startOfDayISO] gives for that date) and ends at the last instant of
    [D] (which is [endOfDayISO] of the anchor); the instants it contains are
    exactly those that fall on the [N] calendar days ending on and
    including [D], and it is [N] days long. *)
Theorem listRange_rolling_window st D N :
  isoDate (selectedDate st) = Some D ->
  windowDays (filterMode st) = Some N ->
  exists w,
    listRange st = Some w
    /\ startISO w = startOfLocalDay (dayNumber D - (N - 1))
    /\ endISO w = endOfLocalDay (dayNumber D)
    /\ endOfDayISO (selectedDate st) = Some (endISO w)
    /\ (forall s' D', isoDate s' = Some D' -> dayNumber D' = dayNumber D - (N - 1) ->
                      startOfDayISO s' = Some (startISO w))
    /\ (forall t, startISO w <= t <= endISO w
                  <-> dayNumber D - (N - 1) <= localDay t <= dayNumber D)
    /\ endISO w - startISO w + 1 = N * msPerDay.
Proof.
  intros HD HN.
  pose proof (readDate_Some _ _ HD) as (_ & Hy & V).
  pose proof (dayNumber_range D Hy V) as Hn.
  pose proof (endOfDayISO_local _ _ HD) as HE.
  assert (HR : 0 <= N - 1 <= 30 /\
               listRange st = Some {| startISO := startOfLocalDay (dayNumber D - (N - 1));
                                      endISO := endOfLocalDay (dayNumber D) |}).
  { unfold listRange.
    unfold endOfDayISO, toISOString, Date_of_string in HE.
    destruct (filterMode st); try discriminate; injection HN as <-;
      cbn [FilterMode_eqb orb]; cbv iota; unfold Date_of_string; rewrite HE;
      unfold endOfLocalDay;
      change (msPerDay - 1) with 86399999;
      change (dayNumber D * msPerDay + 86399999) with (MakeDate (dayNumber D) 86399999).
    - change (7 - 1) with 6.
      rewrite (roll_back (dayNumber D) 6) by lia. split; [lia|reflexivity].
    - change (30 - 1) with 29.
      rewrite (roll_back (dayNumber D) 29) by lia. split; [lia|reflexivity]. }
  destruct HR as [HN1 HR].
  eexists. split; [exact HR|]. cbn [startISO endISO].
  split; [reflexivity|]. split; [reflexivity|]. split; [exact HE|].
  split; [|split].
  - intros s' D' HD' E. rewrite (startOfDayISO_local _ _ HD'). now rewrite E.
  - intros t. apply between_local_days.
  - unfold startOfLocalDay, endOfLocalDay, UTC, msPerDay. lia.
Qed.

Lemma DaysInMonth_range y m : 28 <= DaysInMonth y m <= 31.
Proof.
  unfold DaysInMonth.
  destruct (isLeapYear y);
    repeat match goal with
    | |- context [ match ?x with _ => _ end ] => destruct x
    end; lia.
Qed.

Lemma DateFromTime_range t :
  1 <= DateFromTime t <= DaysInMonth (YearFromTime t) (MonthFromTime t + 1).
Proof.
  pose proof (DayWithinYear_range t) as R.
  unfold DateFromTime, MonthFromTime, InLeapYear, DaysInYear in *.
  set (d := DayWithinYear t) in *.
  destruct (isLeapYear (YearFromTime t)) eqn:L; split_ltb;
    match goal with
    | |- context [ DaysInMonth _ (?k + 1) ] =>
        let v := eval vm_compute in (k + 1) in change (k + 1) with v
    end; eval_months; rewrite ?L; lia.
Qed.

(** What [monthRange] computes for an anchor that is a calendar date. *)
Lemma monthRange_fields st D :
  isoDate (selectedDate st) = Some D ->
  let yr := MakeFullYear (ymd_year D) in
  monthRange st
  = Some {| startISO := startOfLocalDay (MakeDay yr (ymd_month D - 1) 1);
            endISO := startOfLocalDay (MakeDay yr (ymd_month D) 1) |}.
Proof.
  intros HD yr.
  pose proof (readDate_Some _ _ HD) as (_ & Hy & V).
  pose proof (validYMD_spec _ V) as [Hm Hd].
  assert (Hyr : 0 <= yr <= 9999) by (unfold yr, MakeFullYear;
    destruct (_ && _) eqn:E; [apply andb_true_iff in E|]; lia).
  unfold monthRange, Date_of_string, toISOString.
  rewrite (Date_parse_local _ D "00:00:00" 0 HD); [|reflexivity|unfold msPerDay; lia].
  unfold getFullYear, getMonth. cbn [mbind option_bind]. rewrite LocalTime_UTC.
  destruct (civil_of_MakeDay (ymd_year D) (ymd_month D) (ymd_day D)
              (MakeDate (dayNumber D) 0) Hm Hd) as (EY & EM & _).
  { apply Day_MakeDate. unfold msPerDay. lia. }
  rewrite EY, EM. unfold Date_of_fields. cbn [mbind option_bind].
  fold yr.
  replace (ymd_month D - 1 + 1) with (ymd_month D) by lia.
  change (MakeTime 0 0 0 0) with 0.
  pose proof (dayNumber_range {| ymd_year := yr; ymd_month := ymd_month D; ymd_day := 1 |}
                Hyr) as B.
  unfold dayNumber in B. cbn [ymd_year ymd_month ymd_day] in B.
  pose proof (DaysInMonth_range yr (ymd_month D)) as DM.
  assert (VB : validYMD {| ymd_year := yr; ymd_month := ymd_month D; ymd_day := 1 |} = true).
  { unfold validYMD. cbn [ymd_year ymd_month ymd_day]. rewrite !andb_true_iff. lia. }
  specialize (B VB).
  pose proof (MakeDay_next_month yr (ymd_month D) Hm) as NX.
  rewrite !TimeClip_in_range by (unfold UTC, MakeDate, msPerDay in *; lia).
  cbn [mbind option_bind]. unfold startOfLocalDay, MakeDate. now rewrite !Z.add_0_r.
Qed.

(** The instants from the first of month [m] of year [y] up to, and not
    including, the first of the next month are those of that month. *)
Lemma between_months y m t :
  1 <= m <= 12 ->
  startOfLocalDay (MakeDay y (m - 1) 1) <= t < startOfLocalDay (MakeDay y m 1)
  <-> localMonth t = (y, m).
Proof.
  intros Hm. rewrite (MakeDay_next_month y m Hm).
  pose proof (DaysInMonth_range y m) as DM.
  unfold localMonth. set (tl := LocalTime t).
  assert (EQ : startOfLocalDay (MakeDay y (m - 1) 1) <= t
               < startOfLocalDay (MakeDay y (m - 1) 1 + DaysInMonth y m)
               <-> MakeDay y (m - 1) 1 <= Day tl
                   < MakeDay y (m - 1) 1 + DaysInMonth y m).
  { unfold startOfLocalDay, tl, Day, LocalTime, UTC, msPerDay. lia. }
  rewrite EQ. split.
  - intros H.
    destruct (civil_of_MakeDay y m (Day tl - MakeDay y (m - 1) 1 + 1) tl Hm)
      as (EY & EM & _).
    + lia.
    + unfold MakeDay. lia.
    + rewrite EY, EM. f_equal. lia.
  - intros [= EY EM].
    pose proof (MakeDay_of_time tl) as R. pose proof (DateFromTime_range tl) as DR.
    rewrite EY in R, DR. replace (MonthFromTime tl) with (m - 1) in R by lia.
    replace (MonthFromTime tl + 1) with m in DR by lia.
    rewrite <- R. unfold MakeDay. lia.
Qed.

(** For an anchor date from the year 100 on, the month window is resolved
    and is the half-open interval from the first instant of the anchor's
    calendar month to the first instant of the next month: the instants
    it contains are exactly those of the anchor's month. *)
Lemma monthRange_calendar_month st D :
  isoDate (selectedDate st) = Some D ->
  100 <= ymd_year D ->
  exists w,
    monthRange st = Some w
    /\ (forall t, startISO w <= t < endISO w
                  <-> localMonth t = (ymd_year D, ymd_month D)).
Proof.
  intros HD Hy. pose proof (monthRange_fields st D HD) as H. cbv zeta in H.
  pose proof (readDate_Some _ _ HD) as (_ & _ & V).
  pose proof (validYMD_spec _ V) as [Hm _].
  assert (E : MakeFullYear (ymd_year D) = ymd_year D).
  { unfold MakeFullYear. destruct (_ && _) eqn:E; [apply andb_true_iff in E; lia|reflexivity]. }
  rewrite E in H. eexists. split; [exact H|]. cbn [startISO endISO].
  intros t. now apply between_months.
Qed.

(** For an anchor date of a year from 0 to 99, the month window is the
    same month of the year 1900 later. *)
Lemma monthRange_short_year st D :
  isoDate (selectedDate st) = Some D ->
  0 <= ymd_year D <= 99 ->
  exists w,
    monthRange st = Some w
    /\ (forall t, startISO w <= t < endISO w
                  <-> localMonth t = (1900 + ymd_year D, ymd_month D)).
Proof.
  intros HD Hy. pose proof (monthRange_fields st D HD) as H. cbv zeta in H.
  pose proof (readDate_Some _ _ HD) as (_ & _ & V).
  pose proof (validYMD_spec _ V) as [Hm _].
  assert (E : MakeFullYear (ymd_year D) = 1900 + ymd_year D).
  { unfold MakeFullYear. destruct (_ && _) eqn:E; [reflexivity|].
    apply andb_false_iff in E. lia. }
  rewrite E in H. eexists. split; [exact H|]. cbn [startISO endISO].
  intros t. now apply between_months.
Qed.

(** In the mode "today" the window of an anchor date is that local day. *)
Lemma listRange_today_window st D :
  isoDate (selectedDate st) = Some D ->
  filterMode st = TODAY ->
  listRange st = Some {| startISO := startOfLocalDay (dayNumber D);
                         endISO := endOfLocalDay (dayNumber D) |}
  /\ (forall t, startOfLocalDay (dayNumber D) <= t <= endOfLocalDay (dayNumber D)
                <-> localDay t = dayNumber D).
Proof.
  intros HD HM. split.
  - unfold listRange. rewrite HM. cbn [FilterMode_eqb].
    now rewrite (startOfDayISO_local _ _ HD), (endOfDayISO_local _ _ HD).
  - intros t. rewrite between_local_days. lia.
Qed.

End Zone.


(** C6. For every date [D], the window resolved for the mode "today" with
    anchor [D] is the window resolved for the custom range with
    [rangeFrom = rangeTo = D]: the same start and end instants (and, for a
    [D] that is no date, no window in either mode). *)
Theorem listRange_today_eq_single_day_range (st1 st2 : State) (D : string) :
  listRange (setFilterMode TODAY (setSelectedDate D st1))
  = listRange (setRangeTo D (setRangeFrom D (setFilterMode RANGE st2))).
Proof. reflexivity. Qed.

(** The month window is a function of the anchor date alone. *)
Lemma monthRange_anchor_only (st1 st2 : State) :
  selectedDate st1 = selectedDate st2 -> monthRange st1 = monthRange st2.
Proof. intros E. unfold monthRange. now rewrite E. Qed.

(* ================================================================== *)
(** ** Aggregation                                                     *)
(* ================================================================== *)

Lemma sumOfType_spec_from {A : Type} (type : A -> PaymentType)
    (amount : A -> option Double) (t : PaymentType) (l : list A) (s : Double) :
  fold_left (fun s r => Double_add s (nullish (amount r) Double_zero))
            (List.filter (fun r => PaymentType_eqb (type r) t) l) s
  = spec_sum_from t s (List.map (fun r => (type r, nullish (amount r) Double_zero)) l).
Proof.
  revert s. induction l as [|x l IH]; intros s; [reflexivity|].
  cbn [List.filter List.map spec_sum_from].
  destruct (PaymentType_eqb (type x) t); cbn [fold_left]; apply IH.
Qed.

(** The filter-and-reduce of the code computes the sum of the
    specification. *)
Lemma sumOfType_spec {A : Type} (type : A -> PaymentType) (amount : A -> option Double)
    (t : PaymentType) (l : list A) :
  sumOfType type amount t l
  = spec_sum t (List.map (fun r => (type r, nullish (amount r) Double_zero)) l).
Proof. apply sumOfType_spec_from. Qed.

Lemma rangeTotals_spec st : rangeTotals st = spec_aggregate (List.map entryOfRow (rows st)).
Proof. unfold rangeTotals, spec_aggregate. now rewrite !sumOfType_spec. Qed.

(** Amounts that are missing count as 0. *)
Lemma sumOfType_zeroNull {A : Type} (type : A -> PaymentType)
    (amount : A -> option Double) (f : A -> A) (t : PaymentType) (l : list A) :
  (forall r, type (f r) = type r) ->
  (forall r, amount (f r) = Some (nullish (amount r) Double_zero)) ->
  sumOfType type amount t (List.map f l) = sumOfType type amount t l.
Proof.
  intros Ht Ha. rewrite !sumOfType_spec, List.map_map. f_equal.
  apply List.map_ext. intros r. now rewrite Ht, Ha.
Qed.

Lemma whole_sum_nonneg k (zs : list WholeEntry) :
  forallb (fun e => 0 <=? snd e) zs = true -> 0 <= whole_sum k zs.
Proof.
  induction zs as [|[k' a] zs IH]; cbn [forallb whole_sum snd]; [lia|].
  intros H. apply andb_true_iff in H as [H1 H2]. apply Z.leb_le in H1.
  specialize (IH H2). destruct (PaymentType_eqb k' k); lia.
Qed.

Lemma spec_sum_from_whole k (zs : list WholeEntry) (acc : Z) :
  forallb (fun e => 0 <=? snd e) zs = true ->
  0 <= acc -> acc + whole_sum k zs < 2 ^ 53 ->
  spec_sum_from k (Double_of_Z acc) (List.map entryOfWhole zs)
  = Double_of_Z (acc + whole_sum k zs).
Proof.
  revert acc. induction zs as [|[k' a] zs IH]; intros acc H Ha Hs;
    cbn [List.map entryOfWhole spec_sum_from whole_sum fst snd] in *.
  - now rewrite Z.add_0_r.
  - cbn [forallb snd] in H. apply andb_true_iff in H as [H1 H2]. apply Z.leb_le in H1.
    pose proof (whole_sum_nonneg k zs H2) as N.
    destruct (PaymentType_eqb k' k).
    + rewrite Double_add_whole by lia. rewrite IH by (assumption || lia).
      f_equal. lia.
    + rewrite IH by (assumption || lia). reflexivity.
Qed.

(** For a ledger in whole amounts that are not negative and stay below
    2^53 together, the sums and the profit are the exact ones. *)
Lemma spec_aggregate_whole (zs : list WholeEntry) :
  safeWhole zs = true ->
  spec_aggregate (List.map entryOfWhole zs) = whole_aggregate zs.
Proof.
  unfold safeWhole. intros H. apply andb_true_iff in H as [H1 H2].
  apply Z.ltb_lt in H2.
  pose proof (whole_sum_nonneg INCOME zs H1) as NI.
  pose proof (whole_sum_nonneg EXPENSE zs H1) as NE.
  unfold spec_aggregate, whole_aggregate, spec_sum.
  change Double_zero with (Double_of_Z 0).
  rewrite !spec_sum_from_whole by (assumption || lia).
  rewrite !Z.add_0_l, Double_sub_whole by lia. reflexivity.
Qed.


(* ================================================================== *)
(** ** Refresh                                                         *)
(* ================================================================== *)

(** A refresh in which every query succeeds: the queries that are issued
    and the state that is left. *)
Lemma refreshAll_success cl env dayStart dayEnd :
  let st := c_state cl in
  truthy (propertyId st) = true ->
  refreshSucceeds env ->
  startOfDayISO (selectedDate st) = Some dayStart ->
  endOfDayISO (selectedDate st) = Some dayEnd ->
  let pid := nullish (propertyId st) "" in
  let rs := nullish (resp_data (roomsResp env)) [] in
  let payMonthRows := nullish (resp_data (payMonthResp env)) [] in
  let payDayRows := nullish (resp_data (payDayResp env)) [] in
  run (refreshAll cl env) st
  = (setLoading false
       (setDayExpense (sumOfType t_type t_amount EXPENSE payDayRows)
       (setDayIncome (sumOfType t_type t_amount INCOME payDayRows)
       (setMonthExpense (sumOfType t_type t_amount EXPENSE payMonthRows)
       (setMonthIncome (sumOfType t_type t_amount INCOME payMonthRows)
       (setRows (nullish (resp_data (payListResp env)) [])
       (setRoomNameById
          (fold_left (fun m r => <[rec_id r := nullish (rec_name r) ""]> m) rs ∅)
       (setRooms
          (List.map (fun r => {| room_id := rec_id r;
                                 room_name := nullish (rec_name r) "" |}) rs)
       (setMsg "" (setLoading true st))))))))),
     [ SelectRooms pid;
       SelectPayments "id,type,amount,method,note,paid_at,stay_id,room_id" pid
         (startISO (c_listRange cl)) (Lte (endISO (c_listRange cl)));
       SelectPayments "type,amount" pid
         (startISO (c_monthRange cl)) (Lt (endISO (c_monthRange cl)));
       SelectPayments "type,amount" pid dayStart (Lte dayEnd) ]).
Proof.
  intros st Hp (E1 & E2 & E3 & E4 & M1 & M4) Hs He pid rs pm pd.
  unfold refreshAll. fold st. rewrite Hp. cbv beta iota delta [negb].
  step_handler. rewrite E1. step_handler. rewrite M1. step_handler.
  rewrite E2. step_handler. rewrite E3. step_handler.
  rewrite Hs, He. step_handler. rewrite E4. step_handler.
  rewrite M4. step_handler. rewrite M4. step_handler. reflexivity.
Qed.


(** C1. For every list of ledger entries the aggregate is the one of the
    specification: income is the sum of the amounts of kind income, expense
    the sum of those of kind expense, profit their difference, the amounts
    being JavaScript numbers that are added in the order of the list.
    This holds for the range totals of any displayed list [st0], and, after
    a refresh in which every query succeeds, for the range totals of the
    list that was fetched and for the day and month totals of the rows
    fetched for the day and the month.  Where the amounts are whole, not
    negative and below 2^53 together, the three totals are the exact sums
    and the exact difference. *)
Theorem aggregate_totals st0 cl env dayStart dayEnd :
  let st := c_state cl in
  truthy (propertyId st) = true ->
  refreshSucceeds env ->
  startOfDayISO (selectedDate st) = Some dayStart ->
  endOfDayISO (selectedDate st) = Some dayEnd ->
  let st' := fst (run (refreshAll cl env) st) in
  let payDayRows := nullish (resp_data (payDayResp env)) [] in
  let payMonthRows := nullish (resp_data (payMonthResp env)) [] in
  rangeTotals st0 = spec_aggregate (List.map entryOfRow (rows st0))
  /\ profit (rangeTotals st0)
     = Double_sub (income (rangeTotals st0)) (expense (rangeTotals st0))
  /\ rows st' = nullish (resp_data (payListResp env)) []
  /\ rangeTotals st' = spec_aggregate (List.map entryOfRow (rows st'))
  /\ dayTotals st' = spec_aggregate (List.map entryOfTotalsRow payDayRows)
  /\ monthTotals st' = spec_aggregate (List.map entryOfTotalsRow payMonthRows)
  /\ (forall zs, safeWhole zs = true ->
        List.map entryOfRow (rows st0) = List.map entryOfWhole zs ->
        rangeTotals st0 = whole_aggregate zs)
  /\ (forall zs, safeWhole zs = true ->
        List.map entryOfRow (rows st') = List.map entryOfWhole zs ->
        rangeTotals st' = whole_aggregate zs)
  /\ (forall zs, safeWhole zs = true ->
        List.map entryOfTotalsRow payDayRows = List.map entryOfWhole zs ->
        dayTotals st' = whole_aggregate zs)
  /\ (forall zs, safeWhole zs = true ->
        List.map entryOfTotalsRow payMonthRows = List.map entryOfWhole zs ->
        monthTotals st' = whole_aggregate zs).
Proof.
  intros st Hp Hs Ha Hb st' payDayRows payMonthRows.
  assert (D : dayTotals st' = spec_aggregate (List.map entryOfTotalsRow payDayRows)
              /\ monthTotals st'
                 = spec_aggregate (List.map entryOfTotalsRow payMonthRows)
              /\ rows st' = nullish (resp_data (payListResp env)) []).
  { subst st st' payDayRows payMonthRows.
    rewrite (refreshAll_success cl env dayStart dayEnd Hp Hs Ha Hb). cbn [fst].
    unfold dayTotals, monthTotals, dayProfit, monthProfit, spec_aggregate.
    cbn [dayIncome dayExpense monthIncome monthExpense setLoading setDayExpense
         setDayIncome setMonthExpense setMonthIncome].
    rewrite !sumOfType_spec. repeat split; reflexivity. }
  destruct D as (Dd & Dm & Dr).
  split; [apply rangeTotals_spec|]. split; [reflexivity|].
  split; [exact Dr|]. split; [apply rangeTotals_spec|].
  split; [exact Dd|]. split; [exact Dm|].
  split; [|split; [|split]]; intros zs Hz E.
  - now rewrite rangeTotals_spec, E, spec_aggregate_whole.
  - now rewrite rangeTotals_spec, E, spec_aggregate_whole.
  - now rewrite Dd, E, spec_aggregate_whole.
  - now rewrite Dm, E, spec_aggregate_whole.
Qed.


(** C2, as the code has it.  The queries of a refresh run one after
    another inside one [try] block.  When any of them fails while the view
    is mounted, the refresh stops there, that one error is reported, and
    every slot falls back together: the list becomes empty and the day and
    month totals become zero, whatever the other queries returned or would
    have returned.  The queries that were sent are those up to the failing
    one, in their order (rooms, list, month, day), and none after it; so
    when it is the list query that fails, the month and day queries are not
    issued. *)
Theorem refreshAll_any_failure cl env e dayStart dayEnd :
  let st := c_state cl in
  truthy (propertyId st) = true ->
  (forall n, mounted env n = true) ->
  startOfDayISO (selectedDate st) = Some dayStart ->
  endOfDayISO (selectedDate st) = Some dayEnd ->
  firstFailure env = Some e ->
  let st' := fst (run (refreshAll cl env) st) in
  let queries := snd (run (refreshAll cl env) st) in
  rows st' = []
  /\ dayTotals st' = zeroTotals
  /\ monthTotals st' = zeroTotals
  /\ msgType st' = error
  /\ msg st' = refreshMessage e
  /\ loading st' = false
  /\ queries
     = take (queriesUntilFailure env)
         [ SelectRooms (nullish (propertyId st) "");
           SelectPayments "id,type,amount,method,note,paid_at,stay_id,room_id"
             (nullish (propertyId st) "")
             (startISO (c_listRange cl)) (Lte (endISO (c_listRange cl)));
           SelectPayments "type,amount" (nullish (propertyId st) "")
             (startISO (c_monthRange cl)) (Lt (endISO (c_monthRange cl)));
           SelectPayments "type,amount" (nullish (propertyId st) "")
             dayStart (Lte dayEnd) ]
  /\ length queries = queriesUntilFailure env
  /\ (resp_error (roomsResp env) = None -> resp_error (payListResp env) = Some e ->
      queries
      = [ SelectRooms (nullish (propertyId st) "");
          SelectPayments "id,type,amount,method,note,paid_at,stay_id,room_id"
            (nullish (propertyId st) "")
            (startISO (c_listRange cl)) (Lte (endISO (c_listRange cl))) ]).
Proof.
  intros st Hp Hm Hs He Hf. subst st. cbv zeta.
  unfold refreshAll, queriesUntilFailure. rewrite Hp. cbv beta iota delta [negb].
  unfold firstFailure in Hf. step_handler.
  destruct (resp_error (roomsResp env)) as [e1|] eqn:E1.
  { injection Hf as ->. repeat (progress (step_handler; rewrite ?Hm)).
    cbn. repeat split; try reflexivity. discriminate. }
  repeat (progress (step_handler; rewrite ?Hm)).
  destruct (resp_error (payListResp env)) as [e2|] eqn:E2.
  { injection Hf as ->. repeat (progress (step_handler; rewrite ?Hm)).
    cbn. repeat split; reflexivity. }
  step_handler.
  destruct (resp_error (payMonthResp env)) as [e3|] eqn:E3.
  { injection Hf as ->. repeat (progress (step_handler; rewrite ?Hm)).
    cbn. repeat split; try reflexivity. discriminate. }
  step_handler. rewrite Hs, He. step_handler. rewrite Hf.
  repeat (progress (step_handler; rewrite ?Hm)).
  cbn. repeat split; try reflexivity. discriminate.
Qed.


Lemma sumOfType_zeroNullTotalsRow k (l : list TotalsRow) :
  sumOfType t_type t_amount k (List.map zeroNullTotalsRow l)
  = sumOfType t_type t_amount k l.
Proof. now apply sumOfType_zeroNull. Qed.

(** A refresh on rows whose missing amounts are replaced by 0 issues the
    same queries, ends the same way and leaves the same state, the list
    itself apart. *)
Lemma refreshAll_zeroNull cl env :
  let st := c_state cl in
  setRows [] (fst (run (refreshAll cl (zeroNullEnv env)) st))
  = setRows [] (fst (run (refreshAll cl env) st))
  /\ snd (run (refreshAll cl (zeroNullEnv env)) st) = snd (run (refreshAll cl env) st)
  /\ completion (refreshAll cl (zeroNullEnv env)) st = completion (refreshAll cl env) st.
Proof.
  cbv zeta. unfold refreshAll, zeroNullEnv.
  destruct env as [rr [pl ple] [[pm|] pme] [[pd|] pde] mnt];
    cbn [roomsResp payListResp payMonthResp payDayResp mounted mapResponse
         resp_error resp_data];
    repeat next_decision; step_handler;
    cbn [resp_error resp_data mbind option_bind option_ret nullish];
    rewrite ?sumOfType_zeroNullTotalsRow; repeat split; reflexivity.
Qed.


(** C10. An entry whose amount is missing counts as 0 wherever amounts
    are added up or exported, and makes nothing fail: the range totals and
    the detail sheet of a list are those of the list with the missing
    amounts replaced by 0, and a refresh over such rows issues the same
    queries, ends the same way and shows the same day and month totals. *)
Theorem null_amounts_count_as_zero (st : State) (cl : Closure) (env : RefreshEnv) :
  rangeTotals (setRows (List.map zeroNullRow (rows st)) st) = rangeTotals st
  /\ cashbookRows (setRows (List.map zeroNullRow (rows st)) st) = cashbookRows st
  /\ dayTotals (fst (run (refreshAll cl (zeroNullEnv env)) (c_state cl)))
     = dayTotals (fst (run (refreshAll cl env) (c_state cl)))
  /\ monthTotals (fst (run (refreshAll cl (zeroNullEnv env)) (c_state cl)))
     = monthTotals (fst (run (refreshAll cl env) (c_state cl)))
  /\ snd (run (refreshAll cl (zeroNullEnv env)) (c_state cl))
     = snd (run (refreshAll cl env) (c_state cl))
  /\ completion (refreshAll cl (zeroNullEnv env)) (c_state cl)
     = completion (refreshAll cl env) (c_state cl).
Proof.
  split.
  { unfold rangeTotals. cbn [rows setRows].
    now rewrite !(sumOfType_zeroNull r_type r_amount zeroNullRow). }
  split.
  { unfold cashbookRows. cbn [rows setRows roomNameById].
    rewrite List.map_map. apply List.map_ext. intros r. reflexivity. }
  destruct (refreshAll_zeroNull cl env) as (Hst & Htr & Hc). cbv zeta in Hst.
  split; [|split; [|split; [exact Htr|exact Hc]]].
  - change (dayTotals (setRows [] (fst (run (refreshAll cl (zeroNullEnv env)) (c_state cl))))
            = dayTotals (setRows [] (fst (run (refreshAll cl env) (c_state cl))))).
    now rewrite Hst.
  - change (monthTotals (setRows [] (fst (run (refreshAll cl (zeroNullEnv env)) (c_state cl))))
            = monthTotals (setRows [] (fst (run (refreshAll cl env) (c_state cl))))).
    now rewrite Hst.
Qed.

(* ================================================================== *)
(** ** Export                                                          *)
(* ================================================================== *)

(** C3, as the code has it.  The guard against exporting an empty list is
    the [disabled] attribute of the export button: while the displayed
    list is empty, and while a refresh is in flight, a click produces no
    file.  The export assembler itself does not check the list: invoked on
    an empty list it completes normally and hands the browser a workbook
    whose detail sheet has no rows and whose summary sheet has its four
    rows. *)
Theorem export_of_empty_list (st st2 : State) :
  rows st = [] ->
  loading st2 = true ->
  run (clickExport st) st = (st, [])
  /\ run (clickExport st2) st2 = (st2, [])
  /\ run (onExportXLSX st) st
     = (st, [ Download (exportFilename st)
                [ {| sheet_name := "Cashbook"; sheet_rows := [];
                     sheet_colWidths := [20; 8; 12; 14; 12; 40; 18; 18] |};
                  {| sheet_name := "Summary"; sheet_rows := summaryRows st;
                     sheet_colWidths := [30; 22; 12; 12; 12; 40] |} ] ])
  /\ completion (onExportXLSX st) st = Normal tt
  /\ length (summaryRows st) = 4%nat.
Proof.
  intros Hr Hl.
  assert (D1 : exportDisabled st = true).
  { unfold exportDisabled. rewrite Hr. cbn [length Nat.eqb]. apply orb_true_r. }
  assert (D2 : exportDisabled st2 = true).
  { unfold exportDisabled. now rewrite Hl. }
  unfold clickExport. rewrite D1, D2.
  unfold onExportXLSX, exportWorkbookXLSX, cashbookRows. rewrite Hr.
  repeat split; reflexivity.
Qed.


(* ================================================================== *)
(** ** Manual expense                                                  *)
(* ================================================================== *)

(** The test of the code rejects exactly the amounts that are not finite
    numbers above 0. *)
Lemma amount_test_spec x :
  negb (Number_isFinite x) || lessEqZero x = negb (positiveFinite x).
Proof.
  destruct x as [|n|m e]; cbn [Number_isFinite lessEqZero positiveFinite negb orb].
  - reflexivity.
  - reflexivity.
  - destruct (Z.leb_spec m 0), (Z.ltb_spec 0 m); try reflexivity; lia.
Qed.

(** C8. Submitting (the button being enabled) a manual expense whose
    amount does not read as a finite number above 0 ends the handler at the
    validation: the error notice is shown, nothing else in the state
    changes, no call is made (no insert, no query), and none of the values
    whose change starts a refresh is changed. *)
Theorem submitExpense_invalid_amount cl env :
  let st := c_state cl in
  submitDisabled st = false ->
  positiveFinite (StringToNumber (expAmount st)) = false ->
  run (submitExpense cl env) st = (setToast error "Số tiền chi không hợp lệ." st, [])
  /\ completion (submitExpense cl env) st = Return
  /\ refreshDeps (fst (run (submitExpense cl env) st)) = refreshDeps st.
Proof.
  intros st Hd Hv.
  assert (Hp : truthy (propertyId st) = true).
  { unfold submitDisabled in Hd. apply orb_false_iff in Hd as [Hd _].
    now apply negb_false_iff in Hd. }
  unfold submitExpense. fold st. rewrite Hp, amount_test_spec, Hv.
  repeat split; reflexivity.
Qed.


(* ================================================================== *)
(** ** The income insert                                               *)
(* ================================================================== *)

(** The income insert fails when the store returns no identifier, and
    returns the row when it does. *)
Lemma createIncomePaymentFromStay_requires_id params now resp st :
  resp_error resp = None ->
  completion (createIncomePaymentFromStay params now resp) st
  = if truthy (c ← resp_data resp; ins_id c)
    then Normal (nullish (resp_data resp) {| ins_id := None |})
    else Throw {| instanceofError := true; message := "Không tạo được phiếu thu" |}.
Proof.
  intros E. unfold createIncomePaymentFromStay. step_handler. rewrite E. step_handler.
  destruct (truthy _); reflexivity.
Qed.


(* ================================================================== *)
(** ** Dates written and read back                                     *)
(* ================================================================== *)

Lemma Zrange_forallb (P : Z -> bool) lo n :
  forallb P (Zrange lo n) = true ->
  forall z, lo <= z < lo + n -> P z = true.
Proof.
  intros H z Hz. rewrite forallb_forall in H. apply H.
  unfold Zrange. apply in_map_iff. exists (Z.to_nat (z - lo)). split; [lia|].
  apply in_seq. lia.
Qed.

Lemma fourDigitYear_ok y : 1000 <= y <= 9999 -> fourDigitYear y = true.
Proof.
  intros H. apply (Zrange_forallb fourDigitYear 1000 9000); [vm_compute; reflexivity|lia].
Qed.

Lemma twoDigitField_ok n : 1 <= n <= 31 -> twoDigitField n = true.
Proof.
  intros H. apply (Zrange_forallb twoDigitField 1 31); [vm_compute; reflexivity|lia].
Qed.

Lemma shortYear_ok y : 0 <= y <= 999 -> shortYear y = true.
Proof.
  intros H. apply (Zrange_forallb shortYear 0 1000); [vm_compute; reflexivity|lia].
Qed.

Lemma readDate_length cs : length cs <> 10%nat -> readDate cs = None.
Proof.
  intros H. destruct (readDate cs) as [D|] eqn:E; [|reflexivity].
  apply readDate_Some in E. tauto.
Qed.

Lemma length_list_ascii_of_string s : length (list_ascii_of_string s) = String.length s.
Proof. induction s as [|c s IH]; [reflexivity|]. cbn. now rewrite IH. Qed.

Lemma localDate_valid t : validYMD (localDate t) = true.
Proof.
  unfold validYMD, localDate. cbn [ymd_year ymd_month ymd_day].
  pose proof (MonthFromTime_range (LocalTime t)).
  pose proof (DateFromTime_range (LocalTime t)).
  rewrite !andb_true_iff. lia.
Qed.

Lemma dayNumber_localDate t : dayNumber (localDate t) = localDay t.
Proof.
  unfold dayNumber, localDate, localDay. cbn [ymd_year ymd_month ymd_day].
  replace (MonthFromTime (LocalTime t) + 1 - 1) with (MonthFromTime (LocalTime t)) by lia.
  apply MakeDay_of_time.
Qed.

Lemma toYYYYMMDD_cases t :
  0 <= YearFromTime (LocalTime t) <= 9999 ->
  isoDate (toYYYYMMDD (Some t))
  = (if 1000 <=? YearFromTime (LocalTime t) then Some (localDate t) else None)
  /\ dayNumber (localDate t) = localDay t.
Proof.
  intros Hy. split; [|apply dayNumber_localDate].
  pose proof (localDate_valid t) as V.
  pose proof (MonthFromTime_range (LocalTime t)) as Hm.
  pose proof (DateFromTime_range (LocalTime t)) as Hd.
  pose proof (DaysInMonth_range (YearFromTime (LocalTime t)) (MonthFromTime (LocalTime t) + 1)).
  unfold isoDate, toYYYYMMDD, getFullYear, getMonth, getDate.
  cbn [mbind option_bind].
  pose proof (twoDigitField_ok (MonthFromTime (LocalTime t) + 1) ltac:(lia)) as Em.
  pose proof (twoDigitField_ok (DateFromTime (LocalTime t)) ltac:(lia)) as Ed.
  unfold twoDigitField in Em, Ed.
  destruct (padStart 2 "0" (NumberToString (Some (MonthFromTime (LocalTime t) + 1))))
    as [|m1 [|m2 [|? ?]]]; try discriminate.
  destruct (padStart 2 "0" (NumberToString (Some (DateFromTime (LocalTime t)))))
    as [|d1 [|d2 [|? ?]]]; try discriminate.
  destruct (number2 m1 m2) as [mv|] eqn:Nm; [|discriminate].
  destruct (number2 d1 d2) as [dv|] eqn:Nd; [|discriminate].
  apply Z.eqb_eq in Em, Ed. subst mv dv.
  destruct (Z.leb_spec 1000 (YearFromTime (LocalTime t))) as [L|L].
  - pose proof (fourDigitYear_ok (YearFromTime (LocalTime t)) ltac:(lia)) as Ey. unfold fourDigitYear in Ey.
    destruct (NumberToString (Some (YearFromTime (LocalTime t))))
      as [|y1 [|y2 [|y3 [|y4 [|? ?]]]]]; try discriminate.
    destruct (number4 y1 y2 y3 y4) as [yv|] eqn:Ny; [|discriminate].
    apply Z.eqb_eq in Ey. subst yv.
    cbv beta iota delta [String.append list_ascii_of_string readDate].
    change (isChar "-" "-") with true. cbn [andb].
    rewrite Ny, Nm, Nd. cbn [mbind option_bind].
    fold (localDate t). now rewrite V.
  - pose proof (shortYear_ok (YearFromTime (LocalTime t)) ltac:(lia)) as Ey. unfold shortYear in Ey.
    apply Nat.leb_le in Ey.
    apply readDate_length.
    rewrite !list_ascii_of_string_app, !length_app, !length_list_ascii_of_string.
    cbn [String.length]. lia.
Qed.


(** X1. The date [toYYYYMMDD] writes is read back as the local calendar date
    of the instant when the local year has four digits, and is not a date
    at all when the year is below 1000 (it is written without padding). *)
Theorem toYYYYMMDD_read_back t :
  0 <= YearFromTime (LocalTime t) <= 9999 ->
  isoDate (toYYYYMMDD (Some t))
  = (if 1000 <=? YearFromTime (LocalTime t) then Some (localDate t) else None)
  /\ dayNumber (localDate t) = localDay t.
Proof. exact (toYYYYMMDD_cases t). Qed.

Lemma isoDate_toYYYYMMDD t :
  1000 <= YearFromTime (LocalTime t) <= 9999 ->
  isoDate (toYYYYMMDD (Some t)) = Some (localDate t).
Proof.
  intros H. destruct (toYYYYMMDD_cases t ltac:(lia)) as [E _]. rewrite E.
  destruct (Z.leb_spec 1000 (YearFromTime (LocalTime t))); [reflexivity|lia].
Qed.

(* ================================================================== *)
(** ** The calendar order                                              *)
(* ================================================================== *)

Lemma dayNumber_in_year D :
  validYMD D = true ->
  DayFromYear (ymd_year D) <= dayNumber D < DayFromYear (ymd_year D + 1).
Proof.
  intros V. apply validYMD_spec in V as [Hm Hd].
  destruct (civil_of_MakeDay (ymd_year D) (ymd_month D) (ymd_day D)
              (dayNumber D * msPerDay) Hm Hd) as (EY & _).
  { unfold Day, msPerDay. unfold dayNumber. lia. }
  unfold YearFromTime in EY.
  replace (Day (dayNumber D * msPerDay)) with (dayNumber D) in EY
    by (unfold Day, msPerDay; lia).
  pose proof (YearFromDay_spec (dayNumber D)) as S. now rewrite EY in S.
Qed.

Lemma dayNumber_in_month D :
  validYMD D = true ->
  MakeDay (ymd_year D) (ymd_month D - 1) 1 <= dayNumber D
  < MakeDay (ymd_year D) (ymd_month D) 1.
Proof.
  intros V. apply validYMD_spec in V as [Hm Hd].
  rewrite (MakeDay_next_month _ _ Hm). unfold dayNumber, MakeDay. lia.
Qed.

(** The first days of the months of a year come in order. *)
Lemma month_starts_ordered y a b :
  0 <= a <= b -> b <= 12 -> MakeDay y a 1 <= MakeDay y b 1.
Proof.
  intros Ha Hb.
  replace b with (a + Z.of_nat (Z.to_nat (b - a))) by lia.
  assert (Hn : a + Z.of_nat (Z.to_nat (b - a)) <= 12) by lia.
  induction (Z.to_nat (b - a)) as [|n IH].
  - rewrite Z.add_0_r. lia.
  - rewrite Nat2Z.inj_succ in *.
    replace (a + Z.succ (Z.of_nat n)) with (a + Z.of_nat n + 1) in * by lia.
    pose proof (MakeDay_next_month y (a + Z.of_nat n + 1) ltac:(lia)) as NX.
    replace (a + Z.of_nat n + 1 - 1) with (a + Z.of_nat n) in NX by lia.
    pose proof (DaysInMonth_range y (a + Z.of_nat n + 1)).
    specialize (IH ltac:(lia)). lia.
Qed.

(** Day numbers follow the calendar order of dates. *)
Lemma dayNumber_order D1 D2 :
  validYMD D1 = true -> validYMD D2 = true ->
  (ymd_leb D1 D2 = true <-> dayNumber D1 <= dayNumber D2).
Proof.
  intros V1 V2.
  pose proof (dayNumber_in_year D1 V1) as Y1. pose proof (dayNumber_in_year D2 V2) as Y2.
  pose proof (dayNumber_in_month D1 V1) as M1. pose proof (dayNumber_in_month D2 V2) as M2.
  pose proof (validYMD_spec _ V1) as [Hm1 Hd1]. pose proof (validYMD_spec _ V2) as [Hm2 Hd2].
  destruct D1 as [y1 m1 d1], D2 as [y2 m2 d2].
  unfold ymd_leb. cbn [ymd_year ymd_month ymd_day] in *.
  repeat (rewrite orb_true_iff || rewrite andb_true_iff).
  rewrite !Z.ltb_lt, !Z.eqb_eq, Z.leb_le.
  destruct (Z.lt_trichotomy y1 y2) as [L|[E|G]].
  - pose proof (DayFromYear_mono (y1 + 1) y2 ltac:(lia)). split; [lia|tauto].
  - subst y2. destruct (Z.lt_trichotomy m1 m2) as [L|[E|G]].
    + pose proof (month_starts_ordered y1 m1 (m2 - 1) ltac:(lia) ltac:(lia)).
      split; [lia|tauto].
    + subst m2. unfold dayNumber, MakeDay in *. cbn [ymd_year ymd_month ymd_day] in *.
      split; lia.
    + pose proof (month_starts_ordered y1 m2 (m1 - 1) ltac:(lia) ltac:(lia)).
      split; [lia|]. intros. lia.
  - pose proof (DayFromYear_mono (y2 + 1) y1 ltac:(lia)). split; [lia|]. intros. lia.
Qed.

(* ================================================================== *)
(** ** The windows of one anchor                                       *)
(* ================================================================== *)

Section ZoneViews.

Hypothesis TZA_range : - msPerDay < LocalTZA < msPerDay.

(** X2. A view mounted at an instant of a four-digit year renders: its
    list window (mode "today") is the local day that contains the instant,
    and its month window contains the instant too. *)
Theorem initial_view_shows_now nowSelected nowFrom nowTo nowExp :
  1000 <= YearFromTime (LocalTime nowSelected) <= 9999 ->
  let st := initialState nowSelected nowFrom nowTo nowExp in
  exists w mw,
    listRange st = Some w
    /\ monthRange st = Some mw
    /\ render st = Some {| c_state := st; c_listRange := w; c_monthRange := mw |}
    /\ startISO w <= nowSelected <= endISO w
    /\ startISO mw <= nowSelected < endISO mw
    /\ endISO w - startISO w + 1 = msPerDay.
Proof.
  intros Hy st.
  assert (HD : isoDate (selectedDate st) = Some (localDate nowSelected))
    by (apply isoDate_toYYYYMMDD; exact Hy).
  destruct (listRange_today_window TZA_range st _ HD eq_refl) as [HL HB].
  destruct (monthRange_calendar_month TZA_range st _ HD) as (mw & HM & HMB).
  { cbn [localDate ymd_year]. lia. }
  eexists. exists mw. split; [exact HL|]. split; [exact HM|].
  split; [unfold render; rewrite HL, HM; reflexivity|].
  cbn [startISO endISO]. split; [|split].
  - apply HB. symmetry. apply dayNumber_localDate.
  - apply HMB. reflexivity.
  - unfold startOfLocalDay, endOfLocalDay, UTC, msPerDay. lia.
Qed.

(** X3. For an anchor that is a calendar date the three windows that end
    on the anchor are nested: they all end at the same instant, and the
    window of "today" starts after that of the last 7 days, which starts
    after that of the last 30 days. *)
Theorem rolling_windows_nested st D :
  isoDate (selectedDate st) = Some D ->
  exists w1 w7 w30,
    listRange (setFilterMode TODAY st) = Some w1
    /\ listRange (setFilterMode D7 st) = Some w7
    /\ listRange (setFilterMode D30 st) = Some w30
    /\ endISO w1 = endISO w7 /\ endISO w7 = endISO w30
    /\ startISO w30 < startISO w7 < startISO w1
    /\ startISO w1 < endISO w1.
Proof.
  intros HD.
  destruct (listRange_today_window TZA_range (setFilterMode TODAY st) D HD eq_refl)
    as [H1 _].
  destruct (listRange_rolling_window TZA_range (setFilterMode D7 st) D 7 HD eq_refl)
    as (w7 & H7 & S7 & E7 & _).
  destruct (listRange_rolling_window TZA_range (setFilterMode D30 st) D 30 HD eq_refl)
    as (w30 & H30 & S30 & E30 & _).
  eexists. exists w7, w30. split; [exact H1|]. split; [exact H7|]. split; [exact H30|].
  cbn [startISO endISO]. rewrite S7, E7, S30, E30.
  unfold startOfLocalDay, endOfLocalDay, UTC, msPerDay. lia.
Qed.

(** X4. For an anchor date from the year 100 on, the day window (the one
    of the day cards) lies inside the month window (the one of the month
    cards). *)
Theorem day_window_within_month st D :
  isoDate (selectedDate st) = Some D ->
  100 <= ymd_year D ->
  exists mw dayStart dayEnd,
    monthRange st = Some mw
    /\ startOfDayISO (selectedDate st) = Some dayStart
    /\ endOfDayISO (selectedDate st) = Some dayEnd
    /\ startISO mw <= dayStart /\ dayStart < dayEnd /\ dayEnd < endISO mw.
Proof.
  intros HD Hy.
  destruct (monthRange_calendar_month TZA_range st D HD Hy) as (mw & HM & HMB).
  pose proof (readDate_Some _ _ HD) as (_ & _ & V).
  pose proof (validYMD_spec _ V) as [Hm Hd].
  assert (IN : forall tod, 0 <= tod < msPerDay ->
                 localMonth (UTC (dayNumber D * msPerDay + tod))
                 = (ymd_year D, ymd_month D)).
  { intros tod Ht. unfold localMonth. rewrite LocalTime_UTC.
    destruct (civil_of_MakeDay (ymd_year D) (ymd_month D) (ymd_day D)
                (dayNumber D * msPerDay + tod) Hm Hd) as (EY & EM & _).
    - unfold Day, msPerDay in *. unfold dayNumber. lia.
    - rewrite EY, EM. f_equal. lia. }
  exists mw, (startOfLocalDay (dayNumber D)), (endOfLocalDay (dayNumber D)).
  split; [exact HM|].
  split; [apply (startOfDayISO_local TZA_range _ _ HD)|].
  split; [apply (endOfDayISO_local TZA_range _ _ HD)|].
  pose proof (proj2 (HMB (startOfLocalDay (dayNumber D)))) as A.
  pose proof (proj2 (HMB (endOfLocalDay (dayNumber D)))) as B.
  unfold startOfLocalDay, endOfLocalDay in *.
  specialize (IN 0 ltac:(unfold msPerDay; lia)) as I0.
  specialize (IN (msPerDay - 1) ltac:(unfold msPerDay; lia)) as I1.
  rewrite Z.add_0_r in I0. specialize (A I0). specialize (B I1).
  unfold UTC, msPerDay in *. lia.
Qed.

(** X5. A custom range between two calendar dates is always resolved; it
    contains an instant exactly when [rangeFrom] is not after [rangeTo] in
    the calendar, and then it contains exactly the local days from
    [rangeFrom] to [rangeTo]. *)
Theorem custom_range_window st F T :
  filterMode st = RANGE ->
  isoDate (rangeFrom st) = Some F ->
  isoDate (rangeTo st) = Some T ->
  exists w,
    listRange st = Some w
    /\ (startISO w <= endISO w <-> ymd_leb F T = true)
    /\ (forall t, startISO w <= t <= endISO w
                  <-> dayNumber F <= localDay t <= dayNumber T).
Proof.
  intros HM HF HT.
  pose proof (readDate_Some _ _ HF) as (_ & _ & VF).
  pose proof (readDate_Some _ _ HT) as (_ & _ & VT).
  pose proof (startOfDayISO_local TZA_range _ _ HF) as SF.
  pose proof (endOfDayISO_local TZA_range _ _ HT) as ET.
  unfold startOfDayISO, endOfDayISO in SF, ET.
  eexists. split.
  { unfold listRange. rewrite HM. cbn [FilterMode_eqb orb]. cbv iota.
    rewrite SF, ET. reflexivity. }
  cbn [startISO endISO]. split.
  - rewrite (dayNumber_order F T VF VT).
    unfold startOfLocalDay, endOfLocalDay, UTC, msPerDay. lia.
  - intros t. apply between_local_days.
Qed.

End ZoneViews.


(* ================================================================== *)
(** ** The exported workbook                                           *)
(* ================================================================== *)

Lemma String_length_append a b :
  String.length (a +:+ b) = (String.length a + String.length b)%nat.
Proof.
  rewrite <- !length_list_ascii_of_string, list_ascii_of_string_app.
  apply length_app.
Qed.

(** Two concatenations with first parts of the same length agree part by
    part. *)
Lemma String_append_inj a b c d :
  String.length a = String.length c -> a +:+ b = c +:+ d -> a = c /\ b = d.
Proof.
  revert c. induction a as [|x a IH]; intros [|y c] L E; try discriminate.
  - auto.
  - injection L as L. injection E as -> E.
    destruct (IH c L E) as [-> ->]. auto.
Qed.

Lemma isoDate_length s D : isoDate s = Some D -> String.length s = 10%nat.
Proof.
  intros H. apply readDate_Some in H as (L & _).
  now rewrite length_list_ascii_of_string in L.
Qed.

Lemma datesOK_lengths st :
  datesOK st = true ->
  String.length (selectedDate st) = 10%nat
  /\ String.length (rangeFrom st) = 10%nat /\ String.length (rangeTo st) = 10%nat.
Proof.
  unfold datesOK.
  destruct (isoDate (selectedDate st)) eqn:E1; [|discriminate].
  destruct (isoDate (rangeFrom st)) eqn:E2; [|discriminate].
  destruct (isoDate (rangeTo st)) eqn:E3; [|discriminate].
  intros _. repeat split; eapply isoDate_length; eassumption.
Qed.

Lemma exportFilename_length st :
  datesOK st = true ->
  String.length (exportFilename st)
  = match filterMode st with
    | TODAY => 24 | D7 => 30 | D30 => 31 | RANGE => 38
    end%nat.
Proof.
  intros H. destruct (datesOK_lengths st H) as (L1 & L2 & L3).
  unfold exportFilename.
  destruct (filterMode st); cbn [FilterMode_eqb];
    rewrite !String_length_append, ?L1, ?L2, ?L3; reflexivity.
Qed.

(** X6. While the date fields of the view hold calendar dates, the name
    of the exported file determines the mode and the dates the mode uses:
    two exports with the same file name have the same mode and the same
    anchor (or, in the custom range, the same two bounds). *)
Theorem exportFilename_tells_windows_apart st1 st2 :
  datesOK st1 = true -> datesOK st2 = true ->
  exportFilename st1 = exportFilename st2 ->
  exportKey st1 = exportKey st2.
Proof.
  intros H1 H2 E.
  pose proof (exportFilename_length st1 H1) as N1.
  pose proof (exportFilename_length st2 H2) as N2.
  destruct (datesOK_lengths st1 H1) as (A1 & B1 & C1).
  destruct (datesOK_lengths st2 H2) as (A2 & B2 & C2).
  rewrite E in N1. rewrite N1 in N2.
  unfold exportFilename, exportKey in *.
  destruct (filterMode st1), (filterMode st2); try discriminate N2;
    cbn [FilterMode_eqb] in E;
    apply (String_append_inj "cashbook_" _ "cashbook_" _ eq_refl) in E as [_ E].
  - apply String_append_inj in E as [-> _]; [reflexivity|congruence].
  - apply String_append_inj in E as [-> _]; [reflexivity|congruence].
  - apply String_append_inj in E as [-> _]; [reflexivity|congruence].
  - apply String_append_inj in E as [-> E]; [|congruence].
    apply (String_append_inj "_to_" _ "_to_" _ eq_refl) in E as [_ E].
    apply String_append_inj in E as [-> _]; [reflexivity|congruence].
Qed.

Lemma detailAmount_cashbookRow st r label :
  label = "THU" \/ label = "CHI" ->
  detailAmount label
    (nth 0 (cashbookRows (setRows [r] st)) [])
  = if PaymentType_eqb (r_type r) (if String.eqb label "THU" then INCOME else EXPENSE)
    then Some (nullish (r_amount r) Double_zero) else None.
Proof.
  intros [-> | ->]; destruct r as [id [|] a m n p s ro]; reflexivity.
Qed.

Lemma sheetSum_cashbookRows_from st label (l : list PaymentRow) (s : Double) :
  label = "THU" \/ label = "CHI" ->
  fold_left (fun s row => match detailAmount label row with
                          | Some n => Double_add s n
                          | None => s
                          end)
            (cashbookRows (setRows l st)) s
  = spec_sum_from (if String.eqb label "THU" then INCOME else EXPENSE) s
                  (List.map entryOfRow l).
Proof.
  intros HL. revert s. unfold cashbookRows. cbn [rows setRows roomNameById].
  induction l as [|r l IH]; intros s; [reflexivity|].
  cbn [List.map fold_left spec_sum_from entryOfRow]. rewrite <- IH. f_equal.
  pose proof (detailAmount_cashbookRow st r label HL) as E.
  unfold cashbookRows in E. cbn [rows setRows List.map nth roomNameById] in E.
  rewrite E.
  destruct (PaymentType_eqb (r_type r)
              (if String.eqb label "THU" then INCOME else EXPENSE)); reflexivity.
Qed.

Lemma sheetSum_cashbookRows st label :
  label = "THU" \/ label = "CHI" ->
  sheetSum label (cashbookRows st)
  = spec_sum (if String.eqb label "THU" then INCOME else EXPENSE)
             (List.map entryOfRow (rows st)).
Proof.
  intros HL. unfold sheetSum, spec_sum.
  rewrite <- (sheetSum_cashbookRows_from st label (rows st) Double_zero HL).
  unfold cashbookRows. reflexivity.
Qed.

(** X7. The two sheets of an export agree.  The detail sheet has one row
    per displayed entry, each with the eight columns in their fixed order;
    the income, expense and profit of the range row of the summary sheet
    are the sum of the amount cells of the detail rows labelled THU, the
    sum of those labelled CHI (the cells being added from the top row
    down, as JavaScript numbers), and the difference of the two.  Where
    the amounts are whole, not negative and below 2^53 together, the three
    cells hold the exact sums and the exact difference. *)
Theorem export_sheets_agree st :
  length (cashbookRows st) = length (rows st)
  /\ Forall (fun row => List.map fst row = detailHeaders) (cashbookRows st)
  /\ cellAt "Thu" (nth 2 (summaryRows st) [])
     = Some (CellNumber (sheetSum "THU" (cashbookRows st)))
  /\ cellAt "Chi" (nth 2 (summaryRows st) [])
     = Some (CellNumber (sheetSum "CHI" (cashbookRows st)))
  /\ cellAt "Lợi nhuận" (nth 2 (summaryRows st) [])
     = Some (CellNumber (Double_sub (sheetSum "THU" (cashbookRows st))
                                    (sheetSum "CHI" (cashbookRows st))))
  /\ (forall zs, safeWhole zs = true ->
        List.map entryOfRow (rows st) = List.map entryOfWhole zs ->
        sheetSum "THU" (cashbookRows st) = Double_of_Z (whole_sum INCOME zs)
        /\ sheetSum "CHI" (cashbookRows st) = Double_of_Z (whole_sum EXPENSE zs)
        /\ cellAt "Lợi nhuận" (nth 2 (summaryRows st) [])
           = Some (CellNumber
                     (Double_of_Z (whole_sum INCOME zs - whole_sum EXPENSE zs)))).
Proof.
  rewrite !sheetSum_cashbookRows by auto.
  change (String.eqb "THU" "THU") with true. change (String.eqb "CHI" "THU") with false.
  cbv iota.
  pose proof (rangeTotals_spec st) as R. unfold spec_aggregate in R.
  split; [apply length_map|]. split.
  { unfold cashbookRows. apply List.Forall_forall. intros row Hin.
    apply in_map_iff in Hin as (r & <- & _). reflexivity. }
  cbn [summaryRows nth].
  change (cellAt "Thu" _) with (Some (CellNumber (income (rangeTotals st)))).
  change (cellAt "Chi" _) with (Some (CellNumber (expense (rangeTotals st)))).
  change (cellAt "Lợi nhuận" _) with (Some (CellNumber (profit (rangeTotals st)))).
  rewrite R. cbn [income expense profit].
  split; [reflexivity|]. split; [reflexivity|]. split; [reflexivity|].
  intros zs Hz E. pose proof (spec_aggregate_whole zs Hz) as W.
  rewrite <- E in W. unfold spec_aggregate, whole_aggregate in W.
  injection W as W1 W2 W3. rewrite W1, W2 in *. rewrite W3. auto.
Qed.

Lemma roomMap_lookup (rs : list RoomRecord) (id : string) :
  fold_left (fun m r => <[rec_id r := nullish (rec_name r) ""]> m) rs
    (∅ : gmap string string) !! id
  = lastRoomName id rs.
Proof.
  unfold lastRoomName.
  assert (G : forall (m : gmap string string) acc, m !! id = acc ->
            fold_left (fun m r => <[rec_id r := nullish (rec_name r) ""]> m) rs m !! id
            = fold_left (fun acc r => if String.eqb (rec_id r) id
                                      then Some (nullish (rec_name r) "") else acc)
                        rs acc).
  { induction rs as [|r rs IH]; intros m acc H; [exact H|].
    cbn [fold_left]. apply IH.
    destruct (String.eqb_spec (rec_id r) id) as [->|N].
    - apply lookup_insert_eq.
    - rewrite lookup_insert_ne by exact N. exact H. }
  apply G. apply lookup_empty.
Qed.

(** X8. After a refresh in which every query succeeds, the room column of
    the export follows the rooms that were fetched: an entry of a room
    whose (last) fetched row has a name is labelled with that name; an
    entry without a room, or of a room that was not fetched, gets an empty
    cell.  The room identifier of the entry is not one of the names a
    JavaScript object inherits. *)
Theorem exported_room_label cl env dayStart dayEnd e :
  let st := c_state cl in
  truthy (propertyId st) = true ->
  refreshSucceeds env ->
  startOfDayISO (selectedDate st) = Some dayStart ->
  endOfDayISO (selectedDate st) = Some dayEnd ->
  let st' := fst (run (refreshAll cl env) st) in
  let rs := nullish (resp_data (roomsResp env)) [] in
  (forall id n, r_room_id e = Some id -> id <> "" -> ~ In id inheritedKeys ->
                lastRoomName id rs = Some n -> n <> "" ->
                exportedRoom st' e = Some (CellText ("Phòng " +:+ n)))
  /\ (forall id, r_room_id e = Some id -> ~ In id inheritedKeys ->
                 lastRoomName id rs = None ->
                 exportedRoom st' e = Some (CellText ""))
  /\ (r_room_id e = None -> exportedRoom st' e = Some (CellText "")).
Proof.
  intros st Hp Hs Ha Hb st' rs. subst st st'.
  rewrite (refreshAll_success cl env dayStart dayEnd Hp Hs Ha Hb). cbn [fst].
  unfold exportedRoom, cashbookRows.
  cbn [rows setRows List.map head mbind option_bind roomNameById setLoading
       setDayExpense setDayIncome setMonthExpense setMonthIncome setRoomNameById].
  change (cellAt "Phòng" ?l) with
    (match l with
     | _ :: _ :: _ :: _ :: (_, c) :: _ => Some c
     | _ => None
     end).
  cbv beta iota.
  fold rs. split; [|split].
  - intros id n E Hid _ L Hn. rewrite E. cbn [truthy nullish].
    destruct id as [|a id]; [congruence|]. cbn [truthy nullish String.eqb negb].
    rewrite roomMap_lookup, L.
    destruct n as [|b n]; [congruence|]. reflexivity.
  - intros id E _ L. rewrite E.
    destruct id as [|a id]; [reflexivity|]. cbn [truthy nullish String.eqb negb].
    rewrite roomMap_lookup, L. reflexivity.
  - intros E. rewrite E. reflexivity.
Qed.


(* ================================================================== *)
(** ** Refresh, on every path                                          *)
(* ================================================================== *)

(** A refresh resumed in any run: what it adds to the run. *)
Lemma refreshAll_run cl env (r : Run) :
  exists k : nat,
    trace (fst (refreshAll cl env r)) = trace r ++ take k (refreshPlan cl)
    /\ (k <= length (refreshPlan cl))%nat
    /\ awaits (fst (refreshAll cl env r)) = (k + awaits r)%nat
    /\ (snd (refreshAll cl env r) = Normal tt \/ snd (refreshAll cl env r) = Return)
    /\ refreshDeps (view (fst (refreshAll cl env r))) = refreshDeps (view r)
    /\ expenseForm (view (fst (refreshAll cl env r))) = expenseForm (view r)
    /\ (truthy (propertyId (c_state cl)) = true ->
        loading (view (fst (refreshAll cl env r)))
        = negb (mounted env (k + awaits r)))
    /\ ((forall n, mounted env n = false) ->
        truthy (propertyId (c_state cl)) = true ->
        k = 1%nat /\ view (fst (refreshAll cl env r)) = setMsg "" (setLoading true (view r)))
    /\ (truthy (propertyId (c_state cl)) = true -> (1 <= k)%nat).
Proof.
  destruct r as [v tr n]. unfold refreshAll.
  repeat next_choice.
  all: try (exfalso; congruence).
  all: step_run.
  all: first
    [ exists 0%nat; unfold refreshPlan; use_day_bounds;
      cbn [take app Nat.add]; rewrite <- ?app_assoc, ?app_nil_r;
      split; [reflexivity|]
    | exists 1%nat; unfold refreshPlan; use_day_bounds;
      cbn [take app Nat.add]; rewrite <- ?app_assoc, ?app_nil_r;
      split; [reflexivity|]
    | exists 2%nat; unfold refreshPlan; use_day_bounds;
      cbn [take app Nat.add]; rewrite <- ?app_assoc, ?app_nil_r;
      split; [reflexivity|]
    | exists 3%nat; unfold refreshPlan; use_day_bounds;
      cbn [take app Nat.add]; rewrite <- ?app_assoc, ?app_nil_r;
      split; [reflexivity|]
    | exists 4%nat; unfold refreshPlan; use_day_bounds;
      cbn [take app Nat.add]; rewrite <- ?app_assoc, ?app_nil_r;
      split; [reflexivity|] ].
  all: cbn [Nat.add].
  all: (split; [cbn [length app]; lia|]).
  all: (split; [reflexivity|]).
  all: (split; [auto|]).
  all: (split; [reflexivity|]).
  all: (split; [reflexivity|]).
  all: split.
  all: try (intros Hp; discriminate Hp).
  all: try (intros _ Hp; discriminate Hp).
  all: try (intros _; cbn;
            repeat match goal with H : mounted _ _ = _ |- _ => rewrite H; clear H end;
            reflexivity).
  all: split; [|intros Hp; try discriminate Hp; lia].
  all: try (intros _ Hp; discriminate Hp).
  all: intros M _.
  all: try match goal with
       | H : mounted _ _ = true |- _ => rewrite M in H; discriminate H
       end.
  all: split; reflexivity.
Qed.

(** A refresh resumed in a run that has passed [n] awaits is the refresh
    started afresh in a host delayed by [n], its calls coming after those
    of the run. *)
Lemma refreshAll_delayed cl env v tr n :
  refreshAll cl env {| view := v; trace := tr; awaits := n |}
  = (let '(r, c) := refreshAll cl (delayed n env)
                      {| view := v; trace := []; awaits := 0 |} in
     ({| view := view r; trace := tr ++ trace r; awaits := (awaits r + n)%nat |}, c)).
Proof.
  unfold refreshAll, delayed.
  repeat (next_choice;
          cbn [mounted roomsResp payListResp payMonthResp payDayResp Nat.add] in * ).
  all: try (exfalso; congruence).
  all: step_run;
    cbn [mounted roomsResp payListResp payMonthResp payDayResp Nat.add view trace awaits];
    rewrite <- ?app_assoc, ?app_nil_r; cbn [app]; try reflexivity.
Qed.


(** A refresh whose first three queries are answered, in a view that is
    mounted when the rooms arrive, sends its whole plan. *)
Lemma refreshAll_sends_plan cl env st :
  truthy (propertyId (c_state cl)) = true ->
  resp_error (roomsResp env) = None ->
  resp_error (payListResp env) = None ->
  resp_error (payMonthResp env) = None ->
  mounted env 1 = true ->
  snd (run (refreshAll cl env) st) = refreshPlan cl.
Proof.
  intros Hp E1 E2 E3 M1. unfold refreshAll, refreshPlan. rewrite Hp.
  cbv beta iota delta [negb].
  repeat (progress (step_handler; rewrite ?E1, ?E2, ?E3, ?M1)).
  destruct (startOfDayISO (selectedDate (c_state cl))) as [dayStart|];
    [|repeat next_decision; reflexivity].
  destruct (endOfDayISO (selectedDate (c_state cl))) as [dayEnd|];
    repeat next_decision; reflexivity.
Qed.

Lemma refreshPlan_queries cl k q :
  In q (take k (refreshPlan cl)) ->
  isQuery q = true /\ isInsert q = false
  /\ match q with
     | SelectRooms pid => pid = nullish (propertyId (c_state cl)) ""
     | SelectPayments _ pid _ _ => pid = nullish (propertyId (c_state cl)) ""
     | _ => False
     end.
Proof.
  unfold refreshPlan.
  destruct (startOfDayISO (selectedDate (c_state cl))),
    (endOfDayISO (selectedDate (c_state cl)));
    destruct k as [|[|[|[|[|k]]]]]; cbn [take app In];
    intros H; decompose [or] H; subst; try contradiction; auto.
Qed.

(** X9. A refresh only reads, in a fixed order.  On every path (whatever
    the store answers, whenever the view is unmounted) the calls it makes
    are an initial part of: rooms, list window, month window, day window;
    each is a query on the property of the view; it inserts nothing and
    navigates nowhere. *)
Theorem refreshAll_reads_in_order cl env st :
  exists k : nat,
    snd (run (refreshAll cl env) st) = take k (refreshPlan cl)
    /\ (length (snd (run (refreshAll cl env) st)) <= 4)%nat
    /\ forall q, In q (snd (run (refreshAll cl env) st)) ->
         isQuery q = true
         /\ match q with
            | SelectRooms pid => pid = nullish (propertyId (c_state cl)) ""
            | SelectPayments _ pid _ _ => pid = nullish (propertyId (c_state cl)) ""
            | _ => False
            end.
Proof.
  destruct (refreshAll_run cl env {| view := st; trace := []; awaits := 0 |})
    as (k & Ht & Hk & _).
  exists k. unfold run.
  destruct (refreshAll cl env _) as [r c]. cbn [fst snd trace app] in *.
  rewrite Ht. split; [reflexivity|]. split.
  - rewrite length_take.
    assert (length (refreshPlan cl) <= 4)%nat
      by (unfold refreshPlan;
          destruct (startOfDayISO (selectedDate (c_state cl))),
            (endOfDayISO (selectedDate (c_state cl)));
          cbn [length app]; lia).
    lia.
  - intros q Hq. apply refreshPlan_queries in Hq. tauto.
Qed.

(** X10. A refresh cannot start itself again and cannot fail its caller:
    on every path it leaves unchanged the five values whose change starts
    a refresh (property, anchor, mode, range bounds) and the expense form,
    and it never completes by throwing. *)
Theorem refreshAll_keeps_its_inputs cl env st :
  refreshDeps (fst (run (refreshAll cl env) st)) = refreshDeps st
  /\ expenseForm (fst (run (refreshAll cl env) st)) = expenseForm st
  /\ forall e, completion (refreshAll cl env) st <> Throw e.
Proof.
  destruct (refreshAll_run cl env {| view := st; trace := []; awaits := 0 |})
    as (k & _ & _ & _ & Hc & Hd & Hf & _).
  unfold run, completion.
  destruct (refreshAll cl env _) as [r c]. cbn [fst snd view] in *.
  repeat split; try assumption.
  intros e. destruct Hc; congruence.
Qed.

(** X11. A refresh of a view that is unmounted before the first answer
    arrives applies nothing of what the store answers: only the rooms
    query has been sent, and the state is the one the handler left when it
    suspended (loading, notice text cleared); no list, total or error
    notice is written. *)
Theorem refreshAll_unmounted cl env st :
  truthy (propertyId (c_state cl)) = true ->
  (forall n, mounted env n = false) ->
  run (refreshAll cl env) st
  = (setMsg "" (setLoading true st), [SelectRooms (nullish (propertyId (c_state cl)) "")]).
Proof.
  intros Hp M.
  destruct (refreshAll_run cl env {| view := st; trace := []; awaits := 0 |})
    as (k & Ht & _ & _ & _ & _ & _ & _ & Hu & _).
  destruct (Hu M Hp) as [-> Hv].
  unfold run. destruct (refreshAll cl env _) as [r c]. cbn [fst snd view trace app] in *.
  rewrite Hv, Ht. reflexivity.
Qed.

(** X12. The loading flag at the end of a refresh tells whether the view
    was still mounted when the refresh ended: on every path (success,
    failure, early return) it is cleared if the view is mounted after the
    last call, and left set otherwise. *)
Theorem refreshAll_loading cl env st :
  truthy (propertyId (c_state cl)) = true ->
  loading (fst (run (refreshAll cl env) st))
  = negb (mounted env (length (snd (run (refreshAll cl env) st)))).
Proof.
  intros Hp.
  destruct (refreshAll_run cl env {| view := st; trace := []; awaits := 0 |})
    as (k & Ht & Hk & _ & _ & _ & _ & Hl & _).
  specialize (Hl Hp).
  unfold run. destruct (refreshAll cl env _) as [r c].
  cbn [fst snd view trace awaits app] in *.
  rewrite Ht, length_take, Nat.min_l by exact Hk.
  now rewrite Nat.add_0_r in Hl.
Qed.


(* ================================================================== *)
(** ** Manual expense, on every path                                   *)
(* ================================================================== *)

(** The paths of a submission that passes the validation. *)
Lemma submitExpense_paths cl env st :
  let s0 := c_state cl in
  truthy (propertyId s0) = true ->
  positiveFinite (StringToNumber (expAmount s0)) = true ->
  let res := submitExpense cl env {| view := st; trace := []; awaits := 0 |} in
  let begun := setMsg "" (setSubmittingExpense true st) in
  let renv := refreshEnv env in
  match authUser env with
  | None =>
      trace (fst res) = [GetUser; Navigate "/"]
      /\ view (fst res) = setSubmittingExpense false begun
  | Some uid =>
      match toISOString (Date_of_string (expDate s0 +:+ "T12:00:00")) with
      | None =>
          trace (fst res) = [GetUser]
          /\ view (fst res)
             = setSubmittingExpense false
                 (if mounted renv 1 then setToast error RangeError_message begun
                  else begun)
      | Some paid_at =>
          match resp_error (insertResp env) with
          | Some e =>
              trace (fst res) = [GetUser; InsertPayment (expenseRecord s0 uid paid_at)]
              /\ view (fst res)
                 = setSubmittingExpense false
                     (if mounted renv 2 then setToast error (submitMessage e) begun
                      else begun)
          | None =>
              exists (k : nat) (v : State),
                trace (fst res)
                = [GetUser; InsertPayment (expenseRecord s0 uid paid_at)]
                  ++ take k (refreshPlan cl)
                  ++ (if truthy (c ← resp_data (insertResp env); ins_id c)
                      then [Navigate (focusURL (nullish (propertyId s0) "")
                                        (nullish (c ← resp_data (insertResp env); ins_id c)
                                                 ""))]
                      else [])
                /\ view (fst res) = setSubmittingExpense false v
                /\ refreshDeps v = refreshDeps (setSelectedDate (expDate s0) st)
                /\ expenseForm v = ("", CASH, "", expDate st, "", true)
                /\ snd res = Normal tt
                /\ (1 <= k)%nat
                /\ run (refreshAll cl (delayed 2 renv)) (submitted cl st)
                   = (v, take k (refreshPlan cl))
          end
      end
  end.
Proof.
  intros s0 Hp Hv res begun renv. subst res begun renv.
  unfold submitExpense. fold s0. rewrite Hp, amount_test_spec, Hv.
  cbv beta iota delta [negb].
  destruct (authUser env) as [uid|] eqn:Eu.
  2:{ step_run. split; reflexivity. }
  destruct (toISOString (Date_of_string (expDate s0 +:+ "T12:00:00"))) as [paid_at|] eqn:Ed.
  2:{ step_run. destruct (mounted (refreshEnv env) 1); split; reflexivity. }
  destruct (resp_error (insertResp env)) as [e|] eqn:Ee.
  { step_run. rewrite Ee. step_run.
    destruct (mounted (refreshEnv env) 2); split; reflexivity. }
  step_run. rewrite Ee. step_run. unfold submitted. fold s0.
  rewrite (refreshAll_delayed cl (refreshEnv env) _ _ 2).
  match goal with
  | |- context [ refreshAll cl (delayed 2 (refreshEnv env)) ?R ] =>
      destruct (refreshAll_run cl (delayed 2 (refreshEnv env)) R)
        as (k & Ht & _ & _ & Hc & Hd & Hf & _ & _ & Hk);
      destruct (refreshAll cl (delayed 2 (refreshEnv env)) R) as [[v t a] c]
  end.
  cbn [fst snd view trace awaits app] in Ht, Hc, Hd, Hf.
  exists k, v. subst t.
  unfold focusURL, expenseRecord. fold s0.
  destruct Hc as [-> | ->]; step_run;
    match goal with
    | |- context [ if truthy ?x then _ else _ ] => destruct (truthy x)
    end; step_run;
    cbn [app]; rewrite <- ?app_assoc, ?app_nil_r; cbn [app];
    (split; [reflexivity|]); (split; [reflexivity|]);
    (split; [exact Hd|]); (split; [exact Hf|]); (split; [reflexivity|]);
    (split; [exact (Hk Hp)|]); reflexivity.
Qed.


Lemma refreshPlan_no_insert cl k : List.filter isInsert (take k (refreshPlan cl)) = [].
Proof.
  unfold refreshPlan.
  destruct (startOfDayISO (selectedDate (c_state cl))),
    (endOfDayISO (selectedDate (c_state cl)));
    destruct k as [|[|[|[|[|k]]]]]; reflexivity.
Qed.

Lemma refreshPlan_all_queries cl k :
  List.filter isQuery (take k (refreshPlan cl)) = take k (refreshPlan cl).
Proof.
  unfold refreshPlan.
  destruct (startOfDayISO (selectedDate (c_state cl))),
    (endOfDayISO (selectedDate (c_state cl)));
    destruct k as [|[|[|[|[|k]]]]]; reflexivity.
Qed.

(** A submission that does not pass the validation makes no call. *)
Lemma submitExpense_not_begun cl env st :
  truthy (propertyId (c_state cl)) = false
  \/ positiveFinite (StringToNumber (expAmount (c_state cl))) = false ->
  snd (run (submitExpense cl env) st) = []
  /\ submittingExpense (fst (run (submitExpense cl env) st)) = submittingExpense st.
Proof.
  unfold submitExpense.
  destruct (truthy (propertyId (c_state cl))) eqn:Hp.
  - intros [H|H]; [discriminate|]. rewrite amount_test_spec, H. split; reflexivity.
  - intros _. split; reflexivity.
Qed.

(** The instant an expense dated [D] is stored with: local noon of [D]. *)
Lemma noon_of_expense_date sel D :
  - msPerDay < LocalTZA < msPerDay ->
  isoDate sel = Some D ->
  toISOString (Date_of_string (sel +:+ "T12:00:00"))
  = Some (UTC (MakeDate (dayNumber D) (12 * msPerHour))).
Proof.
  intros Hz HD. unfold toISOString, Date_of_string.
  apply (Date_parse_local Hz sel D "12:00:00" (12 * msPerHour) HD); [reflexivity|].
  unfold msPerHour, msPerDay. lia.
Qed.

(** X13. A manual expense that passes the validation, with a signed-in
    user, a calendar date [D] as its date and an insert the store accepts:
    the handler sends exactly the row of the form, timed at local noon of
    [D], an instant that lies on [D] and strictly inside the day window of
    [D]; then it refreshes with the windows of the render it was started
    from, and navigates to the new entry when the store returned its
    identifier.  The refresh is the whole run of [refreshAll] in the state
    the submission has prepared (it sends the rooms query at least, and
    all its queries when the first three are answered and the view is
    mounted when the rooms arrive), and the final state is the one that
    refresh leaves, with the submit button released.  The anchor is left on [D], the mode and the custom range as
    they were, the form emptied and released. *)
Theorem submitExpense_records_expense cl env st uid D :
  let s0 := c_state cl in
  - msPerDay < LocalTZA < msPerDay ->
  truthy (propertyId s0) = true ->
  positiveFinite (StringToNumber (expAmount s0)) = true ->
  authUser env = Some uid ->
  isoDate (expDate s0) = Some D ->
  resp_error (insertResp env) = None ->
  let st' := fst (run (submitExpense cl env) st) in
  let calls := snd (run (submitExpense cl env) st) in
  let paid_at := UTC (MakeDate (dayNumber D) (12 * msPerHour)) in
  let created_id := c ← resp_data (insertResp env); ins_id c in
  let refreshed := run (refreshAll cl (delayed 2 (refreshEnv env))) (submitted cl st) in
  (exists k : nat,
     (1 <= k)%nat
     /\ snd refreshed = take k (refreshPlan cl)
     /\ calls = [GetUser; InsertPayment (expenseRecord s0 uid paid_at)]
                ++ take k (refreshPlan cl)
                ++ (if truthy created_id
                    then [Navigate (focusURL (nullish (propertyId s0) "")
                                             (nullish created_id ""))]
                    else []))
  /\ calls = [GetUser; InsertPayment (expenseRecord s0 uid paid_at)]
             ++ snd refreshed
             ++ (if truthy created_id
                 then [Navigate (focusURL (nullish (propertyId s0) "")
                                          (nullish created_id ""))]
                 else [])
  /\ st' = setSubmittingExpense false (fst refreshed)
  /\ localDay paid_at = dayNumber D
  /\ (exists dayStart dayEnd,
        startOfDayISO (expDate s0) = Some dayStart
        /\ endOfDayISO (expDate s0) = Some dayEnd
        /\ dayStart < paid_at < dayEnd)
  /\ selectedDate st' = expDate s0
  /\ (filterMode st', rangeFrom st', rangeTo st') = (filterMode st, rangeFrom st, rangeTo st)
  /\ typedExpense st' = ("", CASH, "", expDate st, "")
  /\ submittingExpense st' = false
  /\ (resp_error (roomsResp (refreshEnv env)) = None ->
      resp_error (payListResp (refreshEnv env)) = None ->
      resp_error (payMonthResp (refreshEnv env)) = None ->
      mounted (refreshEnv env) 3 = true ->
      snd refreshed = refreshPlan cl).
Proof.
  intros s0 Hz Hp Hv Hu HD He st' calls paid_at created_id refreshed.
  assert (Plan : resp_error (roomsResp (refreshEnv env)) = None ->
                 resp_error (payListResp (refreshEnv env)) = None ->
                 resp_error (payMonthResp (refreshEnv env)) = None ->
                 mounted (refreshEnv env) 3 = true ->
                 snd refreshed = refreshPlan cl).
  { intros E1 E2 E3 M. subst refreshed.
    apply refreshAll_sends_plan; assumption. }
  pose proof (submitExpense_paths cl env st Hp Hv) as P. cbv zeta in P.
  fold s0 in P.
  rewrite Hu, (noon_of_expense_date _ _ Hz HD), He in P.
  destruct P as (k & v & Ht & Hview & Hd & Hf & _ & Hk & Hr).
  subst refreshed. rewrite Hr in Plan |- *. cbn [fst snd] in Plan |- *.
  subst st' calls. unfold run.
  destruct (submitExpense cl env _) as [r c]. cbn [fst snd] in *.
  split; [exists k; split; [exact Hk|split; [reflexivity|exact Ht]]|].
  split; [exact Ht|]. split; [exact Hview|]. split.
  { unfold paid_at, localDay. rewrite LocalTime_UTC.
    apply Day_MakeDate. unfold msPerHour, msPerDay. lia. }
  split.
  { exists (startOfLocalDay (dayNumber D)), (endOfLocalDay (dayNumber D)).
    split; [exact (startOfDayISO_local Hz _ _ HD)|].
    split; [exact (endOfDayISO_local Hz _ _ HD)|].
    unfold paid_at, startOfLocalDay, endOfLocalDay, UTC, MakeDate, msPerHour, msPerDay.
    lia. }
  rewrite Hview. unfold refreshDeps, expenseForm, typedExpense in *.
  cbn [selectedDate filterMode rangeFrom rangeTo propertyId setSelectedDate
       setSubmittingExpense expAmount expMethod expNote expDate expRoomId
       submittingExpense] in *.
  injection Hd as _ E1 E2 E3 E4. injection Hf as F1 F2 F3 F4 F5 _.
  repeat split; try congruence. exact Plan.
Qed.

(** X14. Whatever the host and the store answer, a submission of the
    expense form stores at most one row, and any row it stores is an
    expense with a finite amount above 0, of the property of the view,
    attributed to the signed-in user and to no stay. *)
Theorem submitExpense_inserts_safely cl env st p :
  In (InsertPayment p) (snd (run (submitExpense cl env) st)) ->
  let s0 := c_state cl in
  ins_type p = EXPENSE
  /\ positiveFinite (ins_amount p) = true
  /\ truthy (propertyId s0) = true
  /\ ins_property_id p = nullish (propertyId s0) ""
  /\ authUser env = Some (ins_created_by p)
  /\ ins_stay_id p = None
  /\ List.filter isInsert (snd (run (submitExpense cl env) st)) = [InsertPayment p].
Proof.
  intros Hin s0.
  destruct (truthy (propertyId s0)) eqn:Hp.
  2:{ destruct (submitExpense_not_begun cl env st (or_introl Hp)) as [E _].
      rewrite E in Hin. contradiction. }
  destruct (positiveFinite (StringToNumber (expAmount s0))) eqn:Hv.
  2:{ destruct (submitExpense_not_begun cl env st (or_intror Hv)) as [E _].
      rewrite E in Hin. contradiction. }
  pose proof (submitExpense_paths cl env st Hp Hv) as P. cbv zeta in P. fold s0 in P.
  revert Hin. unfold run.
  destruct (submitExpense cl env _) as [r c]. cbn [fst snd] in *.
  destruct (authUser env) as [uid|].
  2:{ destruct P as [-> _]. cbn [In]. intros [H|[H|[]]]; discriminate. }
  destruct (toISOString _) as [paid_at|].
  2:{ destruct P as [-> _]. cbn [In]. intros [H|[]]; discriminate. }
  destruct (resp_error (insertResp env)) as [e|].
  { destruct P as [-> _]. cbn [In].
    intros [H|[H|[]]]; [discriminate|]. injection H as <-.
    repeat split; try reflexivity; assumption. }
  destruct P as (k & v & -> & _).
  intros H. rewrite !List.filter_app, refreshPlan_no_insert.
  apply in_app_or in H as [H|H].
  - cbn [In] in H. destruct H as [H|[H|[]]]; [discriminate|]. injection H as <-.
    repeat split; try reflexivity; try assumption.
    match goal with
    | |- context [ if truthy ?x then _ else _ ] => destruct (truthy x)
    end; reflexivity.
  - exfalso. apply in_app_or in H as [H|H].
    + apply refreshPlan_queries in H as (_ & H & _). discriminate.
    + match goal with
      | H : context [ if truthy ?x then _ else _ ] |- _ => destruct (truthy x)
      end; cbn [In] in H; [destruct H as [H|[]]; discriminate|contradiction].
Qed.

(** X15. The submit button is released on every path: whatever fails or
    succeeds during a submission, the form is not left in the submitting
    state. *)
Theorem submitExpense_releases_form cl env st :
  submittingExpense st = false ->
  submittingExpense (fst (run (submitExpense cl env) st)) = false.
Proof.
  intros Hs. set (s0 := c_state cl).
  destruct (truthy (propertyId s0)) eqn:Hp.
  2:{ destruct (submitExpense_not_begun cl env st (or_introl Hp)) as [_ E]. congruence. }
  destruct (positiveFinite (StringToNumber (expAmount s0))) eqn:Hv.
  2:{ destruct (submitExpense_not_begun cl env st (or_intror Hv)) as [_ E]. congruence. }
  pose proof (submitExpense_paths cl env st Hp Hv) as P. cbv zeta in P. fold s0 in P.
  unfold run.
  destruct (submitExpense cl env _) as [r c]. cbn [fst snd] in *.
  destruct (authUser env) as [uid|]; [|destruct P as [_ ->]; reflexivity].
  destruct (toISOString _) as [paid_at|]; [|destruct P as [_ ->]; reflexivity].
  destruct (resp_error (insertResp env)) as [e|]; [destruct P as [_ ->]; reflexivity|].
  destruct P as (k & v & _ & -> & _). reflexivity.
Qed.

(** X16. A submission that cannot complete (no signed-in user, an expense
    date that is no date, or an insert the store rejects) keeps what the
    user typed into the form, the anchor, the mode, the range, the
    displayed entries and the totals, and sends no query; with a signed-in
    user and the view mounted, it shows an error notice. *)
Theorem submitExpense_failure_keeps_form cl env st :
  let s0 := c_state cl in
  truthy (propertyId s0) = true ->
  positiveFinite (StringToNumber (expAmount s0)) = true ->
  submitFails cl env = true ->
  let st' := fst (run (submitExpense cl env) st) in
  let calls := snd (run (submitExpense cl env) st) in
  typedExpense st' = typedExpense st
  /\ refreshDeps st' = refreshDeps st
  /\ rows st' = rows st
  /\ (dayIncome st', dayExpense st', monthIncome st', monthExpense st')
     = (dayIncome st, dayExpense st, monthIncome st, monthExpense st)
  /\ List.filter isQuery calls = []
  /\ (authUser env <> None -> (forall n, mounted (refreshEnv env) n = true) ->
      msgType st' = error).
Proof.
  intros s0 Hp Hv Hf st' calls.
  pose proof (submitExpense_paths cl env st Hp Hv) as P. cbv zeta in P. fold s0 in P.
  subst st' calls. unfold run, submitFails in *. fold s0 in Hf.
  destruct (submitExpense cl env _) as [r c]. cbn [fst snd] in *.
  destruct (authUser env) as [uid|].
  2:{ destruct P as [-> ->]. repeat split; try reflexivity. congruence. }
  destruct (toISOString _) as [paid_at|].
  2:{ destruct P as [-> ->].
      repeat split; try reflexivity; try (destruct (mounted _ 1); reflexivity).
      intros _ M. rewrite M. reflexivity. }
  destruct (resp_error (insertResp env)) as [e|]; [|discriminate].
  destruct P as [-> ->].
  repeat split; try reflexivity; try (destruct (mounted _ 2); reflexivity).
  intros _ M. rewrite M. reflexivity.
Qed.


(* ================================================================== *)
(** ** The filter bar and the custom range                             *)
(* ================================================================== *)

Lemma dispatch_PickMode st m :
  dispatch st (PickMode m) = setFilterMode m st.
Proof. reflexivity. Qed.

Lemma dispatch_ChangeAnchor_rolling st v :
  FilterMode_eqb (filterMode st) RANGE = false ->
  dispatch st (ChangeAnchor v) = setRangeTo v (setRangeFrom v (setSelectedDate v st)).
Proof.
  intros H. unfold dispatch, onSelectedDateChange. rewrite H. reflexivity.
Qed.

Lemma dispatch_ChangeAnchor_range st v :
  FilterMode_eqb (filterMode st) RANGE = true ->
  dispatch st (ChangeAnchor v) = setSelectedDate v st.
Proof.
  intros H. unfold dispatch, onSelectedDateChange. rewrite H. reflexivity.
Qed.

(** A submission of the expense form, on any of its paths, leaves the
    mode and both range bounds as they are. *)
Lemma submitExpense_keeps_range cl env st :
  let st' := fst (run (submitExpense cl env) st) in
  filterMode st' = filterMode st
  /\ rangeFrom st' = rangeFrom st /\ rangeTo st' = rangeTo st.
Proof.
  cbv zeta. set (s0 := c_state cl).
  destruct (truthy (propertyId s0)) eqn:Hp.
  2:{ unfold submitExpense. fold s0. rewrite Hp. repeat split; reflexivity. }
  destruct (positiveFinite (StringToNumber (expAmount s0))) eqn:Hv.
  2:{ unfold submitExpense. fold s0. rewrite Hp, amount_test_spec, Hv.
      repeat split; reflexivity. }
  pose proof (submitExpense_paths cl env st Hp Hv) as P. cbv zeta in P. fold s0 in P.
  unfold run.
  destruct (submitExpense cl env _) as [r c]. cbn [fst snd] in *.
  destruct (authUser env) as [uid|]; [|destruct P as [_ ->]; repeat split; reflexivity].
  destruct (toISOString _) as [paid_at|];
    [|destruct P as [_ ->]; destruct (mounted _ 1); repeat split; reflexivity].
  destruct (resp_error (insertResp env)) as [e|];
    [destruct P as [_ ->]; destruct (mounted _ 2); repeat split; reflexivity|].
  destruct P as (k & v & _ & -> & Hd & _).
  unfold refreshDeps in Hd.
  cbn [selectedDate filterMode rangeFrom rangeTo propertyId setSelectedDate
       setSubmittingExpense] in *.
  injection Hd as _ _ E2 E3 E4. auto.
Qed.

Lemma dispatch_SubmitExpense st env :
  let st' := dispatch st (SubmitExpense env) in
  filterMode st' = filterMode st
  /\ rangeFrom st' = rangeFrom st /\ rangeTo st' = rangeTo st.
Proof.
  cbv zeta. unfold dispatch. destruct (render st) as [cl|]; [|auto].
  apply submitExpense_keeps_range.
Qed.

(** Away from the custom range, an event keeps the view away from it. *)
Lemma dispatch_stays_away st ev :
  FilterMode_eqb (filterMode st) RANGE = false -> leavesRange ev = true ->
  FilterMode_eqb (filterMode (dispatch st ev)) RANGE = false.
Proof.
  intros H L. destruct ev as [m|v|env].
  - rewrite dispatch_PickMode. cbn [filterMode setFilterMode].
    cbn [leavesRange] in L. now apply negb_true_iff in L.
  - now rewrite dispatch_ChangeAnchor_rolling.
  - destruct (dispatch_SubmitExpense st env) as (-> & _). exact H.
Qed.

(** The range bounds after events away from the custom range: those of
    the last change of the anchor date input, or the old ones if there was
    none; clicks on the mode buttons and submissions of the expense form do
    not touch them. *)
Lemma away_range evs st :
  FilterMode_eqb (filterMode st) RANGE = false ->
  forallb leavesRange evs = true ->
  let st' := dispatchAll st evs in
  FilterMode_eqb (filterMode st') RANGE = false
  /\ (rangeFrom st', rangeTo st')
     = match lastAnchorInput evs with
       | Some v => (v, v)
       | None => (rangeFrom st, rangeTo st)
       end.
Proof.
  revert st. induction evs as [|ev evs IH]; intros st H L; cbn [dispatchAll fold_left].
  - auto.
  - cbn [forallb] in L. apply andb_true_iff in L as [L1 L2].
    destruct (IH (dispatch st ev) (dispatch_stays_away st ev H L1) L2) as (A & B).
    unfold dispatchAll in *. split; [exact A|]. rewrite B.
    cbn [lastAnchorInput]. destruct (lastAnchorInput evs) as [v|]; [reflexivity|].
    destruct ev as [m|v|env].
    + now rewrite dispatch_PickMode.
    + now rewrite dispatch_ChangeAnchor_rolling.
    + destruct (dispatch_SubmitExpense st env) as (_ & -> & ->). reflexivity.
Qed.

(** Leaving the custom range (picking mode [m0]), going through events
    [evs] and coming back: the range bounds are those of the last change of
    the anchor date input in between, or what they were if there was none. *)
Lemma custom_range_after_away st_r m0 evs :
  FilterMode_eqb m0 RANGE = false ->
  forallb leavesRange evs = true ->
  let back := dispatch (dispatchAll (dispatch st_r (PickMode m0)) evs) (PickMode RANGE) in
  filterMode back = RANGE
  /\ (rangeFrom back, rangeTo back)
     = match lastAnchorInput evs with
       | Some v => (v, v)
       | None => (rangeFrom st_r, rangeTo st_r)
       end.
Proof.
  intros Hm L back. split; [reflexivity|].
  assert (Away : FilterMode_eqb (filterMode (dispatch st_r (PickMode m0))) RANGE = false)
    by (rewrite dispatch_PickMode; exact Hm).
  destruct (away_range evs _ Away L) as (_ & B).
  subst back. rewrite dispatch_PickMode. cbn [rangeFrom rangeTo setFilterMode].
  rewrite B. now rewrite dispatch_PickMode.
Qed.

(* ================================================================== *)
(** ** The income insert, on every path                                *)
(* ================================================================== *)

(** X17. The income insert sends exactly one row, an income of the stay,
    timed now, and touches no view state.  It returns a row only when the
    store reported no error and returned an identifier that is not empty;
    an error of the store is thrown on as it is, and a missing identifier
    is an error of its own. *)
Theorem createIncomePaymentFromStay_outcomes params now resp st :
  let sent := InsertPayment
                {| ins_property_id := p_propertyId params;
                   ins_stay_id := Some (p_stayId params);
                   ins_room_id := p_roomId params;
                   ins_type := INCOME;
                   ins_amount := p_amount params;
                   ins_method := p_method params;
                   ins_note := p_note params;
                   ins_created_by := p_userId params;
                   ins_paid_at := now |} in
  run (createIncomePaymentFromStay params now resp) st = (st, [sent])
  /\ (forall d, completion (createIncomePaymentFromStay params now resp) st = Normal d ->
        resp_error resp = None /\ resp_data resp = Some d /\ truthy (ins_id d) = true)
  /\ (forall e, resp_error resp = Some e ->
        completion (createIncomePaymentFromStay params now resp) st = Throw e)
  /\ (resp_error resp = None -> truthy (c ← resp_data resp; ins_id c) = false ->
        completion (createIncomePaymentFromStay params now resp) st
        = Throw {| instanceofError := true; message := "Không tạo được phiếu thu" |}).
Proof.
  intros sent. subst sent. unfold createIncomePaymentFromStay.
  destruct resp as [[[id]|] [e|]]; step_handler; cbn [resp_error resp_data];
    step_handler; cbn [option_bind ins_id nullish].
  all: try (destruct (truthy id) eqn:T; step_handler).
  all: cbn [truthy].
  all: (split; [reflexivity|]).
  all: split;
    [ intros d H; try discriminate H; injection H as <-;
      repeat split; try reflexivity; assumption
    | split;
      [ intros e0 H; try discriminate H; injection H as <-; reflexivity
      | intros H1 H2; try discriminate H1; try reflexivity; congruence ] ].
Qed.



(* ================================================================== *)
(** ** Collecting the payment of a stay ([src/pages/Rooms.tsx])        *)
(* ================================================================== *)

(** X18. The amount button of the collection dialog.  The update that
    marks the stay as paid is sent, the dialog closed and the ledger opened
    on the new entry only when an income row with an identifier has been
    stored; these then happen in this order, after exactly one insert
    carrying the amount, the method and the note of the dialog.  When the
    sign-in or the insert fails, the user is alerted, no update of the stay
    is sent, nothing is navigated to, and the dialog keeps its contents.
    The answer to the update of the stay is not read: when the store
    rejects that update, the handler goes on as if it had been applied,
    closes the dialog and opens the ledger, and alerts nobody.  On every
    path the button is released. *)
Theorem onCollectClick_outcomes c st env :
  let st' := fst (p_run (onCollectClick c st env) st) in
  let calls := snd (p_run (onCollectClick c st env) st) in
  submittingCollect st' = false
  /\ if collectSucceeds env
     then exists uid id,
            col_user env = Some uid
            /\ (r ← resp_data (col_insert env); ins_id r) = Some id
            /\ calls
               = [ Known GetUser;
                   Known (InsertPayment
                            (incomeRecord (collectParams c st uid) (col_now env)));
                   UpdateStayPaid (col_stayId c) (col_amount c);
                   Known (Navigate (focusURL (col_propertyId c) id)) ]
            /\ existsb isAlert calls = false
            /\ collect st' = None /\ payMethod st' = CASH /\ payNote st' = ""
            /\ p_completion (onCollectClick c st env) st = Normal tt
     else (exists before text,
             calls = before ++ [Alert text]
             /\ forallb isUserOrInsert before = true)
          /\ collect st' = collect st
          /\ payMethod st' = payMethod st
          /\ payNote st' = payNote st.
Proof.
  unfold onCollectClick, collectSucceeds, createIncomePaymentFromStay.
  destruct (col_user env) as [uid|]; step_proc.
  2:{ split; [reflexivity|]. split; [|repeat split; reflexivity].
      exists [Known GetUser]. eexists. split; reflexivity. }
  destruct (col_insert env) as [data [e|]]; cbn [resp_error resp_data]; step_proc.
  { split; [reflexivity|]. split; [|repeat split; reflexivity].
    eexists [Known GetUser; Known (InsertPayment _)]. eexists. split; reflexivity. }
  destruct data as [[[id|]]|]; cbn [option_bind ins_id truthy nullish]; step_proc.
  - destruct id as [|a id]; cbn [truthy]; step_proc.
    + split; [reflexivity|]. split; [|repeat split; reflexivity].
      eexists [Known GetUser; Known (InsertPayment _)]. eexists. split; reflexivity.
    + split; [reflexivity|]. exists uid, (String a id). repeat split; reflexivity.
  - split; [reflexivity|]. split; [|repeat split; reflexivity].
    eexists [Known GetUser; Known (InsertPayment _)]. eexists. split; reflexivity.
  - split; [reflexivity|]. split; [|repeat split; reflexivity].
    eexists [Known GetUser; Known (InsertPayment _)]. eexists. split; reflexivity.
Qed.


(* ================================================================== *)
(** ** Resolving the property of the view                              *)
(* ================================================================== *)

(** X19. Resolving the property while the view stays mounted.  Without a
    signed-in user the property is left alone and the page is left for the
    start page.  With one, a property given in the address wins and no
    lookup is made; otherwise the first property assigned to the user is
    looked up and taken; when the lookup fails or gives none, the property
    is cleared and the notice says so.  Loading ends cleared every time. *)
Theorem resolveProperty_outcomes url env st :
  (forall n, res_mounted env n = true) ->
  let st' := fst (p_run (resolveProperty url env) st) in
  let calls := snd (p_run (resolveProperty url env) st) in
  loading st' = false
  /\ match res_user env with
     | None =>
         calls = [Known GetUser; Known (Navigate "/")]
         /\ propertyId st' = propertyId st
     | Some uid =>
         if truthy url
         then calls = [Known GetUser] /\ propertyId st' = url
         else calls = [Known GetUser; SelectUserProperty uid]
              /\ if truthy (assignedProperty env)
                 then propertyId st' = assignedProperty env /\ msg st' = ""
                 else propertyId st' = None
                      /\ msgType st' = info
                      /\ msg st' = "Bạn chưa được gán cơ sở."
     end.
Proof.
  intros M. unfold resolveProperty, assignedProperty.
  destruct (res_user env) as [uid|]; step_proc; rewrite ?M.
  2:{ repeat split; reflexivity. }
  destruct (truthy url); step_proc; rewrite ?M.
  { repeat split; reflexivity. }
  destruct (resp_error (res_assignment env)); step_proc.
  { repeat split; reflexivity. }
  match goal with
  | |- context [ if truthy ?x then _ else _ ] => destruct (truthy x)
  end; step_proc; repeat split; reflexivity.
Qed.

(** X20. A user to whom no property is assigned (and with none in the
    address): after the property is resolved the notice says so, the
    submit button is disabled, and a refresh of that view sends no query
    and changes nothing, so the notice stays. *)
Theorem unassigned_user_stays_idle env st renv cl :
  (forall n, res_mounted env n = true) ->
  res_user env <> None ->
  truthy (assignedProperty env) = false ->
  let st' := fst (p_run (resolveProperty None env) st) in
  c_state cl = st' ->
  msg st' = "Bạn chưa được gán cơ sở."
  /\ submitDisabled st' = true
  /\ run (refreshAll cl renv) st' = (st', [])
  /\ completion (refreshAll cl renv) st' = Return.
Proof.
  intros M Hu Ha st' Hcl.
  assert (P : propertyId st' = None /\ msg st' = "Bạn chưa được gán cơ sở.").
  { subst st'. revert Ha. unfold resolveProperty, assignedProperty.
    destruct (res_user env) as [uid|]; [|congruence].
    step_proc. cbn [truthy]. step_proc. rewrite ?M.
    destruct (resp_error (res_assignment env)); step_proc; [split; reflexivity|].
    intros Ha. cbv [option_bind] in Ha |- *. rewrite Ha. step_proc. split; reflexivity. }
  destruct P as [Hp Hm].
  split; [exact Hm|].
  unfold submitDisabled, refreshAll, run, completion. rewrite Hcl, Hp.
  cbn [truthy negb orb]. repeat split; reflexivity.
Qed.

End Cashbook.

Arguments resp_data {A} _.
Arguments resp_error {A} _.
Arguments Normal {A} _.
Arguments Return {A}.
Arguments Throw {A} _.

(* ================================================================== *)
(** ** The scenarios, in the zone UTC+7                                *)
(* ================================================================== *)

Lemma tza_ICT_range : - msPerDay < tza_ICT < msPerDay.
Proof. split; reflexivity. Defined.

Example render_state_A : render tza_ICT state_A = Some closure_A.
Proof. reflexivity. Qed.

Example render_state_B : render tza_ICT state_B = Some closure_B.
Proof. reflexivity. Qed.

Example render_state_expense : render tza_ICT state_expense = Some closure_expense.
Proof. reflexivity. Qed.

(** Midnight of 10 January 2024 in that zone is 17:00 UTC of the 9th. *)
Example startOfDayISO_2024_01_10 :
  startOfDayISO tza_ICT "2024-01-10" = Some 1704819600000
  /\ endOfDayISO tza_ICT "2024-01-10" = Some 1704905999999.
Proof. split; reflexivity. Qed.

(** A cleared date input holds the empty string: no date, no window. *)
Example listRange_of_no_date : listRange tza_ICT (viewOn "" TODAY) = None.
Proof. reflexivity. Qed.

(** What [Number] reads from some amount fields. *)
Example StringToNumber_samples :
  StringToNumber "200000" = JsFinite 200000 0
  /\ StringToNumber " 12.50 " = JsFinite 1250 (-2)
  /\ StringToNumber "1e3" = JsFinite 1 3
  /\ StringToNumber "" = JsFinite 0 0
  /\ StringToNumber "-5" = JsFinite (-5) 0
  /\ StringToNumber "0x1F" = JsFinite 31 0
  /\ StringToNumber "12abc" = JsNaN
  /\ StringToNumber "Infinity" = JsInfinity false
  /\ StringToNumber "1e309" = JsInfinity false
  /\ StringToNumber "1e-400" = JsFinite 0 0.
Proof. vm_compute. repeat split; reflexivity. Qed.

(** An entry without an amount adds nothing to the range totals. *)
Example rangeTotals_with_null_amount :
  rangeTotals (setRows [row_a1; row_null; row_a2] state_A)
  = {| income := Double_of_Z 100000; expense := Double_of_Z 30000;
       profit := Double_of_Z 70000 |}.
Proof. reflexivity. Qed.

(** Amounts are added as JavaScript numbers.  From 2^53 on a sum is
    rounded: 2^53 + 1 + 1, added in this order, is 2^53.  Fractions are
    rounded too: 0.1 + 0.2 is 0.30000000000000004. *)
Example rangeTotals_beyond_2_53 :
  income (rangeTotals (setRows rows_beyond_2_53 state_A)) = Double_of_Z (2 ^ 53)
  /\ Double_of_Z (2 ^ 53) <> Double_of_Z (2 ^ 53 + 2).
Proof. split; [vm_compute; reflexivity|vm_compute; discriminate]. Qed.

Example Double_add_tenths :
  Double_add tenth fifth = Double_of_binary 5404319552844596 (-54)
  /\ Double_add tenth fifth <> Double_of_binary 5404319552844595 (-54).
Proof. split; [vm_compute; reflexivity|vm_compute; discriminate]. Qed.

(** The update of the stay is rejected: the dialog is closed and the
    ledger opened all the same, and nobody is alerted. *)
Example onCollectClick_update_rejected :
  p_run (onCollectClick collect_A roomsView_A env_update_rejected) roomsView_A
  = ({| collect := None; payMethod := CASH; payNote := ""; submittingCollect := false |},
     [ Known GetUser;
       Known (InsertPayment
                (incomeRecord (collectParams collect_A roomsView_A "user-1")
                   1704850000000));
       UpdateStayPaid "stay-1" (JsFinite 250000 0);
       Known (Navigate "/reports/cashbook?propertyId=prop-1&focus=pay-9") ]).
Proof. reflexivity. Qed.

(** Scenario A: the day totals are 100000 / 30000 / 70000, the range
    totals equal them, the month totals are 150000 / 30000 / 120000. *)
Lemma aggregate_totals_witness :
  let st' := fst (run (refreshAll tza_ICT closure_A env_A) state_A) in
  dayTotals st'
  = {| income := Double_of_Z 100000; expense := Double_of_Z 30000;
       profit := Double_of_Z 70000 |}
  /\ rangeTotals st' = dayTotals st'
  /\ monthTotals st'
     = {| income := Double_of_Z 150000; expense := Double_of_Z 30000;
          profit := Double_of_Z 120000 |}.
Proof.
  destruct (aggregate_totals tza_ICT state_A closure_A env_A 1704819600000 1704905999999)
    as (_ & _ & H3 & H4 & H5 & _ & _ & _ & Hd & Hm).
  - reflexivity.
  - repeat split; reflexivity.
  - reflexivity.
  - reflexivity.
  - cbv zeta in *. change (c_state closure_A) with state_A in *.
    split; [|split].
    + rewrite (Hd [(INCOME, 100000); (EXPENSE, 30000)] eq_refl eq_refl). reflexivity.
    + rewrite H4, H3, H5. reflexivity.
    + rewrite (Hm [(INCOME, 100000); (EXPENSE, 30000); (INCOME, 50000)] eq_refl eq_refl).
      reflexivity.
Defined.

(** Anchor 3 March 2024, last 7 days: the window starts with 26 February
    (2024 is a leap year) and is 7 days long. *)
Lemma listRange_rolling_window_witness :
  exists w,
    listRange tza_ICT (viewOn "2024-03-03" D7) = Some w
    /\ startOfDayISO tza_ICT "2024-02-26" = Some (startISO w)
    /\ endOfDayISO tza_ICT "2024-03-03" = Some (endISO w)
    /\ endISO w - startISO w + 1 = 7 * msPerDay.
Proof.
  destruct (listRange_rolling_window tza_ICT tza_ICT_range (viewOn "2024-03-03" D7)
              {| ymd_year := 2024; ymd_month := 3; ymd_day := 3 |} 7)
    as (w & H1 & _ & _ & H4 & H5 & _ & H7).
  - reflexivity.
  - reflexivity.
  - exists w. split; [exact H1|]. split.
    + apply (H5 "2024-02-26" {| ymd_year := 2024; ymd_month := 2; ymd_day := 26 |});
        reflexivity.
    + split; [exact H4|exact H7].
Defined.

(** Scenario D in the code: the list query fails, and the month and day
    totals are zero although their queries would have succeeded. *)
Lemma refreshAll_any_failure_witness :
  let st' := fst (run (refreshAll tza_ICT closure_A env_D) state_A) in
  rows st' = [] /\ dayTotals st' = zeroTotals /\ monthTotals st' = zeroTotals
  /\ msgType st' = error /\ msg st' = "connection lost"
  /\ snd (run (refreshAll tza_ICT closure_A env_D) state_A)
     = [ SelectRooms "prop-1";
         SelectPayments "id,type,amount,method,note,paid_at,stay_id,room_id" "prop-1"
           1704819600000 (Lte 1704905999999) ].
Proof.
  destruct (refreshAll_any_failure tza_ICT closure_A env_D
              {| instanceofError := true; message := "connection lost" |}
              1704819600000 1704905999999)
    as (H1 & H2 & H3 & H4 & H5 & _ & H7 & _).
  - reflexivity.
  - intros n. reflexivity.
  - reflexivity.
  - reflexivity.
  - reflexivity.
  - cbv zeta. change (c_state closure_A) with state_A in *.
    repeat split; assumption.
Defined.

(** C2, as stated, fails on scenario D: the month query succeeds and the
    month totals do not show its result. *)
Lemma slots_not_isolated : ~ slots_isolated tza_ICT closure_A env_D.
Proof.
  intros (_ & _ & Hm & _). specialize (Hm eq_refl). vm_compute in Hm. discriminate Hm.
Qed.

(** Scenario C in the code: the button does nothing, the assembler
    produces the workbook. *)
Lemma export_of_empty_list_witness :
  run (clickExport state_A) state_A = (state_A, [])
  /\ length (snd (run (onExportXLSX state_A) state_A)) = 1%nat.
Proof.
  destruct (export_of_empty_list state_A (setLoading true state_A))
    as (H1 & _ & H3 & _).
  - reflexivity.
  - reflexivity.
  - split; [exact H1|]. rewrite H3. reflexivity.
Defined.

(** C3, as stated, fails on scenario C: the assembler invoked on the empty
    list does not fail and produces a file. *)
Lemma export_does_not_refuse_empty : ~ export_refuses_empty state_A.
Proof.
  intros H. destruct (H eq_refl) as [_ H2]. vm_compute in H2. discriminate H2.
Qed.

(** Leaving the range 1 to 5 January for "last 7 days" and coming back:
    untouched, the range is kept; after the anchor date input was set to 15
    January, both bounds are 15 January; after an expense was submitted,
    the range is kept whatever the date of the expense. *)
Example custom_range_after_away_scenarios :
  rangeFrom (dispatch tza_ICT
               (dispatchAll tza_ICT (dispatch tza_ICT state_range (PickMode D7))
                  [PickMode D30])
               (PickMode RANGE)) = "2024-01-01"
  /\ rangeFrom (dispatch tza_ICT
                  (dispatchAll tza_ICT (dispatch tza_ICT state_range (PickMode D7))
                     [ChangeAnchor "2024-01-15"; PickMode D30])
                  (PickMode RANGE)) = "2024-01-15"
  /\ rangeFrom (dispatch tza_ICT
                  (dispatchAll tza_ICT
                     (dispatch tza_ICT state_range_expense (PickMode D7))
                     [SubmitExpense env_accept])
                  (PickMode RANGE)) = "2024-01-01".
Proof.
  split; [|split].
  - destruct (custom_range_after_away tza_ICT state_range D7 [PickMode D30]
                eq_refl eq_refl) as (_ & H).
    exact (f_equal fst H).
  - destruct (custom_range_after_away tza_ICT state_range D7
                [ChangeAnchor "2024-01-15"; PickMode D30] eq_refl eq_refl) as (_ & H).
    exact (f_equal fst H).
  - destruct (custom_range_after_away tza_ICT state_range_expense D7
                [SubmitExpense env_accept] eq_refl eq_refl) as (_ & H).
    exact (f_equal fst H).
Qed.

(** Scenario B: the amount ["abc"]. *)
Lemma submitExpense_invalid_amount_witness :
  StringToNumber "abc" = JsNaN
  /\ run (submitExpense tza_ICT closure_B env_no_id) state_B
     = (setToast error "Số tiền chi không hợp lệ." state_B, []).
Proof.
  split; [reflexivity|].
  destruct (submitExpense_invalid_amount tza_ICT closure_B env_no_id) as (H & _).
  - reflexivity.
  - reflexivity.
  - exact H.
Defined.

(** An instant of 10 January 2024 in that zone is written ["2024-01-10"]
    and read back as that date. *)
Lemma toYYYYMMDD_read_back_witness :
  toYYYYMMDD tza_ICT (Some instant_A) = "2024-01-10"
  /\ isoDate (toYYYYMMDD tza_ICT (Some instant_A))
     = Some {| ymd_year := 2024; ymd_month := 1; ymd_day := 10 |}.
Proof.
  split; [reflexivity|].
  destruct (toYYYYMMDD_read_back tza_ICT instant_A) as [H _].
  - vm_compute. split; discriminate.
  - rewrite H. reflexivity.
Defined.

(** A view mounted at that instant shows the window of 10 January. *)
Lemma initial_view_shows_now_witness :
  exists w,
    listRange tza_ICT (initialState tza_ICT instant_A instant_A instant_A instant_A)
    = Some w
    /\ startISO w <= instant_A <= endISO w.
Proof.
  destruct (initial_view_shows_now tza_ICT tza_ICT_range
              instant_A instant_A instant_A instant_A)
    as (w & mw & H1 & _ & _ & H4 & _).
  - vm_compute. split; discriminate.
  - exists w. split; [exact H1|exact H4].
Defined.

(** Anchor 10 January 2024: the 30-day window starts before the 7-day
    window, and both end with the anchor day. *)
Lemma rolling_windows_nested_witness :
  exists w7 w30,
    listRange tza_ICT (setFilterMode D7 state_A) = Some w7
    /\ listRange tza_ICT (setFilterMode D30 state_A) = Some w30
    /\ startISO w30 < startISO w7 /\ endISO w7 = endISO w30.
Proof.
  destruct (rolling_windows_nested tza_ICT tza_ICT_range state_A
              {| ymd_year := 2024; ymd_month := 1; ymd_day := 10 |} eq_refl)
    as (w1 & w7 & w30 & _ & H7 & H30 & _ & E & (L & _) & _).
  exists w7, w30. repeat split; assumption.
Defined.

(** Anchor 10 January 2024: the day window lies inside the month window. *)
Lemma day_window_within_month_witness :
  exists mw dayStart dayEnd,
    monthRange tza_ICT state_A = Some mw
    /\ startOfDayISO tza_ICT "2024-01-10" = Some dayStart
    /\ endOfDayISO tza_ICT "2024-01-10" = Some dayEnd
    /\ startISO mw <= dayStart /\ dayEnd < endISO mw.
Proof.
  destruct (day_window_within_month tza_ICT tza_ICT_range state_A
              {| ymd_year := 2024; ymd_month := 1; ymd_day := 10 |} eq_refl)
    as (mw & s & e & H1 & H2 & H3 & H4 & _ & H6).
  - vm_compute. discriminate.
  - exists mw, s, e. repeat split; assumption.
Defined.

(** The custom range 1 to 5 January 2024 is a window that is not empty. *)
Lemma custom_range_window_witness :
  exists w, listRange tza_ICT state_range = Some w /\ startISO w <= endISO w.
Proof.
  destruct (custom_range_window tza_ICT tza_ICT_range state_range
              {| ymd_year := 2024; ymd_month := 1; ymd_day := 1 |}
              {| ymd_year := 2024; ymd_month := 1; ymd_day := 5 |}
              eq_refl eq_refl eq_refl)
    as (w & H1 & H2 & _).
  exists w. split; [exact H1|]. apply H2. reflexivity.
Defined.

(** In the mode "today" the custom range does not enter the file name. *)
Lemma exportFilename_tells_windows_apart_witness :
  exportFilename state_A = "cashbook_2024-01-10.xlsx"
  /\ exportKey (setRangeFrom "2024-01-01" state_A) = exportKey state_A.
Proof.
  split; [reflexivity|].
  apply (exportFilename_tells_windows_apart (setRangeFrom "2024-01-01" state_A) state_A);
    reflexivity.
Defined.

(** An entry of room 101 is exported with the label of that room. *)
Lemma exported_room_label_witness :
  exportedRoom (fst (run (refreshAll tza_ICT closure_A env_rooms) state_A)) row_room
  = Some (CellText "Phòng 101").
Proof.
  destruct (exported_room_label tza_ICT closure_A env_rooms 1704819600000 1704905999999
              row_room)
    as (H & _).
  - reflexivity.
  - repeat split; reflexivity.
  - reflexivity.
  - reflexivity.
  - apply (H "room-1" "101");
      [reflexivity|discriminate| |reflexivity|discriminate].
    cbn [In inheritedKeys]. intros K. decompose [or] K; discriminate || assumption.
Defined.

(** Scenario A, unmounted at once: one query, nothing applied. *)
Lemma refreshAll_unmounted_witness :
  run (refreshAll tza_ICT closure_A env_unmounted) state_A
  = (setMsg "" (setLoading true state_A), [SelectRooms "prop-1"]).
Proof.
  apply (refreshAll_unmounted tza_ICT closure_A env_unmounted state_A).
  - reflexivity.
  - intros n. reflexivity.
Defined.

(** Scenario A: four queries, the view mounted, loading cleared. *)
Lemma refreshAll_loading_witness :
  loading (fst (run (refreshAll tza_ICT closure_A env_A) state_A)) = false.
Proof.
  rewrite (refreshAll_loading tza_ICT closure_A env_A state_A eq_refl). reflexivity.
Defined.

(** An expense of 200000 dated 10 January 2024: stored at noon of that
    day (05:00 UTC), followed by the four queries of the refresh and the
    navigation to the new entry; the anchor stays on the 10th, the form is
    emptied. *)
Lemma submitExpense_records_expense_witness :
  let r := run (submitExpense tza_ICT closure_expense env_accept) state_expense in
  snd r
  = [ GetUser;
      InsertPayment (expenseRecord state_expense "user-1" 1704862800000);
      SelectRooms "prop-1";
      SelectPayments "id,type,amount,method,note,paid_at,stay_id,room_id" "prop-1"
        1704819600000 (Lte 1704905999999);
      SelectPayments "type,amount" "prop-1" 1704042000000 (Lt 1706720400000);
      SelectPayments "type,amount" "prop-1" 1704819600000 (Lte 1704905999999);
      Navigate "/reports/cashbook?propertyId=prop-1&focus=pay-9" ]
  /\ selectedDate (fst r) = "2024-01-10"
  /\ expAmount (fst r) = ""
  /\ submittingExpense (fst r) = false.
Proof.
  destruct (submitExpense_records_expense tza_ICT closure_expense env_accept state_expense
              "user-1" {| ymd_year := 2024; ymd_month := 1; ymd_day := 10 |}
              tza_ICT_range eq_refl eq_refl eq_refl eq_refl eq_refl)
    as (_ & H2 & _ & _ & _ & H6 & _ & H8 & H9 & _).
  cbv zeta. split; [rewrite H2; reflexivity|].
  split; [exact H6|]. split; [|exact H9].
  exact (f_equal (fun t => fst (fst (fst (fst t)))) H8).
Defined.

(** The row that submission stores is an expense of user-1. *)
Lemma submitExpense_inserts_safely_witness :
  ins_type (expenseRecord state_expense "user-1" 1704862800000) = EXPENSE
  /\ List.filter isInsert
       (snd (run (submitExpense tza_ICT closure_expense env_accept) state_expense))
     = [InsertPayment (expenseRecord state_expense "user-1" 1704862800000)].
Proof.
  destruct (submitExpense_inserts_safely tza_ICT closure_expense env_accept state_expense
              (expenseRecord state_expense "user-1" 1704862800000))
    as (H1 & _ & _ & _ & _ & _ & H7).
  - vm_compute. right. left. reflexivity.
  - split; [exact H1|exact H7].
Defined.

(** A rejected expense: the button is released. *)
Lemma submitExpense_releases_form_witness :
  submittingExpense
    (fst (run (submitExpense tza_ICT closure_expense env_reject) state_expense))
  = false.
Proof.
  apply (submitExpense_releases_form tza_ICT closure_expense env_reject state_expense).
  reflexivity.
Defined.

(** A rejected expense: the amount typed is kept and the error shown. *)
Lemma submitExpense_failure_keeps_form_witness :
  let st' := fst (run (submitExpense tza_ICT closure_expense env_reject) state_expense) in
  expAmount st' = "200000" /\ msgType st' = error.
Proof.
  destruct (submitExpense_failure_keeps_form tza_ICT closure_expense env_reject
              state_expense eq_refl eq_refl eq_refl)
    as (H1 & _ & _ & _ & _ & H6).
  cbv zeta. split.
  - exact (f_equal (fun t => fst (fst (fst (fst t)))) H1).
  - apply H6; [discriminate|intros n; reflexivity].
Defined.

(** A signed-in user with property prop-1 assigned gets that property;
    one given in the address is preferred. *)
Lemma resolveProperty_outcomes_witness :
  propertyId (fst (p_run (resolveProperty None env_assigned) state_A)) = Some "prop-1"
  /\ propertyId (fst (p_run (resolveProperty (Some "prop-7") env_assigned) state_A))
     = Some "prop-7".
Proof.
  split.
  - destruct (resolveProperty_outcomes None env_assigned state_A (fun _ => eq_refl))
      as (_ & _ & H & _).
    exact H.
  - destruct (resolveProperty_outcomes (Some "prop-7") env_assigned state_A
                (fun _ => eq_refl))
      as (_ & _ & H).
    exact H.
Defined.

(** The user without a property: the refresh of the resolved view does
    nothing. *)
Lemma unassigned_user_stays_idle_witness :
  run (refreshAll tza_ICT closure_unassigned env_A) (c_state closure_unassigned)
  = (c_state closure_unassigned, []).
Proof.
  destruct (unassigned_user_stays_idle tza_ICT env_unassigned state_A env_A
              closure_unassigned (fun _ => eq_refl))
    as (_ & _ & H & _).
  - discriminate.
  - reflexivity.
  - reflexivity.
  - exact H.
Defined.

(** C7 at a submission of the expense form.  The view shows the custom
    range 1 to 5 January 2024 with the anchor on 10 January.  The mode
    "today" is picked, an expense dated 20 February is submitted and
    stored, and the custom range is picked again: the anchor has moved to
    20 February, and the range is still 1 to 5 January, not the single day
    20 February.  The same change of the anchor made in the anchor date
    input collapses the range to 20 February. *)
Theorem expense_submission_keeps_stale_range :
  let away := fst (run (onFilterModeClick TODAY) state_range_expense) in
  let submitted := fst (run (submitExpense tza_ICT closure_away env_accept) away) in
  let back := fst (run (onFilterModeClick RANGE) submitted) in
  let typed := fst (run (onSelectedDateChange away "2024-02-20") away) in
  let back_typed := fst (run (onFilterModeClick RANGE) typed) in
  render tza_ICT away = Some closure_away
  /\ filterMode away = TODAY
  /\ (selectedDate away, rangeFrom away, rangeTo away)
     = ("2024-01-10", "2024-01-01", "2024-01-05")
  /\ List.filter isInsert
       (snd (run (submitExpense tza_ICT closure_away env_accept) away))
     = [InsertPayment (expenseRecord state_range_expense "user-1" 1708405200000)]
  /\ filterMode back = RANGE
  /\ (selectedDate back, rangeFrom back, rangeTo back)
     = ("2024-02-20", "2024-01-01", "2024-01-05")
  /\ filterMode back_typed = RANGE
  /\ (selectedDate back_typed, rangeFrom back_typed, rangeTo back_typed)
     = ("2024-02-20", "2024-02-20", "2024-02-20").
Proof. vm_compute. repeat split; reflexivity. Qed.

(** C5 at an anchor of a two-digit year.  For the anchor 5 March of the
    year 50 the month window runs from 1 March 1950 to 1 April 1950, and
    the anchor day lies outside it. *)
Theorem monthRange_two_digit_year :
  isoDate "0050-03-05" = Some {| ymd_year := 50; ymd_month := 3; ymd_day := 5 |}
  /\ monthRange tza_ICT (viewOn "0050-03-05" TODAY)
     = Some {| startISO := -626079600000; endISO := -623401200000 |}
  /\ startOfDayISO tza_ICT "1950-03-01" = Some (-626079600000)
  /\ startOfDayISO tza_ICT "1950-04-01" = Some (-623401200000)
  /\ startOfDayISO tza_ICT "0050-03-05" = Some (-60583878000000)
  /\ localMonth tza_ICT (-60583878000000) = (50, 3)
  /\ localMonth tza_ICT (-626079600000) = (1950, 3).
Proof. vm_compute. repeat split; reflexivity. Qed.

(** C9 at an insert that returns no identifier.  The store accepts the
    insert and returns no row: the income insert throws, while the manual
    expense submission completes normally, resets the form, refreshes and
    leaves the notice type at success, with no error reported. *)
Theorem submitExpense_without_id_reports_success :
  let r := run (submitExpense tza_ICT closure_expense env_no_id) state_expense in
  resp_error (insertResp env_no_id) = None
  /\ resp_data (insertResp env_no_id) = None
  /\ completion (createIncomePaymentFromStay params_income 0 (insertResp env_no_id)) state_A
     = Throw {| instanceofError := true; message := "Không tạo được phiếu thu" |}
  /\ completion (submitExpense tza_ICT closure_expense env_no_id) state_expense = Normal tt
  /\ msgType (fst r) = success
  /\ expAmount (fst r) = ""
  /\ length (rows (fst r)) = 2%nat
  /\ snd r
     = [ GetUser;
         InsertPayment
           {| ins_property_id := "prop-1"; ins_stay_id := None; ins_room_id := None;
              ins_type := EXPENSE; ins_amount := JsFinite 200000 0; ins_method := CASH;
              ins_note := None; ins_created_by := "user-1";
              ins_paid_at := 1704862800000 |};
         SelectRooms "prop-1";
         SelectPayments "id,type,amount,method,note,paid_at,stay_id,room_id" "prop-1"
           1704819600000 (Lte 1704905999999);
         SelectPayments "type,amount" "prop-1" 1704042000000 (Lt 1706720400000);
         SelectPayments "type,amount" "prop-1" 1704819600000 (Lte 1704905999999) ].
Proof. vm_compute. repeat split; reflexivity. Qed.
